(** * Webhook message service: ingestion, storage and query paths

    A shallow embedding of [app/main.py] and [app/storage.py], with the
    parts of [app/config.py], [app/metrics.py] and [app/logging_utils.py]
    that a request passes through.

    Modelling conventions.
    - A Python [str] is a [string]; every [ascii] stands for one character
      with code point below 256.  Text comparison in SQLite (BINARY
      collation) and in Python is lexicographic on code points, which is
      [String.compare].
    - [bytes] is [list byte].
    - The [messages] table is the list of its rows in rowid (insertion)
      order; the PRIMARY KEY constraint is enforced by [insert_message],
      not assumed.
    - Python exceptions are values of [exn]; a call either returns
      ([Ok]) or raises ([Raise]).
    - SQL statements are modelled by their SQLite semantics: WHERE keeps
      the rows whose condition is true (NULL is not true), ORDER BY is a
      stable sort, a negative LIMIT means no limit, a negative OFFSET
      means 0, LIKE is the built-in operator (wildcards [%] and [_], ASCII
      case folding, operands read up to their first NUL).  Text stays
      within SQLite's length limits.
    - [MessageStorage.get_messages] is the page that the queries give;
      [Storage.get_messages] is the call, in which [limit] and [offset]
      are bound as signed 64-bit integers and [OverflowError] is raised
      for any other.
    - [insert_message] meets a storage environment [db_env] that says
      whether its statements run; the two read operations are modelled on
      a database that answers.
    - Of the libraries, [hashlib.sha256], [hmac], [re] (the two patterns),
      [datetime.fromisoformat] (Python 3.11 and later, on the format the
      pattern admits; a fraction is kept to the microsecond) and the
      field validation of pydantic 2 are modelled;
      [json.loads] is a parameter of the webhook endpoint.
    - A metric with labels is the list of its children with their values;
      a histogram child is the list of the amounts observed.  A log line
      is the object handed to [json.dumps], keys in insertion order.
      Python's [float], [round] and [str.upper] are parameters, as are the
      clock readings, the request ids and the traceback texts.
    - Of the framework, the order of the layers is modelled: an
      [HTTPException] becomes its response before the middleware sees it,
      any other exception passes through the middleware to
      [generic_exception_handler].

    The properties are numbered C1 to C10 as in the specification's list
    of checked properties; X1 onwards are further properties of the same
    code. *)

From Stdlib Require Import List String Ascii ZArith NArith Lia Bool Arith.
From Stdlib Require Import Sorting.Sorted Sorting.Permutation.
From Stdlib Require Import Init.Byte.
Import ListNotations.

#[local] Set Warnings "-register-all,-abstract-large-number".

Local Open Scope string_scope.
Local Open Scope list_scope.
Local Open Scope nat_scope.

(** ** Python results *)

Inductive exn : Type :=
| TypeError
| ValueError
| ValidationError
| OperationalError
| OverflowError.

Inductive result (A : Type) : Type :=
| Ok (a : A)
| Raise (e : exn).

Arguments Ok {A} a.
Arguments Raise {A} e.

Definition bind {A B : Type} (r : result A) (k : A -> result B) : result B :=
  match r with
  | Ok a => k a
  | Raise e => Raise e
  end.

Notation "x <- r ;; k" := (bind r (fun x => k))
  (at level 61, r at next level, right associativity).

(** ** Characters *)

Definition code (c : ascii) : nat := nat_of_ascii c.

Definition is_ascii (c : ascii) : bool := code c <? 128.

Definition is_upper_AZ (c : ascii) : bool := (65 <=? code c) && (code c <=? 90).

(** [sqlite3Tolower], also used by SQL [LOWER()]: folds A-Z only. *)
Definition sqlite_tolower (c : ascii) : ascii :=
  if is_upper_AZ c then ascii_of_nat (code c + 32) else c.

(** [str.lower()] on one character of the model's alphabet: A-Z, and the
    Latin-1 capitals U+00C0..U+00DE except the multiplication sign. *)
Definition py_lower_char (c : ascii) : ascii :=
  let n := code c in
  if is_upper_AZ c || ((192 <=? n) && (n <=? 222) && negb (n =? 215))
  then ascii_of_nat (n + 32) else c.

Fixpoint map_string (f : ascii -> ascii) (s : string) : string :=
  match s with
  | EmptyString => EmptyString
  | String c s' => String (f c) (map_string f s')
  end.

Fixpoint forall_string (p : ascii -> bool) (s : string) : bool :=
  match s with
  | EmptyString => true
  | String c s' => p c && forall_string p s'
  end.

Definition py_lower (s : string) : string := map_string py_lower_char s.

(** Python truthiness of an [Optional[str]]: [None] and [""] are falsy. *)
Definition truthy (o : option string) : bool :=
  match o with
  | Some (String _ _) => true
  | _ => false
  end.

(** ** SQLite text functions *)

Module Sqlite.

(** SQL [LOWER(X)]; NULL in, NULL out. *)
Definition lower (x : option string) : option string :=
  option_map (map_string sqlite_tolower) x.

(** [patternCompare] reads both operands as NUL-terminated C strings. *)
Fixpoint c_str (s : string) : string :=
  match s with
  | EmptyString => EmptyString
  | String c s' => if Ascii.eqb c zero then EmptyString else String c (c_str s')
  end.

(** One ordinary pattern character against one text character, with the
    default case-insensitive LIKE: equal, or both ASCII and equal after
    [sqlite3Tolower]. *)
Definition like_char_eq (c d : ascii) : bool :=
  Ascii.eqb c d
  || (is_ascii c && is_ascii d
      && Ascii.eqb (sqlite_tolower c) (sqlite_tolower d)).

Definition matchAll : ascii := "%"%char.
Definition matchOne : ascii := "_"%char.

(** [patternCompare] for LIKE without ESCAPE: [%] matches any run of
    characters, [_] exactly one. *)
Fixpoint patternCompare (p s : string) {struct p} : bool :=
  match p with
  | EmptyString =>
      match s with EmptyString => true | String _ _ => false end
  | String c p' =>
      if Ascii.eqb c matchAll then
        (fix any_suffix (t : string) : bool :=
           patternCompare p' t
           || match t with
              | EmptyString => false
              | String _ t' => any_suffix t'
              end) s
      else
        match s with
        | EmptyString => false
        | String d s' =>
            (Ascii.eqb c matchOne || like_char_eq c d) && patternCompare p' s'
        end
  end.

(** [X LIKE Y]: NULL when X is NULL. *)
Definition like (x : option string) (y : string) : option bool :=
  match x with
  | None => None
  | Some s => Some (patternCompare (c_str y) (c_str s))
  end.

(** A WHERE condition keeps a row only when it evaluates to true. *)
Definition is_true (v : option bool) : bool :=
  match v with Some true => true | _ => false end.

(** [ORDER BY]: stable insertion sort under a "less or equal" test. *)
Fixpoint insert_by {A : Type} (leb : A -> A -> bool) (x : A) (l : list A) : list A :=
  match l with
  | [] => [x]
  | y :: l' => if leb x y then x :: l else y :: insert_by leb x l'
  end.

Fixpoint order_by {A : Type} (leb : A -> A -> bool) (l : list A) : list A :=
  match l with
  | [] => []
  | x :: l' => insert_by leb x (order_by leb l')
  end.

(** [LIMIT ? OFFSET ?]. *)
Definition limit_offset {A : Type} (limit offset : Z) (l : list A) : list A :=
  let rest := skipn (Z.to_nat offset) l in
  if (limit <? 0)%Z then rest else firstn (Z.to_nat limit) rest.

(** [MIN(X)] and [MAX(X)] over a text column without NULLs. *)
Definition min_text (l : list string) : option string :=
  fold_left
    (fun acc s =>
       match acc with
       | None => Some s
       | Some m => if String.ltb s m then Some s else Some m
       end) l None.

Definition max_text (l : list string) : option string :=
  fold_left
    (fun acc s =>
       match acc with
       | None => Some s
       | Some m => if String.ltb m s then Some s else Some m
       end) l None.

(** [COUNT(DISTINCT X)]. *)
Definition count_distinct (l : list string) : nat :=
  List.length (nodup string_dec l).

(** [GROUP BY X] with [COUNT( * )]: one counter per key, keys kept in
    ascending order (the scan order of an index on X). *)
Fixpoint bump (k : string) (g : list (string * nat)) : list (string * nat) :=
  match g with
  | [] => [(k, 1)]
  | (k', n) :: g' =>
      match String.compare k k' with
      | Eq => (k', S n) :: g'
      | Lt => (k, 1) :: g
      | Gt => (k', n) :: bump k g'
      end
  end.

Definition group_count (l : list string) : list (string * nat) :=
  fold_left (fun g k => bump k g) l [].

End Sqlite.

(** ** app/models.py: the [messages] table *)

(** [CREATE_MESSAGES_TABLE]: [message_id TEXT PRIMARY KEY], three NOT NULL
    text columns, a nullable [text], and [created_at]. *)
Record Row : Type := mkRow {
  message_id : string;
  from_msisdn : string;
  to_msisdn : string;
  ts : string;
  text : option string;
  created_at : string
}.

Definition table : Type := list Row.

(** What the storage engine does to one statement of a call: it runs it, or
    the connection cannot be opened ([get_connection] raises outside the
    [try]), or a statement fails with an error other than a constraint
    violation (inside the [try]). *)
Inductive db_env : Type :=
| DbOk
| DbConnectError
| DbExecError.

(** ** app/storage.py *)

Module MessageStorage.

Definition has_key (db : table) (k : string) : bool :=
  existsb (fun r => String.eqb (message_id r) k) db.

(** [insert_message]: returns [(success, is_duplicate)] and the table
    after the call.  [now] is the formatted server clock. *)
Definition insert_message (env : db_env) (now : string) (db : table)
    (message_id from_msisdn to_msisdn ts : string) (text : option string)
  : result (bool * bool) * table :=
  match env with
  | DbConnectError => (Raise OperationalError, db)
  | DbExecError => (Ok (false, false), db)
  | DbOk =>
      if has_key db message_id
      then (Ok (true, true), db)
      else (Ok (true, false),
            db ++ [mkRow message_id from_msisdn to_msisdn ts text now])
  end.

(** The entries of the dynamically built WHERE clause, each with its
    bound parameter. *)
Inductive condition : Type :=
| FromEq (p : string)          (* from_msisdn = ? *)
| TsGe (p : string)            (* ts >= ? *)
| LowerTextLike (p : string).  (* LOWER(text) LIKE ? *)

Definition conditions (from_filter since q : option string) : list condition :=
  (if truthy from_filter
   then match from_filter with Some f => [FromEq f] | None => [] end
   else [])
  ++ (if truthy since
      then match since with Some s => [TsGe s] | None => [] end
      else [])
  ++ (if truthy q
      then match q with
           | Some s => [LowerTextLike ("%" ++ py_lower s ++ "%")%string]
           | None => []
           end
      else []).

Definition eval_condition (r : Row) (c : condition) : bool :=
  match c with
  | FromEq p => String.eqb (from_msisdn r) p
  | TsGe p => String.leb p (ts r)
  | LowerTextLike p => Sqlite.is_true (Sqlite.like (Sqlite.lower (text r)) p)
  end.

(** [WHERE c1 AND c2 AND ...]; no WHERE at all when the list is empty. *)
Definition where_clause (cs : list condition) (r : Row) : bool :=
  forallb (eval_condition r) cs.

(** [ORDER BY ts ASC, message_id ASC]. *)
Definition ts_id_leb (a b : Row) : bool :=
  match String.compare (ts a) (ts b) with
  | Lt => true
  | Gt => false
  | Eq => String.leb (message_id a) (message_id b)
  end.

(** One element of ["data"]: the dict with keys message_id, from, to,
    ts, text. *)
Record Item : Type := mkItem {
  item_message_id : string;
  item_from : string;
  item_to : string;
  item_ts : string;
  item_text : option string
}.

Definition item_of_row (r : Row) : Item :=
  mkItem (message_id r) (from_msisdn r) (to_msisdn r) (ts r) (text r).

Record Page : Type := mkPage {
  data : list Item;
  total : nat;
  limit : Z;
  offset : Z
}.

Definition matching (db : table) (from_filter since q : option string) : list Row :=
  filter (where_clause (conditions from_filter since q)) db.

(** The page that the two queries of [get_messages] give once their
    parameters are bound: what the call returns whenever it returns.  The
    call itself, with the binding of [limit] and [offset], is
    [Storage.get_messages] below. *)
Definition get_messages (db : table) (limit offset : Z)
    (from_filter since q : option string) : Page :=
  let cs := conditions from_filter since q in
  let total := List.length (filter (where_clause cs) db) in
  let rows :=
    Sqlite.limit_offset limit offset
      (Sqlite.order_by ts_id_leb (filter (where_clause cs) db)) in
  mkPage (map item_of_row rows) total limit offset.

Record Stats : Type := mkStats {
  total_messages : nat;
  senders_count : nat;
  messages_per_sender : list (string * nat);
  first_message_ts : option string;
  last_message_ts : option string
}.

(** [ORDER BY count DESC]. *)
Definition count_geb (a b : string * nat) : bool := snd b <=? snd a.

Definition get_stats (db : table) : Stats :=
  let senders := map from_msisdn db in
  mkStats
    (List.length db)
    (Sqlite.count_distinct senders)
    (Sqlite.limit_offset 10 0
       (Sqlite.order_by count_geb (Sqlite.group_count senders)))
    (Sqlite.min_text (map ts db))
    (Sqlite.max_text (map ts db)).

End MessageStorage.

(** ** app/storage.py: [get_messages] as it is called *)

Module Storage.

(** [sqlite3] binds a Python [int] as a signed 64-bit integer and raises
    [OverflowError] for one that does not fit. *)
Definition fits_int64 (n : Z) : bool :=
  ((- 2 ^ 63 <=? n) && (n <? 2 ^ 63))%Z.

Definition bind_int (n : Z) : result Z :=
  if fits_int64 n then Ok n else Raise OverflowError.

(** [MessageStorage.get_messages]: the count query binds the filters only;
    the data query binds [limit] and [offset] after them, and nothing
    catches what that raises ([finally] closes the connection). *)
Definition get_messages (db : table) (limit offset : Z)
    (from_filter since q : option string) : result MessageStorage.Page :=
  lim <- bind_int limit ;;
  off <- bind_int offset ;;
  Ok (MessageStorage.get_messages db lim off from_filter since q).

End Storage.

(** ** hashlib.sha256 and hmac (FIPS 180-4, RFC 2104) *)

Module Sha256.

Local Open Scope Z_scope.

Definition mask32 : Z := 2 ^ 32 - 1.

(** Addition of 32-bit words, with its wrap-around. *)
Definition add32 (x y : Z) : Z := Z.land (x + y) mask32.

Definition rotr (n x : Z) : Z :=
  Z.lor (Z.shiftr x n) (Z.land (Z.shiftl x (32 - n)) mask32).

Definition Ch (x y z : Z) : Z :=
  Z.lxor (Z.land x y) (Z.land (Z.lxor x mask32) z).

Definition Maj (x y z : Z) : Z :=
  Z.lxor (Z.lxor (Z.land x y) (Z.land x z)) (Z.land y z).

Definition xor3 (a b c : Z) : Z := Z.lxor (Z.lxor a b) c.

Definition Sum0 (x : Z) : Z := xor3 (rotr 2 x) (rotr 13 x) (rotr 22 x).
Definition Sum1 (x : Z) : Z := xor3 (rotr 6 x) (rotr 11 x) (rotr 25 x).
Definition sig0 (x : Z) : Z := xor3 (rotr 7 x) (rotr 18 x) (Z.shiftr x 3).
Definition sig1 (x : Z) : Z := xor3 (rotr 17 x) (rotr 19 x) (Z.shiftr x 10).

(** The round constants and the initial state are defined from the first
    primes: 32 bits of the fractional part of their cube and square
    roots. *)
Definition is_prime (n : nat) : bool :=
  forallb (fun d => negb (Nat.eqb (Nat.modulo n d) 0)) (seq 2 (n - 2)).

Definition primes64 : list Z :=
  map Z.of_nat (filter is_prime (seq 2 310)).

Fixpoint cube_root_bits (n : nat) (x acc : Z) : Z :=
  match n with
  | O => acc
  | S n' =>
      let cand := acc + Z.shiftl 1 (Z.of_nat n') in
      cube_root_bits n' x (if cand * cand * cand <=? x then cand else acc)
  end.

Definition cube_root (x : Z) : Z := cube_root_bits 40 x 0.

Definition K : list Z :=
  Eval vm_compute in
    map (fun p => Z.land (cube_root (p * 2 ^ 96)) mask32) primes64.

Definition H0 : list Z :=
  Eval vm_compute in
    map (fun p => Z.land (Z.sqrt (p * 2 ^ 64)) mask32) (firstn 8 primes64).

Definition byte_val (b : byte) : Z := Z.of_N (Byte.to_N b).

Definition byte_of (z : Z) : byte :=
  match Byte.of_N (Z.to_N (Z.land z 255)) with
  | Some b => b
  | None => x00
  end.

(** Big-endian bytes of a word. *)
Definition be_bytes (n : nat) (z : Z) : list byte :=
  map (fun i => byte_of (Z.shiftr z (8 * Z.of_nat i))) (rev (seq 0 n)).

Definition be_word (bs : list byte) : Z :=
  fold_left (fun acc b => acc * 256 + byte_val b) bs 0.

(** Padding: the bit 1, zeros up to 56 modulo 64, the bit length. *)
Definition pad (msg : list byte) : list byte :=
  let l := List.length msg in
  msg ++ [x80]
      ++ repeat x00 (Nat.modulo (64 - Nat.modulo (l + 9) 64) 64)
      ++ be_bytes 8 (8 * Z.of_nat l).

Fixpoint chunks (fuel size : nat) (l : list byte) : list (list byte) :=
  match fuel with
  | O => []
  | S fuel' =>
      match l with
      | [] => []
      | _ => firstn size l :: chunks fuel' size (skipn size l)
      end
  end.

Fixpoint extend (n : nat) (w : list Z) : list Z :=
  match n with
  | O => w
  | S n' =>
      let t := List.length w in
      let at_ (i : nat) := nth (t - i) w 0 in
      extend n'
        (w ++ [add32 (add32 (sig1 (at_ 2%nat)) (at_ 7%nat))
                     (add32 (sig0 (at_ 15%nat)) (at_ 16%nat))])
  end.

Definition schedule (block : list byte) : list Z :=
  extend 48 (map be_word (chunks 16 4 block)).

Definition round (st : list Z) (kw : Z * Z) : list Z :=
  match st with
  | [a; b; c; d; e; f; g; h] =>
      let t1 := add32 (add32 (add32 h (Sum1 e)) (add32 (Ch e f g) (fst kw))) (snd kw) in
      let t2 := add32 (Sum0 a) (Maj a b c) in
      [add32 t1 t2; a; b; c; add32 d t1; e; f; g]
  | _ => st
  end.

Definition compress (st : list Z) (block : list byte) : list Z :=
  map (fun p => add32 (fst p) (snd p))
    (combine st (fold_left round (combine K (schedule block)) st)).

Definition digest (msg : list byte) : list byte :=
  let padded := pad msg in
  flat_map (be_bytes 4)
    (fold_left compress (chunks (List.length padded) 64 padded) H0).

End Sha256.

Module Hmac.

Definition block_size : nat := 64.

Definition xor_pad (pad : Z) (key : list byte) : list byte :=
  map (fun b => Sha256.byte_of (Z.lxor (Sha256.byte_val b) pad)) key.

(** [hmac.new(key, msg, hashlib.sha256).digest()]. *)
Definition digest (key msg : list byte) : list byte :=
  let key1 := if block_size <? List.length key then Sha256.digest key else key in
  let key2 := key1 ++ repeat x00 (block_size - List.length key1) in
  Sha256.digest
    (xor_pad 92 key2 ++ Sha256.digest (xor_pad 54 key2 ++ msg)).

Definition hex_digit (n : nat) : ascii :=
  ascii_of_nat (if n <? 10 then 48 + n else 87 + n).

Fixpoint hex (bs : list byte) : string :=
  match bs with
  | [] => EmptyString
  | b :: bs' =>
      let n := Byte.to_nat b in
      String (hex_digit (n / 16)) (String (hex_digit (Nat.modulo n 16)) (hex bs'))
  end.

(** [.hexdigest()]. *)
Definition hexdigest (key msg : list byte) : string := hex (digest key msg).

(** [hmac.compare_digest] on two [str]: both must be ASCII, otherwise it
    raises [TypeError]. *)
Definition compare_digest (a b : string) : result bool :=
  if forall_string is_ascii a && forall_string is_ascii b
  then Ok (String.eqb a b)
  else Raise TypeError.

End Hmac.

(** [str.encode("utf-8")] on the model's alphabet: one byte below 128, two
    bytes from 128 to 255. *)
Fixpoint encode_utf8 (s : string) : list byte :=
  match s with
  | EmptyString => []
  | String c s' =>
      let n := Z.of_nat (code c) in
      (if (n <? 128)%Z then [Sha256.byte_of n]
       else [Sha256.byte_of (192 + Z.shiftr n 6);
             Sha256.byte_of (128 + Z.land n 63)])
      ++ encode_utf8 s'
  end.

(** ** app/main.py: [verify_signature] *)

Definition verify_signature (secret : string) (body : list byte)
    (signature : string) : result bool :=
  let expected := Hmac.hexdigest (encode_utf8 secret) body in
  Hmac.compare_digest expected signature.

(** ** re: the two compiled patterns *)

Module Re.

Inductive charset : Type :=
| Lit (c : ascii)              (* one literal character *)
| Range (lo hi : ascii)        (* [lo-hi] *)
| Digit.                       (* \d; on the model's alphabet, 0-9 *)

Definition in_range (lo hi n : nat) : bool := (lo <=? n) && (n <=? hi).

Definition in_set (cs : charset) (c : ascii) : bool :=
  match cs with
  | Lit c' => Ascii.eqb c' c
  | Range lo hi => in_range (code lo) (code hi) (code c)
  | Digit => in_range 48 57 (code c)
  end.

Inductive regex : Type :=
| Empty
| Eps
| Sym (cs : charset)
| Cat (r1 r2 : regex)
| Alt (r1 r2 : regex)
| Star (r : regex).

Definition Plus (r : regex) : regex := Cat r (Star r).   (* r+ *)
Definition Opt (r : regex) : regex := Alt r Eps.         (* r? *)

Fixpoint Rep (n : nat) (r : regex) : regex :=            (* r{n} *)
  match n with
  | O => Eps
  | S n' => Cat r (Rep n' r)
  end.

Fixpoint nullable (r : regex) : bool :=
  match r with
  | Empty => false
  | Eps => true
  | Sym _ => false
  | Cat r1 r2 => nullable r1 && nullable r2
  | Alt r1 r2 => nullable r1 || nullable r2
  | Star _ => true
  end.

Fixpoint deriv (c : ascii) (r : regex) : regex :=
  match r with
  | Empty => Empty
  | Eps => Empty
  | Sym cs => if in_set cs c then Eps else Empty
  | Cat r1 r2 =>
      if nullable r1
      then Alt (Cat (deriv c r1) r2) (deriv c r2)
      else Cat (deriv c r1) r2
  | Alt r1 r2 => Alt (deriv c r1) (deriv c r2)
  | Star r1 => Cat (deriv c r1) (Star r1)
  end.

Fixpoint accepts (r : regex) (s : string) : bool :=
  match s with
  | EmptyString => nullable r
  | String c s' => accepts (deriv c r) s'
  end.

(** The text before a final newline, if the text ends with one. *)
Fixpoint chomp (s : string) : option string :=
  match s with
  | EmptyString => None
  | String c s' =>
      match s' with
      | EmptyString => if Ascii.eqb c "010"%char then Some EmptyString else None
      | String _ _ => option_map (String c) (chomp s')
      end
  end.

(** [re.compile("^R$").match(s)]: [$] matches at the end of the text and
    also just before a newline that ends the text. *)
Definition match_ (r : regex) (s : string) : bool :=
  accepts r s
  || match chomp s with
     | Some w => accepts r w
     | None => false
     end.

Definition lit (c : ascii) : regex := Sym (Lit c).
Definition d : regex := Sym Digit.

End Re.

(** [E164_PATTERN = re.compile(r"^\+[0-9]+$")] *)
Definition E164_PATTERN : Re.regex :=
  Re.Cat (Re.lit "+") (Re.Plus (Re.Sym (Re.Range "0" "9"))).

(** [ISO8601_UTC_PATTERN =
     re.compile(r"^\d{4}-\d{2}-\d{2}T\d{2}:\d{2}:\d{2}(\.\d+)?Z$")] *)
Definition ISO8601_UTC_PATTERN : Re.regex :=
  Re.Cat (Re.Rep 4 Re.d) (Re.Cat (Re.lit "-")
  (Re.Cat (Re.Rep 2 Re.d) (Re.Cat (Re.lit "-")
  (Re.Cat (Re.Rep 2 Re.d) (Re.Cat (Re.lit "T")
  (Re.Cat (Re.Rep 2 Re.d) (Re.Cat (Re.lit ":")
  (Re.Cat (Re.Rep 2 Re.d) (Re.Cat (Re.lit ":")
  (Re.Cat (Re.Rep 2 Re.d)
  (Re.Cat (Re.Opt (Re.Cat (Re.lit ".") (Re.Plus Re.d)))
          (Re.lit "Z")))))))))))).

(** ** datetime.fromisoformat *)

Module Datetime.

Record datetime : Type := mkDatetime {
  year : nat; month : nat; day : nat;
  hour : nat; minute : nat; second : nat;
  microsecond : N;
  utcoffset : option (bool * nat * nat)   (* sign, hours, minutes *)
}.

Definition is_digit (c : ascii) : bool := Re.in_range 48 57 (code c).

Definition digit (c : ascii) : option nat :=
  if is_digit c then Some (code c - 48) else None.

Definition is_leap (y : nat) : bool :=
  (Nat.eqb (Nat.modulo y 4) 0)
  && (negb (Nat.eqb (Nat.modulo y 100) 0) || Nat.eqb (Nat.modulo y 400) 0).

Definition days_in_month (y m : nat) : nat :=
  match m with
  | 2 => if is_leap y then 29 else 28
  | 4 | 6 | 9 | 11 => 30
  | _ => 31
  end.

(** The range checks of the [datetime] constructor (MINYEAR is 1). *)
Definition in_range (dt : datetime) : bool :=
  (1 <=? year dt) && (Z.of_nat (year dt) <=? 9999)%Z
  && (1 <=? month dt) && (month dt <=? 12)
  && (1 <=? day dt) && (day dt <=? days_in_month (year dt) (month dt))
  && (hour dt <=? 23) && (minute dt <=? 59) && (second dt <=? 59)
  && match utcoffset dt with
     | Some (_, h, m) => (h <=? 23) && (m <=? 59)
     | None => true
     end.

Definition num2 (s : string) : option (nat * string) :=
  match s with
  | String a (String b rest) =>
      match digit a, digit b with
      | Some x, Some y => Some (10 * x + y, rest)
      | _, _ => None
      end
  | _ => None
  end.

Definition num4 (s : string) : option (nat * string) :=
  match num2 s with
  | Some (hi, rest) =>
      match num2 rest with
      | Some (lo, rest') => Some (100 * hi + lo, rest')
      | None => None
      end
  | None => None
  end.

Definition expect (c : ascii) (s : string) : option string :=
  match s with
  | String c' rest => if Ascii.eqb c c' then Some rest else None
  | EmptyString => None
  end.

Fixpoint span_digits (s : string) : string * string :=
  match s with
  | EmptyString => (EmptyString, EmptyString)
  | String c s' =>
      if is_digit c
      then let (ds, rest) := span_digits s' in (String c ds, rest)
      else (EmptyString, s)
  end.

(** An optional fraction of a second: a point or a comma and at least one
    digit. *)
Definition fraction_part (s : string) : option (string * string) :=
  match s with
  | String c s' =>
      if Ascii.eqb c "." || Ascii.eqb c ","
      then match span_digits s' with
           | (EmptyString, _) => None
           | (ds, rest) => Some (ds, rest)
           end
      else Some (EmptyString, s)
  | EmptyString => Some (EmptyString, s)
  end.

(** The microseconds of a fraction: its first six digits, a missing one
    read as 0; the digits after the sixth are dropped. *)
Fixpoint microseconds_from (n : nat) (ds : string) : N :=
  match n, ds with
  | S n', String c ds' =>
      (N.of_nat (code c - 48) * 10 ^ N.of_nat n' + microseconds_from n' ds')%N
  | _, _ => 0%N
  end.

Definition microseconds (ds : string) : N := microseconds_from 6 ds.

(** An optional offset [+HH:MM] or [-HH:MM], then the end of the text. *)
Definition offset_part (s : string) : option (option (bool * nat * nat)) :=
  match s with
  | EmptyString => Some None
  | String c s' =>
      if Ascii.eqb c "+" || Ascii.eqb c "-"
      then match num2 s' with
           | Some (h, rest) =>
               match expect ":" rest with
               | Some rest' =>
                   match num2 rest' with
                   | Some (m, EmptyString) => Some (Some (Ascii.eqb c "-", h, m))
                   | _ => None
                   end
               | None => None
               end
           | None => None
           end
      else None
  end.

Definition opt_bind {A B : Type} (o : option A) (k : A -> option B) : option B :=
  match o with
  | Some a => k a
  | None => None
  end.

Notation "' p <-- o ;;; k" := (opt_bind o (fun p => k))
  (at level 61, p pattern, o at next level, right associativity).

(** [datetime.fromisoformat] on the extended format with a full date and a
    full time, [YYYY-MM-DD?HH:MM:SS[.f+][+HH:MM]] with any separator;
    every text that passes [ISO8601_UTC_PATTERN] has this format once its
    [Z] is replaced.  [None] stands for [ValueError]. *)
Definition parse (s : string) : option datetime :=
  ' (y, s) <-- num4 s ;;;
  ' s <-- expect "-" s ;;;
  ' (mo, s) <-- num2 s ;;;
  ' s <-- expect "-" s ;;;
  ' (dd, s) <-- num2 s ;;;
  match s with
  | EmptyString => None
  | String _ s =>
      ' (h, s) <-- num2 s ;;;
      ' s <-- expect ":" s ;;;
      ' (mi, s) <-- num2 s ;;;
      ' s <-- expect ":" s ;;;
      ' (sec, s) <-- num2 s ;;;
      ' (frac, s) <-- fraction_part s ;;;
      ' off <-- offset_part s ;;;
      let dt := mkDatetime y mo dd h mi sec (microseconds frac) off in
      if in_range dt then Some dt else None
  end.

Definition fromisoformat (s : string) : result datetime :=
  match parse s with
  | Some dt => Ok dt
  | None => Raise ValueError
  end.

End Datetime.

(** [str.replace(old, new)] for a one-character [old]. *)
Fixpoint str_replace (old : ascii) (new : string) (s : string) : string :=
  match s with
  | EmptyString => EmptyString
  | String c s' =>
      if Ascii.eqb c old then (new ++ str_replace old new s')%string
      else String c (str_replace old new s')
  end.

(** ** app/main.py: [WebhookPayload] *)

(** The values [json.loads] produces. *)
Inductive pyvalue : Type :=
| PNone
| PBool (b : bool)
| PInt (z : Z)
| PFloat (literal : string)
| PStr (s : string)
| PList (l : list pyvalue)
| PDict (items : list (string * pyvalue)).

(** [dict.get]; the first binding of a key is the effective one. *)
Fixpoint dict_get (k : string) (items : list (string * pyvalue)) : option pyvalue :=
  match items with
  | [] => None
  | (k', v) :: rest => if String.eqb k' k then Some v else dict_get k rest
  end.

Module WebhookPayload.

Record t : Type := mk {
  message_id : string;
  from_ : string;
  to : string;
  ts : string;
  text : option string
}.

(** What validating one field gives: its value, an error collected into
    the final [ValidationError], or an exception that leaves the
    constructor at once. *)
Inductive field (A : Type) : Type :=
| Valid (a : A)
| Invalid
| Escapes (e : exn).

Arguments Valid {A} a.
Arguments Invalid {A}.
Arguments Escapes {A} e.

(** A required [str] field. *)
Definition required_str (o : option pyvalue) : field string :=
  match o with
  | Some (PStr s) => Valid s
  | _ => Invalid
  end.

(** [message_id: str = Field(..., min_length=1)] *)
Definition field_message_id (data : list (string * pyvalue)) : field string :=
  match required_str (dict_get "message_id" data) with
  | Valid s => if 1 <=? String.length s then Valid s else Invalid
  | other => other
  end.

(** [validate_from_e164], [mode="before"]: it receives the raw value, and
    [E164_PATTERN.match] raises [TypeError] on a value that is not text. *)
Definition validate_from_e164 (v : pyvalue) : result pyvalue :=
  match v with
  | PStr s => if Re.match_ E164_PATTERN s then Ok v else Raise ValueError
  | _ => Raise TypeError
  end.

(** [from_: str = Field(..., alias="from")] under
    [populate_by_name = True]: the alias is looked up first, then the
    field name. *)
Definition field_from (data : list (string * pyvalue)) : field string :=
  let raw :=
    match dict_get "from" data with
    | Some v => Some v
    | None => dict_get "from_" data
    end in
  match raw with
  | None => Invalid
  | Some v =>
      match validate_from_e164 v with
      | Ok v' => required_str (Some v')
      | Raise ValueError => Invalid
      | Raise e => Escapes e
      end
  end.

Definition validate_to_e164 (v : string) : result string :=
  if Re.match_ E164_PATTERN v then Ok v else Raise ValueError.

(** [to: str = Field(...)] with its validator run after the type check. *)
Definition field_to (data : list (string * pyvalue)) : field string :=
  match required_str (dict_get "to" data) with
  | Valid s =>
      match validate_to_e164 s with
      | Ok s' => Valid s'
      | Raise _ => Invalid
      end
  | other => other
  end.

Definition validate_ts_iso8601 (v : string) : result string :=
  if negb (Re.match_ ISO8601_UTC_PATTERN v) then Raise ValueError
  else
    match Datetime.fromisoformat (str_replace "Z" "+00:00" v) with
    | Ok _ => Ok v
    | Raise _ => Raise ValueError
    end.

Definition field_ts (data : list (string * pyvalue)) : field string :=
  match required_str (dict_get "ts" data) with
  | Valid s =>
      match validate_ts_iso8601 s with
      | Ok s' => Valid s'
      | Raise _ => Invalid
      end
  | other => other
  end.

(** [text: Optional[str] = Field(None, max_length=4096)] *)
Definition field_text (data : list (string * pyvalue)) : field (option string) :=
  match dict_get "text" data with
  | None => Valid None
  | Some PNone => Valid None
  | Some (PStr s) => if String.length s <=? 4096 then Valid (Some s) else Invalid
  | Some _ => Invalid
  end.

(** [WebhookPayload( **payload_data )]: the fields are validated in
    declaration order; an exception other than [ValueError] raised by a
    validator leaves at once, otherwise all errors are reported together
    as one [ValidationError]. *)
Definition new (payload_data : pyvalue) : result t :=
  match payload_data with
  | PDict data =>
      let f1 := field_message_id data in
      match field_from data with
      | Escapes e => Raise e
      | f2 =>
          match f1, f2, field_to data, field_ts data, field_text data with
          | Valid a, Valid b, Valid c, Valid d, Valid e => Ok (mk a b c d e)
          | _, _, _, _, _ => Raise ValidationError
          end
      end
  | _ => Raise TypeError
  end.

End WebhookPayload.

(** ** app/main.py: the endpoints *)

Module Main.

(** [request.state.webhook_result] *)
Inductive outcome : Type :=
| invalid_signature
| validation_error
| duplicate
| created.

Record RequestState : Type := mkState {
  webhook_message_id : option string;
  webhook_dup : option bool;
  webhook_result : option outcome
}.

(** The state set by [logging_middleware] before the handler runs. *)
Definition fresh_state : RequestState := mkState None None None.

(** The JSON body of a response. *)
Inductive content : Type :=
| StatusOk                    (* {"status": "ok"} *)
| Detail (msg : string)       (* {"detail": msg} *)
| DetailOf (e : exn)          (* {"detail": str(e)} *)
| RequestErrors               (* the framework's list of parameter errors *)
| Listing (page : MessageStorage.Page).

(** How a handler ends: it returns, raises [HTTPException], or lets
    another exception through. *)
Inductive ending : Type :=
| Returns (body : content)
| HTTPException (status_code : Z) (detail : content)
| Uncaught (e : exn).

Record Response : Type := mkResponse {
  status_code : Z;
  body : content
}.

(** What the framework sends: 200 for a returned model, the status and
    detail of an [HTTPException], and [generic_exception_handler] for
    anything else. *)
Definition respond (e : ending) : Response :=
  match e with
  | Returns b => mkResponse 200 b
  | HTTPException st d => mkResponse st d
  | Uncaught _ => mkResponse 500 (Detail "Internal server error")
  end.

Record Handled : Type := mkHandled {
  ending_of : ending;
  state_of : RequestState;
  table_of : table
}.

Section Webhook.

(** [json.loads], Python's JSON decoder. *)
Variable json_loads : list byte -> result pyvalue.

(** [POST /webhook].  [secret] is [settings.webhook_secret]; [env] and
    [now] are the storage environment and the clock met by the call of
    [insert_message]. *)
Definition webhook (secret : string) (env : db_env) (now : string)
    (db : table) (body : list byte) (x_signature : option string) : Handled :=
  let st := fresh_state in
  if negb (truthy x_signature) then
    mkHandled (HTTPException 401 (Detail "invalid signature"))
      (mkState None None (Some invalid_signature)) db
  else
    match verify_signature secret body
            (match x_signature with Some s => s | None => EmptyString end) with
    | Raise e => mkHandled (Uncaught e) st db
    | Ok false =>
        mkHandled (HTTPException 401 (Detail "invalid signature"))
          (mkState None None (Some invalid_signature)) db
    | Ok true =>
        match (payload_data <- json_loads body ;;
               WebhookPayload.new payload_data) with
        | Raise e =>
            mkHandled (HTTPException 422 (DetailOf e))
              (mkState None None (Some validation_error)) db
        | Ok payload =>
            let mid := WebhookPayload.message_id payload in
            match MessageStorage.insert_message env now db
                    mid
                    (WebhookPayload.from_ payload)
                    (WebhookPayload.to payload)
                    (WebhookPayload.ts payload)
                    (WebhookPayload.text payload) with
            | (Raise e, db') =>
                mkHandled (Uncaught e) (mkState (Some mid) None None) db'
            | (Ok (success, is_duplicate), db') =>
                mkHandled (Returns StatusOk)
                  (mkState (Some mid) (Some is_duplicate)
                     (Some (if is_duplicate then duplicate else created)))
                  db'
            end
        end
    end.

End Webhook.

(** [GET /messages]: [limit] in 1..100 and [offset] at least 0, checked by
    the framework before the handler runs (422 otherwise); [offset] has no
    upper bound.  The filters are passed on as they are, and what the
    store raises is not caught. *)
Definition get_messages (db : table) (limit offset : Z)
    (from_ since q : option string) : Response :=
  if ((1 <=? limit) && (limit <=? 100) && (0 <=? offset))%Z
  then match Storage.get_messages db limit offset from_ since q with
       | Ok result => respond (Returns (Listing result))
       | Raise exc => respond (Uncaught exc)
       end
  else mkResponse 422 RequestErrors.

End Main.

(** ** Vocabulary of the statements *)

(** The listing order: [ts] ascending, ties by [message_id] ascending,
    both compared as text. *)
Definition item_le (a b : MessageStorage.Item) : Prop :=
  String.compare (MessageStorage.item_ts a) (MessageStorage.item_ts b) = Lt
  \/ (MessageStorage.item_ts a = MessageStorage.item_ts b
      /\ String.leb (MessageStorage.item_message_id a)
                    (MessageStorage.item_message_id b) = true).

(** The rows stored under one [message_id]. *)
Definition rows_with_id (db : table) (k : string) : list Row :=
  filter (fun r => String.eqb (message_id r) k) db.

(** The PRIMARY KEY invariant of a table. *)
Definition unique_ids (db : table) : Prop := NoDup (map message_id db).

(** One call of [insert_message] together with the environment it meets. *)
Record InsertCall : Type := mkCall {
  call_env : db_env;
  call_now : string;
  call_message_id : string;
  call_from : string;
  call_to : string;
  call_ts : string;
  call_text : option string
}.

Definition run_call (db : table) (c : InsertCall) : table :=
  snd (MessageStorage.insert_message (call_env c) (call_now c) db
         (call_message_id c) (call_from c) (call_to c) (call_ts c) (call_text c)).

Definition run_calls (db : table) (cs : list InsertCall) : table :=
  fold_left run_call cs db.

(** The text search.  A query is plain when it is made of ASCII characters
    other than NUL and the two LIKE wildcards. *)
Definition plain_char (c : ascii) : bool :=
  is_ascii c && negb (Ascii.eqb c zero)
  && negb (Ascii.eqb c Sqlite.matchAll) && negb (Ascii.eqb c Sqlite.matchOne).

Definition plain_query (q : string) : bool := forall_string plain_char q.

Definition fold_case (s : string) : string := map_string sqlite_tolower s.

(** [q] occurs in [t] as a substring when the case of A-Z is ignored. *)
Definition occurs_ci (q t : string) : Prop :=
  exists pre post : string, fold_case t = (pre ++ fold_case q ++ post)%string.

(** The filter conjunction in the words of the specification: every
    supplied filter restricts. *)
Definition stated_match (from_filter since q : option string) (r : Row) : Prop :=
  match from_filter with Some f => from_msisdn r = f | None => True end
  /\ match since with Some s => String.leb s (ts r) = true | None => True end
  /\ match q with
     | Some t => exists txt : string, text r = Some txt /\ occurs_ci t txt
     | None => True
     end.

(** A text without the character NUL. *)
Definition nul_free (s : string) : bool :=
  forall_string (fun c => negb (Ascii.eqb c zero)) s.

(** The filter conjunction of the code: an empty string is no filter. *)
Definition filter_match (from_filter since q : option string) (r : Row) : Prop :=
  match from_filter with
  | Some f => f = "" \/ from_msisdn r = f
  | None => True
  end
  /\ match since with
     | Some s => s = "" \/ String.leb s (ts r) = true
     | None => True
     end
  /\ match q with
     | Some t =>
         t = "" \/ exists txt : string, text r = Some txt /\ occurs_ci t txt
     | None => True
     end.

(** A text without the capitals A-Z. *)
Definition lowered (s : string) : Prop :=
  forall_string (fun c => negb (is_upper_AZ c)) s = true.

(** Sample rows for the concrete statements. *)
Definition sample_row (id sender stamp : string) (body : option string) : Row :=
  mkRow id sender "+14155550100" stamp body "2025-01-15T10:00:01.000Z".

(** The number of rows sent by [f]. *)
Definition sent_by (db : table) (f : string) : nat :=
  List.length (filter (fun r => String.eqb (from_msisdn r) f) db).

(** The count held for key [k] in a list of counters. *)
Fixpoint counted (k : string) (g : list (string * nat)) : nat :=
  match g with
  | [] => 0
  | (k', n) :: g' => (if String.eqb k' k then n else 0) + counted k g'
  end.

Definition keys_ascending (g : list (string * nat)) : Prop :=
  StronglySorted (fun a b => String.compare (fst a) (fst b) = Lt) g.

Definition count_descending (g : list (string * nat)) : Prop :=
  StronglySorted (fun a b => snd b <= snd a) g.

(** The language of a pattern. *)
Inductive lang : Re.regex -> string -> Prop :=
| lang_eps : lang Re.Eps EmptyString
| lang_sym cs c : Re.in_set cs c = true -> lang (Re.Sym cs) (String c EmptyString)
| lang_cat r1 r2 s1 s2 :
    lang r1 s1 -> lang r2 s2 -> lang (Re.Cat r1 r2) (s1 ++ s2)%string
| lang_alt_l r1 r2 s : lang r1 s -> lang (Re.Alt r1 r2) s
| lang_alt_r r1 r2 s : lang r2 s -> lang (Re.Alt r1 r2) s
| lang_star_nil r : lang (Re.Star r) EmptyString
| lang_star_cons r s1 s2 :
    lang r s1 -> lang (Re.Star r) s2 -> lang (Re.Star r) (s1 ++ s2)%string.

Definition newline : string := String "010"%char EmptyString.

Definition digits (s : string) : Prop := forall_string Datetime.is_digit s = true.

(** A text that [E164_PATTERN] matches: a plus sign and one or more digits
    0-9 (and, as [$] allows, possibly one final newline). *)
Definition e164 (s : string) : Prop :=
  exists ds nl : string,
    s = String "+"%char (ds ++ nl)%string
    /\ ds <> EmptyString /\ digits ds
    /\ (nl = EmptyString \/ nl = newline).

Definition dec (c : ascii) : nat := code c - 48.
Definition dec2 (a b : ascii) : nat := 10 * dec a + dec b.
Definition dec4 (a b c d : ascii) : nat := 100 * dec2 a b + dec2 c d.

(** A real calendar instant: a year from 1, a month, a day of that month
    (leap years by the Gregorian rule), and a time of day. *)
Definition real_instant (y mo d h mi s : nat) : Prop :=
  1 <= y /\ 1 <= mo <= 12 /\ 1 <= d <= Datetime.days_in_month y mo
  /\ h <= 23 /\ mi <= 59 /\ s <= 59.

(** [YYYY-MM-DDTHH:MM:SS] followed by [tail]. *)
Definition stamp (y1 y2 y3 y4 m1 m2 d1 d2 h1 h2 n1 n2 s1 s2 : ascii)
    (tail : string) : string :=
  String y1 (String y2 (String y3 (String y4 (String "-"
    (String m1 (String m2 (String "-"
    (String d1 (String d2 (String "T"
    (String h1 (String h2 (String ":"
    (String n1 (String n2 (String ":"
    (String s1 (String s2 tail)))))))))))))))))).

Definition stamp_digits (y1 y2 y3 y4 m1 m2 d1 d2 h1 h2 n1 n2 s1 s2 : ascii) : Prop :=
  digits (String y1 (String y2 (String y3 (String y4
           (String m1 (String m2 (String d1 (String d2
           (String h1 (String h2 (String n1 (String n2
           (String s1 (String s2 EmptyString)))))))))))))).

(** An optional fraction of a second: nothing, or a point and one or more
    digits. *)
Definition fraction_ok (frac : string) : Prop :=
  frac = EmptyString
  \/ exists ds, frac = String "."%char ds /\ ds <> EmptyString /\ digits ds.

(** A text of the shape [YYYY-MM-DDTHH:MM:SS], an optional fraction, and
    [Z], that names a real calendar instant. *)
Definition iso8601_utc_instant (v : string) : Prop :=
  exists (y1 y2 y3 y4 m1 m2 d1 d2 h1 h2 n1 n2 s1 s2 : ascii) (frac : string),
    v = stamp y1 y2 y3 y4 m1 m2 d1 d2 h1 h2 n1 n2 s1 s2 (frac ++ "Z")%string
    /\ stamp_digits y1 y2 y3 y4 m1 m2 d1 d2 h1 h2 n1 n2 s1 s2
    /\ fraction_ok frac
    /\ real_instant (dec4 y1 y2 y3 y4) (dec2 m1 m2) (dec2 d1 d2)
         (dec2 h1 h2) (dec2 n1 n2) (dec2 s1 s2).

(** The text field of an accepted payload: absent or null, or a text of at
    most 4096 characters. *)
Definition text_field (data : list (string * pyvalue)) (x : option string) : Prop :=
  match x with
  | None => dict_get "text" data = None \/ dict_get "text" data = Some PNone
  | Some t => dict_get "text" data = Some (PStr t) /\ String.length t <= 4096
  end.

(** Acceptance in the words of the specification: [from] is read under the
    key [from]. *)
Definition stated_payload (pd : pyvalue) : Prop :=
  exists (data : list (string * pyvalue)) (mid f t s : string) (x : option string),
    pd = PDict data
    /\ dict_get "message_id" data = Some (PStr mid) /\ mid <> EmptyString
    /\ dict_get "from" data = Some (PStr f) /\ e164 f
    /\ dict_get "to" data = Some (PStr t) /\ e164 t
    /\ dict_get "ts" data = Some (PStr s) /\ iso8601_utc_instant s
    /\ text_field data x.

(** Acceptance as the code has it: [from] is read under the key [from] and,
    when that key is absent, under the field name [from_]. *)
Definition accepted_payload (pd : pyvalue) (p : WebhookPayload.t) : Prop :=
  exists data : list (string * pyvalue),
    pd = PDict data
    /\ dict_get "message_id" data = Some (PStr (WebhookPayload.message_id p))
    /\ WebhookPayload.message_id p <> EmptyString
    /\ (dict_get "from" data = Some (PStr (WebhookPayload.from_ p))
        \/ (dict_get "from" data = None
            /\ dict_get "from_" data = Some (PStr (WebhookPayload.from_ p))))
    /\ e164 (WebhookPayload.from_ p)
    /\ dict_get "to" data = Some (PStr (WebhookPayload.to p))
    /\ e164 (WebhookPayload.to p)
    /\ dict_get "ts" data = Some (PStr (WebhookPayload.ts p))
    /\ iso8601_utc_instant (WebhookPayload.ts p)
    /\ text_field data (WebhookPayload.text p).

(** The keys the model reads. *)
Definition known_key (k : string) : bool :=
  existsb (String.eqb k) ["message_id"; "from"; "from_"; "to"; "ts"; "text"].

(** A sample request: the JSON text of an object of text fields, its
    decoded value, and a decoder that knows this one body. *)
Definition dquote : string := String (ascii_of_nat 34) EmptyString.

Fixpoint json_members (fields : list (string * string)) : string :=
  match fields with
  | [] => EmptyString
  | [(k, v)] => (dquote ++ k ++ dquote ++ ":" ++ dquote ++ v ++ dquote)%string
  | (k, v) :: rest =>
      (dquote ++ k ++ dquote ++ ":" ++ dquote ++ v ++ dquote ++ ","
       ++ json_members rest)%string
  end.

Definition json_object (fields : list (string * string)) : list byte :=
  list_byte_of_string ("{" ++ json_members fields ++ "}")%string.

Definition sample_fields : list (string * string) :=
  [("message_id", "m1"); ("from", "+919876543210"); ("to", "+14155550100");
   ("ts", "2025-01-15T10:00:00Z"); ("text", "Hello")].

Definition sample_body : list byte := json_object sample_fields.

Definition sample_data : pyvalue :=
  PDict (map (fun kv => (fst kv, PStr (snd kv))) sample_fields).

Definition sample_loads (body : list byte) : result pyvalue :=
  if list_eq_dec Byte.byte_eq_dec body sample_body
  then Ok sample_data else Raise ValueError.

Definition sample_signature : string :=
  Hmac.hexdigest (encode_utf8 "testsecret") sample_body.

Definition sample_table : table :=
  [sample_row "m1" "+2" "2025-01-15T12:00:00Z" (Some "Hello world");
   sample_row "m2" "+1" "2025-01-15T10:00:00Z" None;
   sample_row "m3" "+1" "2025-01-15T10:00:00Z" (Some "say HELLO")].

(** ** Further vocabulary *)

(** [compute_signature] of tests/conftest.py: how a client signs a body. *)
Definition compute_signature (secret : string) (body : list byte) : string :=
  Hmac.hexdigest (encode_utf8 secret) body.

Definition is_hex_lower (c : ascii) : bool :=
  Re.in_range 48 57 (code c) || Re.in_range 97 102 (code c).

(** The row that [webhook] hands to [insert_message] for a payload. *)
Definition row_of_payload (p : WebhookPayload.t) (now : string) : Row :=
  mkRow (WebhookPayload.message_id p) (WebhookPayload.from_ p)
    (WebhookPayload.to p) (WebhookPayload.ts p) (WebhookPayload.text p) now.

(** A row as the validator lets it through. *)
Definition row_valid (r : Row) : Prop :=
  message_id r <> EmptyString
  /\ e164 (from_msisdn r) /\ e164 (to_msisdn r)
  /\ iso8601_utc_instant (ts r)
  /\ match text r with
     | Some t => String.length t <= 4096
     | None => True
     end.

Definition sum_counts (g : list (string * nat)) : nat :=
  fold_right (fun p acc => snd p + acc) 0 g.

(** The whole listing: no filter, one page that holds every row. *)
Definition list_all (db : table) : list MessageStorage.Item :=
  MessageStorage.data
    (MessageStorage.get_messages db (Z.of_nat (List.length db)) 0 None None None).

(** Order of two parsed instants of the same UTC offset, field by field
    down to the microsecond. *)
Definition compare_datetime (a b : Datetime.datetime) : comparison :=
  match Nat.compare (Datetime.year a) (Datetime.year b) with
  | Eq =>
    match Nat.compare (Datetime.month a) (Datetime.month b) with
    | Eq =>
      match Nat.compare (Datetime.day a) (Datetime.day b) with
      | Eq =>
        match Nat.compare (Datetime.hour a) (Datetime.hour b) with
        | Eq =>
          match Nat.compare (Datetime.minute a) (Datetime.minute b) with
          | Eq =>
            match Nat.compare (Datetime.second a) (Datetime.second b) with
            | Eq => N.compare (Datetime.microsecond a) (Datetime.microsecond b)
            | c => c
            end
          | c => c
          end
        | c => c
        end
      | c => c
      end
    | c => c
    end
  | c => c
  end.

(** Lexicographic combination of two comparisons. *)
Definition lex (c k : comparison) : comparison :=
  match c with
  | Eq => k
  | ne => ne
  end.

(** A text without its first [n] characters. *)
Fixpoint after (n : nat) (s : string) : string :=
  match n, s with
  | S n', String _ s' => after n' s'
  | _, _ => s
  end.

(** The digits of an optional fraction [.ddd] (none when it is absent). *)
Definition fraction_digits (frac : string) : string :=
  match frac with
  | String _ ds => ds
  | EmptyString => EmptyString
  end.


(** One request to [POST /webhook], with the storage environment and the
    clock that its call of [insert_message] meets. *)
Record Delivery : Type := mkDelivery {
  delivery_env : db_env;
  delivery_now : string;
  delivery_body : list byte;
  delivery_signature : option string
}.

Section Serve.

Variable json_loads : list byte -> result pyvalue.
Variable secret : string.

Definition deliver (db : table) (d : Delivery) : Main.Handled :=
  Main.webhook json_loads secret (delivery_env d) (delivery_now d) db
    (delivery_body d) (delivery_signature d).

(** The table after a run of requests, served one after the other. *)
Definition serve (db : table) (ds : list Delivery) : table :=
  fold_left (fun db d => Main.table_of (deliver db d)) ds db.

End Serve.

(** ** app/config.py *)

(** [str.replace(old, new)]: the occurrences of [old] are replaced from the
    left, none overlapping another; [skip] counts the characters of an
    occurrence still to be passed over.  With an empty [old], [new] goes
    before every character and at the end. *)
Fixpoint replace_from (old new : string) (skip : nat) (s : string) : string :=
  match s with
  | EmptyString => EmptyString
  | String c s' =>
      match skip with
      | S k => replace_from old new k s'
      | O =>
          if String.prefix old s
          then (new ++ replace_from old new (String.length old - 1) s')%string
          else String c (replace_from old new 0 s')
      end
  end.

Fixpoint interleave (new s : string) : string :=
  match s with
  | EmptyString => new
  | String c s' => (new ++ String c (interleave new s'))%string
  end.

Definition py_replace (old new s : string) : string :=
  match old with
  | EmptyString => interleave new s
  | String _ _ => replace_from old new 0 s
  end.

(** [old in s] *)
Fixpoint str_contains (old s : string) : bool :=
  String.prefix old s
  || match s with
     | EmptyString => false
     | String _ s' => str_contains old s'
     end.

Module Config.

Record Settings : Type := mkSettings {
  webhook_secret : string;
  database_url : string;
  log_level : string
}.

Section Environment.

(** [os.environ], and [str.upper]. *)
Variable environ : string -> option string.
Variable str_upper : string -> string.

Definition getenv (key default : string) : string :=
  match environ key with
  | Some v => v
  | None => default
  end.

(** [Settings.__init__] *)
Definition new : Settings :=
  mkSettings (getenv "WEBHOOK_SECRET" EmptyString)
    (getenv "DATABASE_URL" "sqlite:////data/app.db")
    (str_upper (getenv "LOG_LEVEL" "INFO")).

End Environment.

Definition database_path (self : Settings) : string :=
  if String.prefix "sqlite:///" (database_url self)
  then py_replace "sqlite:///" EmptyString (database_url self)
  else "/data/app.db".

(** [bool(self.webhook_secret)] *)
Definition validate (self : Settings) : bool :=
  match webhook_secret self with
  | EmptyString => false
  | String _ _ => true
  end.

End Config.

(** ** app/metrics.py *)

From Stdlib Require DecimalString DecimalZ.

(** [str(n)] for an [int]. *)
Definition str_of_int (n : Z) : string :=
  DecimalString.NilZero.string_of_int (Z.to_int n).

Module Metrics.

(** A metric with labels holds one child per tuple of label values, made
    when the tuple is first used.  [inc] is [labels(...).inc()], [value]
    what the child shows (0 for a tuple never used). *)
Fixpoint inc {K : Type} (eqb : K -> K -> bool) (k : K)
    (children : list (K * nat)) : list (K * nat) :=
  match children with
  | [] => [(k, 1)]
  | (k', n) :: rest =>
      if eqb k' k then (k', S n) :: rest else (k', n) :: inc eqb k rest
  end.

Definition value {K : Type} (eqb : K -> K -> bool) (k : K)
    (children : list (K * nat)) : nat :=
  match find (fun p => eqb (fst p) k) children with
  | Some p => snd p
  | None => 0
  end.

Definition labels_eqb (a b : string * string) : bool :=
  String.eqb (fst a) (fst b) && String.eqb (snd a) (snd b).

Section Registry.

(** Python's [float]. *)
Variable pyfloat : Type.

(** [labels(path=path).observe(amount)]: a histogram child is kept as the
    list of the amounts observed, from which its buckets, count and sum
    are read. *)
Fixpoint observe (path : string) (amount : pyfloat)
    (children : list (string * list pyfloat)) : list (string * list pyfloat) :=
  match children with
  | [] => [(path, [amount])]
  | (p, xs) :: rest =>
      if String.eqb p path then (p, xs ++ [amount]) :: rest
      else (p, xs) :: observe path amount rest
  end.

Definition observations (path : string)
    (children : list (string * list pyfloat)) : list pyfloat :=
  match find (fun p => String.eqb (fst p) path) children with
  | Some p => snd p
  | None => []
  end.

(** The three metrics of the module. *)
Record Registry : Type := mkRegistry {
  http_requests_total : list ((string * string) * nat);   (* path, status *)
  webhook_requests_total : list (string * nat);           (* result *)
  request_latency_ms : list (string * list pyfloat)       (* path *)
}.

Definition empty : Registry := mkRegistry [] [] [].

Definition record_request (path : string) (status : Z) (latency_ms : pyfloat)
    (m : Registry) : Registry :=
  mkRegistry
    (inc labels_eqb (path, str_of_int status) (http_requests_total m))
    (webhook_requests_total m)
    (observe path latency_ms (request_latency_ms m)).

Definition record_webhook_result (result : string) (m : Registry) : Registry :=
  mkRegistry
    (http_requests_total m)
    (inc String.eqb result (webhook_requests_total m))
    (request_latency_ms m).

End Registry.

Arguments observe {pyfloat} path amount children.
Arguments observations {pyfloat} path children.
Arguments mkRegistry {pyfloat} _ _ _.
Arguments http_requests_total {pyfloat} _.
Arguments webhook_requests_total {pyfloat} _.
Arguments request_latency_ms {pyfloat} _.
Arguments empty {pyfloat}.
Arguments record_request {pyfloat} path status latency_ms m.
Arguments record_webhook_result {pyfloat} result m.

End Metrics.

(** ** app/logging_utils.py *)

Module LoggingUtils.

(** The two levels the service logs at, with their numbers in [logging]. *)
Inductive level : Type := INFO | ERROR.

Definition levelname (l : level) : string :=
  match l with
  | INFO => "INFO"
  | ERROR => "ERROR"
  end.

Definition levelno (l : level) : nat :=
  match l with
  | INFO => 20
  | ERROR => 40
  end.

(** [s[:-3]] *)
Definition drop_last3 (s : string) : string :=
  String.substring 0 (String.length s - 3) s.

Section Logging.

Variable pyfloat : Type.

(** [round(x, 2)] *)
Variable round2 : pyfloat -> pyfloat.

(** The values that go into a log line. *)
Inductive value : Type :=
| VStr (s : string)
| VInt (n : Z)
| VFloat (x : pyfloat)
| VBool (b : bool).

(** A [LogRecord]: level, message, the attributes set through [extra], and
    the formatted exception when [exc_info] is set. *)
Record LogRecord : Type := mkRecord {
  record_level : level;
  record_message : string;
  record_extra : list (string * value);
  record_exception : option string
}.

Definition attribute (name : string) (record : LogRecord) : option value :=
  option_map snd (find (fun kv => String.eqb (fst kv) name) (record_extra record)).

(** [log_data[name] = record.name] under [hasattr(record, name)] *)
Definition copied (name : string) (record : LogRecord) : list (string * value) :=
  match attribute name record with
  | Some v => [(name, v)]
  | None => []
  end.

(** [JSONFormatter.format]: the object handed to [json.dumps], its keys in
    insertion order.  [clock] is what [strftime] gives for the time of
    formatting, with six digits of microseconds. *)
Definition format (clock : string) (record : LogRecord) : list (string * value) :=
  [("ts", VStr (drop_last3 clock ++ "Z"));
   ("level", VStr (levelname (record_level record)));
   ("message", VStr (record_message record))]
  ++ copied "request_id" record
  ++ copied "method" record
  ++ copied "path" record
  ++ copied "status" record
  ++ copied "latency_ms" record
  ++ copied "message_id" record
  ++ copied "dup" record
  ++ copied "result" record
  ++ match record_exception record with
     | Some text => [("exception", VStr text)]
     | None => []
     end.

(** The lines on standard output. *)
Definition output : Type := list (list (string * value)).

(** [logger.info] and [logger.error]: a record below the logger's
    effective level is dropped, any other is formatted and written. *)
Definition log (effective_level : nat) (clock : string) (record : LogRecord)
    (out : output) : output :=
  if effective_level <=? levelno (record_level record)
  then out ++ [format clock record]
  else out.

Definition present {A : Type} (name : string) (inj : A -> value) (o : option A) :
    list (string * value) :=
  match o with
  | Some a => [(name, inj a)]
  | None => []
  end.

(** [RequestLogger.log_request] *)
Definition log_request (effective_level : nat) (clock : string)
    (request_id method path : string) (status : Z) (latency_ms : pyfloat)
    (message_id : option string) (dup : option bool) (result : option string)
    (lvl : level) (out : output) : output :=
  let extra :=
    [("request_id", VStr request_id);
     ("method", VStr method);
     ("path", VStr path);
     ("status", VInt status);
     ("latency_ms", VFloat (round2 latency_ms))]
    ++ present "message_id" VStr message_id
    ++ present "dup" VBool dup
    ++ present "result" VStr result in
  log effective_level clock (mkRecord lvl "request completed" extra None) out.

End Logging.

Arguments VStr {pyfloat} s.
Arguments VInt {pyfloat} n.
Arguments VFloat {pyfloat} x.
Arguments VBool {pyfloat} b.
Arguments mkRecord {pyfloat} _ _ _ _.
Arguments record_level {pyfloat} _.
Arguments record_message {pyfloat} _.
Arguments record_extra {pyfloat} _.
Arguments record_exception {pyfloat} _.
Arguments attribute {pyfloat} name record.
Arguments copied {pyfloat} name record.
Arguments format {pyfloat} clock record.
Arguments log {pyfloat} effective_level clock record out.
Arguments present {pyfloat A} name inj o.
Arguments log_request {pyfloat} round2 effective_level clock request_id method
  path status latency_ms message_id dup result lvl out.

End LoggingUtils.

(** ** app/main.py: a request on its way through the service *)

Module Service.

(** The texts that [request.state.webhook_result] takes. *)
Definition result_name (o : Main.outcome) : string :=
  match o with
  | Main.invalid_signature => "invalid_signature"
  | Main.validation_error => "validation_error"
  | Main.duplicate => "duplicate"
  | Main.created => "created"
  end.

(** [type(exc).__name__] *)
Definition type_name (e : exn) : string :=
  match e with
  | TypeError => "TypeError"
  | ValueError => "ValueError"
  | ValidationError => "ValidationError"
  | OperationalError => "OperationalError"
  | OverflowError => "OverflowError"
  end.

Section Service.

Variable pyfloat : Type.
Variable round2 : pyfloat -> pyfloat.
Variable json_loads : list byte -> result pyvalue.

(** [settings.webhook_secret], and the effective level of the logger. *)
Variable secret : string.
Variable effective_level : nat.

(** [POST /webhook] with its calls of [record_webhook_result]. *)
Definition webhook (env : db_env) (now : string) (db : table)
    (body : list byte) (x_signature : option string)
    (m : Metrics.Registry pyfloat) : Main.Handled * Metrics.Registry pyfloat :=
  let st := Main.fresh_state in
  if negb (truthy x_signature) then
    (Main.mkHandled (Main.HTTPException 401 (Main.Detail "invalid signature"))
       (Main.mkState None None (Some Main.invalid_signature)) db,
     Metrics.record_webhook_result "invalid_signature" m)
  else
    match verify_signature secret body
            (match x_signature with Some s => s | None => EmptyString end) with
    | Raise e => (Main.mkHandled (Main.Uncaught e) st db, m)
    | Ok false =>
        (Main.mkHandled (Main.HTTPException 401 (Main.Detail "invalid signature"))
           (Main.mkState None None (Some Main.invalid_signature)) db,
         Metrics.record_webhook_result "invalid_signature" m)
    | Ok true =>
        match (payload_data <- json_loads body ;;
               WebhookPayload.new payload_data) with
        | Raise e =>
            (Main.mkHandled (Main.HTTPException 422 (Main.DetailOf e))
               (Main.mkState None None (Some Main.validation_error)) db,
             Metrics.record_webhook_result "validation_error" m)
        | Ok payload =>
            let mid := WebhookPayload.message_id payload in
            match MessageStorage.insert_message env now db
                    mid
                    (WebhookPayload.from_ payload)
                    (WebhookPayload.to payload)
                    (WebhookPayload.ts payload)
                    (WebhookPayload.text payload) with
            | (Raise e, db') =>
                (Main.mkHandled (Main.Uncaught e)
                   (Main.mkState (Some mid) None None) db', m)
            | (Ok (success, is_duplicate), db') =>
                if is_duplicate then
                  (Main.mkHandled (Main.Returns Main.StatusOk)
                     (Main.mkState (Some mid) (Some is_duplicate)
                        (Some Main.duplicate)) db',
                   Metrics.record_webhook_result "duplicate" m)
                else
                  (Main.mkHandled (Main.Returns Main.StatusOk)
                     (Main.mkState (Some mid) (Some is_duplicate)
                        (Some Main.created)) db',
                   Metrics.record_webhook_result "created" m)
            end
        end
    end.

(** What [call_next] gives the middleware: the response of the handler,
    an [HTTPException] already turned into its response, or the exception
    that the handler let through, raised again. *)
Definition call_next (e : Main.ending) : result Main.Response :=
  match e with
  | Main.Uncaught exc => Raise exc
  | _ => Ok (Main.respond e)
  end.

(** [logging_middleware], from the return of [call_next] on.  [state] is
    [request.state] as the handler left it.  Nothing guards the call of
    [call_next]: when it raises, the rest is not run. *)
Definition logging_middleware (request_id method path : string)
    (latency_ms : pyfloat) (clock : string)
    (next : result Main.Response) (state : Main.RequestState)
    (out : LoggingUtils.output pyfloat) (m : Metrics.Registry pyfloat) :
    result Main.Response * LoggingUtils.output pyfloat * Metrics.Registry pyfloat :=
  match next with
  | Raise exc => (Raise exc, out, m)
  | Ok response =>
      let lvl :=
        if (Main.status_code response <? 400)%Z
        then LoggingUtils.INFO else LoggingUtils.ERROR in
      let out' :=
        LoggingUtils.log_request round2 effective_level clock
          request_id method path (Main.status_code response) latency_ms
          (Main.webhook_message_id state)
          (Main.webhook_dup state)
          (option_map result_name (Main.webhook_result state))
          lvl out in
      (Ok response, out',
       Metrics.record_request path (Main.status_code response) latency_ms m)
  end.

(** [generic_exception_handler] *)
Definition generic_exception_handler (clock traceback : string) (exc : exn)
    (out : LoggingUtils.output pyfloat) :
    Main.Response * LoggingUtils.output pyfloat :=
  (Main.mkResponse 500 (Main.Detail "Internal server error"),
   LoggingUtils.log effective_level clock
     (LoggingUtils.mkRecord LoggingUtils.ERROR
        ("Unhandled exception: " ++ type_name exc) [] (Some traceback))
     out).

(** The service between requests: the table, the metrics and the lines
    logged so far. *)
Record App : Type := mkApp {
  app_table : table;
  app_metrics : Metrics.Registry pyfloat;
  app_stdout : LoggingUtils.output pyfloat
}.

(** One [POST /webhook] with all that it meets on its way: the storage
    environment and the clock of the insert, the request id drawn by the
    middleware, the latency it measures, the clock of the formatter and
    the traceback text. *)
Record Arrival : Type := mkArrival {
  arrival_delivery : Delivery;
  arrival_request_id : string;
  arrival_latency_ms : pyfloat;
  arrival_clock : string;
  arrival_traceback : string
}.

(** The request passes the handler of uncaught exceptions, then the
    middleware, then the handling of [HTTPException], and reaches the
    endpoint. *)
Definition post_webhook (a : Arrival) (app : App) : Main.Response * App :=
  let d := arrival_delivery a in
  let (h, m1) :=
    webhook (delivery_env d) (delivery_now d) (app_table app)
      (delivery_body d) (delivery_signature d) (app_metrics app) in
  match logging_middleware (arrival_request_id a) "POST" "/webhook"
          (arrival_latency_ms a) (arrival_clock a)
          (call_next (Main.ending_of h)) (Main.state_of h)
          (app_stdout app) m1 with
  | (Ok response, out, m2) =>
      (response, mkApp (Main.table_of h) m2 out)
  | (Raise exc, out, m2) =>
      let (response, out') :=
        generic_exception_handler (arrival_clock a) (arrival_traceback a) exc out in
      (response, mkApp (Main.table_of h) m2 out')
  end.

(** A run of requests. *)
Definition run (arrivals : list Arrival) (app : App) : App :=
  fold_left (fun app a => snd (post_webhook a app)) arrivals app.

End Service.

Arguments webhook {pyfloat} json_loads secret env now db body x_signature m.
Arguments logging_middleware {pyfloat} round2 effective_level request_id method
  path latency_ms clock next state out m.
Arguments generic_exception_handler {pyfloat} effective_level clock traceback
  exc out.
Arguments mkApp {pyfloat} _ _ _.
Arguments app_table {pyfloat} _.
Arguments app_metrics {pyfloat} _.
Arguments app_stdout {pyfloat} _.
Arguments mkArrival {pyfloat} _ _ _ _ _.
Arguments arrival_delivery {pyfloat} _.
Arguments arrival_request_id {pyfloat} _.
Arguments arrival_latency_ms {pyfloat} _.
Arguments arrival_clock {pyfloat} _.
Arguments arrival_traceback {pyfloat} _.
Arguments post_webhook {pyfloat} round2 json_loads secret effective_level a app.
Arguments run {pyfloat} round2 json_loads secret effective_level arrivals app.

End Service.

(** The sum over the children of a counter. *)
Definition total {K : Type} (children : list (K * nat)) : nat :=
  fold_right (fun p acc => snd p + acc) 0 children.

(** The value under a key of a log line. *)
Definition log_field {pyfloat : Type} (name : string)
    (line : list (string * LoggingUtils.value pyfloat)) :
    option (LoggingUtils.value pyfloat) :=
  option_map snd (find (fun kv => String.eqb (fst kv) name) line).

(** The lines written by [log_request]. *)
Definition is_request_line {pyfloat : Type}
    (line : list (string * LoggingUtils.value pyfloat)) : bool :=
  match log_field "message" line with
  | Some (LoggingUtils.VStr s) => String.eqb s "request completed"
  | _ => false
  end.

Definition request_lines {pyfloat : Type} (out : LoggingUtils.output pyfloat) : nat :=
  List.length (filter is_request_line out).

(** The status that goes with each recorded result. *)
Definition status_of_result (o : Main.outcome) : Z :=
  match o with
  | Main.created | Main.duplicate => 200
  | Main.invalid_signature => 401
  | Main.validation_error => 422
  end.

(** What [strftime] gives under the format [%Y-%m-%dT%H:%M:%S.%f] for a
    clock reading: a real instant in four-digit years, with six digits of
    microseconds. *)
Definition strftime_reading (clock : string) : Prop :=
  exists (y1 y2 y3 y4 m1 m2 d1 d2 h1 h2 n1 n2 s1 s2 : ascii) (us : string),
    clock = stamp y1 y2 y3 y4 m1 m2 d1 d2 h1 h2 n1 n2 s1 s2 (String "."%char us)
    /\ stamp_digits y1 y2 y3 y4 m1 m2 d1 d2 h1 h2 n1 n2 s1 s2
    /\ digits us /\ String.length us = 6
    /\ real_instant (dec4 y1 y2 y3 y4) (dec2 m1 m2) (dec2 d1 d2)
         (dec2 h1 h2) (dec2 n1 n2) (dec2 s1 s2).

(** The instant named by [ts1] is not later than the one named by [ts2]:
    the instants are those [datetime.fromisoformat] reads, compared field
    by field down to the microsecond. *)
Definition not_later (ts1 ts2 : string) : Prop :=
  exists dt1 dt2 : Datetime.datetime,
    Datetime.fromisoformat (str_replace "Z" "+00:00" ts1) = Ok dt1
    /\ Datetime.fromisoformat (str_replace "Z" "+00:00" ts2) = Ok dt2
    /\ compare_datetime dt1 dt2 <> Gt.

(** Two messages half a second apart, the later one with a fraction. *)
Definition mixed_table : table :=
  [sample_row "m1" "+1" "2025-01-15T10:00:00Z" None;
   sample_row "m2" "+1" "2025-01-15T10:00:00.5Z" None].

(* ================================================================== *)
(** * Properties *)
(* ================================================================== *)

(** ** Text order *)

Section TextOrder.

Lemma ascii_compare_refl (c : ascii) : Ascii.compare c c = Eq.
Proof. unfold Ascii.compare. apply N.compare_refl. Qed.

Lemma ascii_compare_lt_trans (a b c : ascii) :
  Ascii.compare a b = Lt -> Ascii.compare b c = Lt -> Ascii.compare a c = Lt.
Proof.
  unfold Ascii.compare. rewrite !N.compare_lt_iff. apply N.lt_trans.
Qed.

Lemma compare_refl (s : string) : String.compare s s = Eq.
Proof.
  induction s as [|c s IH]; simpl; [reflexivity|].
  now rewrite ascii_compare_refl.
Qed.

Lemma compare_eq (s1 s2 : string) : String.compare s1 s2 = Eq <-> s1 = s2.
Proof.
  split; [apply String.compare_eq_iff|intros ->; apply compare_refl].
Qed.

Lemma compare_lt_trans (s1 s2 s3 : string) :
  String.compare s1 s2 = Lt -> String.compare s2 s3 = Lt ->
  String.compare s1 s3 = Lt.
Proof.
  revert s2 s3.
  induction s1 as [|a s1 IH]; intros [|b s2] [|c s3]; simpl;
    try discriminate; try reflexivity.
  destruct (Ascii.compare a b) eqn:Hab; try discriminate;
    destruct (Ascii.compare b c) eqn:Hbc; try discriminate; intros H1 H2.
  - apply Ascii.compare_eq_iff in Hab, Hbc; subst.
    rewrite ascii_compare_refl. eauto.
  - apply Ascii.compare_eq_iff in Hab; subst. now rewrite Hbc.
  - apply Ascii.compare_eq_iff in Hbc; subst. now rewrite Hab.
  - now rewrite (ascii_compare_lt_trans _ _ _ Hab Hbc).
Qed.

Lemma compare_gt_lt (s1 s2 : string) :
  String.compare s1 s2 = Gt <-> String.compare s2 s1 = Lt.
Proof.
  rewrite (String.compare_antisym s1 s2).
  destruct (String.compare s2 s1); simpl; split; congruence.
Qed.

Lemma leb_refl (s : string) : String.leb s s = true.
Proof. unfold String.leb. now rewrite compare_refl. Qed.

Lemma leb_iff (s1 s2 : string) :
  String.leb s1 s2 = true <-> String.compare s1 s2 = Lt \/ s1 = s2.
Proof.
  unfold String.leb. destruct (String.compare s1 s2) eqn:H; split; intros H0;
    try discriminate; auto.
  - right. now apply compare_eq.
  - destruct H0 as [H0|H0]; [discriminate|]. apply compare_eq in H0. congruence.
Qed.

Lemma leb_trans (s1 s2 s3 : string) :
  String.leb s1 s2 = true -> String.leb s2 s3 = true -> String.leb s1 s3 = true.
Proof.
  rewrite !leb_iff. intros [H1| ->] [H2| ->]; auto.
  left. eapply compare_lt_trans; eauto.
Qed.

Lemma ltb_iff (s1 s2 : string) :
  String.ltb s1 s2 = true <-> String.compare s1 s2 = Lt.
Proof.
  unfold String.ltb. destruct (String.compare s1 s2); split; congruence.
Qed.

Lemma ltb_false_leb (s1 s2 : string) :
  String.ltb s1 s2 = false <-> String.leb s2 s1 = true.
Proof.
  unfold String.ltb, String.leb. rewrite (String.compare_antisym s2 s1).
  destruct (String.compare s1 s2); simpl; split; congruence.
Qed.

End TextOrder.

(** ** ORDER BY, LIMIT and OFFSET *)

Section OrderBy.

Context {A : Type} (leb : A -> A -> bool).

Let le (a b : A) : Prop := leb a b = true.

Hypothesis leb_total : forall a b, leb a b = true \/ leb b a = true.
Hypothesis leb_trans : forall a b c, leb a b = true -> leb b c = true -> leb a c = true.

Lemma insert_by_perm (x : A) (l : list A) :
  Permutation (x :: l) (Sqlite.insert_by leb x l).
Proof.
  induction l as [|y l IH]; simpl; [reflexivity|].
  destruct (leb x y); [reflexivity|].
  rewrite perm_swap. now constructor.
Qed.

Lemma order_by_perm (l : list A) : Permutation l (Sqlite.order_by leb l).
Proof.
  induction l as [|x l IH]; simpl; [constructor|].
  rewrite <- insert_by_perm. now constructor.
Qed.

Lemma insert_by_sorted (x : A) (l : list A) :
  StronglySorted le l -> StronglySorted le (Sqlite.insert_by leb x l).
Proof.
  induction 1 as [|y l Hs IH Hy]; simpl.
  - repeat constructor.
  - destruct (leb x y) eqn:Hxy.
    + constructor; [now constructor|].
      constructor; [exact Hxy|].
      rewrite Forall_forall in *. intros z Hz. eapply leb_trans; eauto.
      apply Hy, Hz.
    + constructor; [exact IH|].
      rewrite Forall_forall in *. intros z Hz.
      apply (Permutation_in _ (Permutation_sym (insert_by_perm x l))) in Hz.
      destruct Hz as [<-|Hz]; [|now apply Hy].
      destruct (leb_total x y) as [H|H]; [congruence|exact H].
Qed.

Lemma order_by_sorted (l : list A) : StronglySorted le (Sqlite.order_by leb l).
Proof.
  induction l as [|x l IH]; simpl; [constructor|now apply insert_by_sorted].
Qed.

(** Two sorted arrangements of the same rows coincide when no two
    different rows tie. *)
Lemma sorted_perm_unique (l1 l2 : list A) :
  (forall a b, In a l1 -> In b l1 -> leb a b = true -> leb b a = true -> a = b) ->
  StronglySorted le l1 -> StronglySorted le l2 -> Permutation l1 l2 -> l1 = l2.
Proof.
  intros Hanti Hs1. revert l2 Hanti.
  induction Hs1 as [|a l1 Hs1 IH Ha]; intros l2 Hanti Hs2 Hp.
  - now apply Permutation_nil in Hp.
  - destruct Hs2 as [|b l2 Hs2 Hb].
    + apply Permutation_sym, Permutation_nil in Hp. discriminate.
    + assert (a = b) as <-.
      { rewrite Forall_forall in Ha, Hb.
        assert (In a (b :: l2)) as Hin1 by (eapply Permutation_in; eauto; now left).
        assert (In b (a :: l1)) as Hin2
            by (eapply Permutation_in; [apply Permutation_sym; eauto|now left]).
        destruct Hin1 as [->|Hin1]; [reflexivity|].
        destruct Hin2 as [->|Hin2]; [reflexivity|].
        apply Hanti; [now left|now right|now apply Ha|now apply Hb]. }
      f_equal. apply IH; auto.
      * intros x y Hx Hy. apply Hanti; now right.
      * eapply Permutation_cons_inv; eauto.
Qed.

End OrderBy.

Lemma in_firstn {A : Type} (x : A) (n : nat) (l : list A) :
  In x (firstn n l) -> In x l.
Proof.
  rewrite <- (firstn_skipn n l) at 2. intros H. apply in_or_app. now left.
Qed.

Lemma in_skipn {A : Type} (x : A) (n : nat) (l : list A) :
  In x (skipn n l) -> In x l.
Proof.
  rewrite <- (firstn_skipn n l) at 2. intros H. apply in_or_app. now right.
Qed.

Lemma strongly_sorted_firstn {A : Type} (R : A -> A -> Prop) (n : nat) (l : list A) :
  StronglySorted R l -> StronglySorted R (firstn n l).
Proof.
  intros H. revert n. induction H as [|a l Hs IH Ha]; intros [|n]; simpl;
    try constructor; auto.
  rewrite Forall_forall in *. intros x Hx. apply Ha. eapply in_firstn; eauto.
Qed.

Lemma strongly_sorted_skipn {A : Type} (R : A -> A -> Prop) (n : nat) (l : list A) :
  StronglySorted R l -> StronglySorted R (skipn n l).
Proof.
  intros H. revert n. induction H as [|a l Hs IH Ha]; intros [|n]; simpl;
    try constructor; auto.
Qed.

Lemma limit_offset_sorted {A : Type} (R : A -> A -> Prop) (lim off : Z) (l : list A) :
  StronglySorted R l -> StronglySorted R (Sqlite.limit_offset lim off l).
Proof.
  intros H. unfold Sqlite.limit_offset.
  destruct (lim <? 0)%Z.
  - now apply strongly_sorted_skipn.
  - now apply strongly_sorted_firstn, strongly_sorted_skipn.
Qed.

Lemma strongly_sorted_map {A B : Type} (f : A -> B) (R : A -> A -> Prop)
    (S : B -> B -> Prop) (l : list A) :
  (forall a b, R a b -> S (f a) (f b)) ->
  StronglySorted R l -> StronglySorted S (map f l).
Proof.
  intros HRS. induction 1 as [|a l Hs IH Ha]; simpl; constructor; auto.
  rewrite Forall_forall in *. intros y Hy.
  apply in_map_iff in Hy as (x & <- & Hx). auto.
Qed.

(** ** Listing: order and pagination *)

Lemma ts_id_leb_total (a b : Row) :
  MessageStorage.ts_id_leb a b = true \/ MessageStorage.ts_id_leb b a = true.
Proof.
  unfold MessageStorage.ts_id_leb.
  rewrite (String.compare_antisym (ts b) (ts a)).
  destruct (String.compare (ts a) (ts b)); simpl; auto.
  apply String.leb_total.
Qed.

Lemma ts_id_leb_trans (a b c : Row) :
  MessageStorage.ts_id_leb a b = true -> MessageStorage.ts_id_leb b c = true ->
  MessageStorage.ts_id_leb a c = true.
Proof.
  unfold MessageStorage.ts_id_leb.
  destruct (String.compare (ts a) (ts b)) eqn:Hab; try discriminate;
    destruct (String.compare (ts b) (ts c)) eqn:Hbc; try discriminate;
    intros H1 H2.
  - apply compare_eq in Hab, Hbc. rewrite Hab, Hbc, compare_refl.
    eapply leb_trans; eauto.
  - apply compare_eq in Hab. now rewrite Hab, Hbc.
  - apply compare_eq in Hbc. now rewrite <- Hbc, Hab.
  - now rewrite (compare_lt_trans _ _ _ Hab Hbc).
Qed.

Lemma ts_id_leb_item_le (a b : Row) :
  MessageStorage.ts_id_leb a b = true ->
  item_le (MessageStorage.item_of_row a) (MessageStorage.item_of_row b).
Proof.
  unfold MessageStorage.ts_id_leb, item_le. simpl.
  destruct (String.compare (ts a) (ts b)) eqn:H; try discriminate; auto.
  apply compare_eq in H. auto.
Qed.

Lemma ts_id_leb_antisym (a b : Row) :
  MessageStorage.ts_id_leb a b = true -> MessageStorage.ts_id_leb b a = true ->
  message_id a = message_id b.
Proof.
  unfold MessageStorage.ts_id_leb.
  rewrite (String.compare_antisym (ts b) (ts a)).
  destruct (String.compare (ts a) (ts b)); simpl; try discriminate.
  apply String.leb_antisym.
Qed.

Lemma unique_ids_inj (db : table) (a b : Row) :
  unique_ids db -> In a db -> In b db -> message_id a = message_id b -> a = b.
Proof.
  unfold unique_ids. induction db as [|r db IH]; simpl; [contradiction|].
  intros Hnd [->|Ha] [->|Hb] Heq; inversion Hnd as [|? ? Hnotin Hnd']; subst; auto.
  - exfalso. apply Hnotin. rewrite Heq. now apply in_map.
  - exfalso. apply Hnotin. rewrite <- Heq. now apply in_map.
Qed.

Lemma filter_perm {A : Type} (p : A -> bool) (l1 l2 : list A) :
  Permutation l1 l2 -> Permutation (filter p l1) (filter p l2).
Proof.
  induction 1 as [| x l1 l2 _ IH | x y l | l1 l2 l3 _ IH1 _ IH2]; simpl.
  - constructor.
  - destruct (p x); [now constructor|exact IH].
  - destruct (p x), (p y); try reflexivity. apply perm_swap.
  - etransitivity; eauto.
Qed.

(** C3.  The items of a listing are sorted by [ts] ascending, ties broken
    by [message_id] ascending, under text comparison; and the listing is
    determined by the stored rows alone: whatever physical order the rows
    of a table with unique keys are held in, the same parameters give the
    same page (in particular, repeating a call gives the same items). *)
Theorem get_messages_ordered :
  forall (db : table) (limit offset : Z) (from_filter since q : option string),
    StronglySorted item_le
      (MessageStorage.data
         (MessageStorage.get_messages db limit offset from_filter since q))
    /\ (forall db' : table,
          unique_ids db -> Permutation db db' ->
          MessageStorage.get_messages db' limit offset from_filter since q
          = MessageStorage.get_messages db limit offset from_filter since q).
Proof.
  intros db limit offset from_filter since q. split.
  - unfold MessageStorage.get_messages; simpl.
    apply strongly_sorted_map
      with (R := fun a b => MessageStorage.ts_id_leb a b = true).
    + apply ts_id_leb_item_le.
    + apply limit_offset_sorted, order_by_sorted.
      * apply ts_id_leb_total.
      * apply ts_id_leb_trans.
  - intros db' Huniq Hperm. unfold MessageStorage.get_messages.
    set (w := MessageStorage.where_clause _).
    pose proof (filter_perm w _ _ Hperm) as Hf.
    rewrite <- (Permutation_length Hf).
    replace (Sqlite.order_by MessageStorage.ts_id_leb (filter w db'))
      with (Sqlite.order_by MessageStorage.ts_id_leb (filter w db)); [reflexivity|].
    apply sorted_perm_unique with (leb := MessageStorage.ts_id_leb).
    + intros a b Ha Hb Hab Hba.
      apply (Permutation_in _ (Permutation_sym (order_by_perm _ _))) in Ha, Hb.
      apply filter_In in Ha as [Ha _], Hb as [Hb _].
      eapply unique_ids_inj; eauto using ts_id_leb_antisym.
    + apply order_by_sorted; [apply ts_id_leb_total|apply ts_id_leb_trans].
    + apply order_by_sorted; [apply ts_id_leb_total|apply ts_id_leb_trans].
    + rewrite <- !order_by_perm. exact Hf.
Qed.

Lemma limit_offset_length {A : Type} (lim off : Z) (l : list A) :
  (0 <= lim)%Z -> (Z.of_nat (List.length (Sqlite.limit_offset lim off l)) <= lim)%Z.
Proof.
  intros H. unfold Sqlite.limit_offset.
  destruct (lim <? 0)%Z eqn:E; [apply Z.ltb_lt in E; lia|].
  pose proof (firstn_le_length (Z.to_nat lim) (skipn (Z.to_nat off) l)). lia.
Qed.


(** The call of [get_messages] returns exactly when [limit] and [offset]
    are integers SQLite can hold, and then it returns the page of the
    queries; otherwise it raises [OverflowError]. *)
Lemma fits_int64_range (n : Z) :
  Storage.fits_int64 n = true <-> (- 2 ^ 63 <= n < 2 ^ 63)%Z.
Proof.
  unfold Storage.fits_int64. rewrite andb_true_iff, Z.leb_le, Z.ltb_lt. tauto.
Qed.

Lemma storage_get_messages_returns (db : table) (limit offset : Z)
    (from_filter since q : option string) :
  (- 2 ^ 63 <= limit < 2 ^ 63)%Z -> (- 2 ^ 63 <= offset < 2 ^ 63)%Z ->
  Storage.get_messages db limit offset from_filter since q
  = Ok (MessageStorage.get_messages db limit offset from_filter since q).
Proof.
  intros Hl Ho. apply fits_int64_range in Hl, Ho.
  unfold Storage.get_messages, Storage.bind_int. now rewrite Hl, Ho.
Qed.

Lemma storage_get_messages_overflow (db : table) (limit offset : Z)
    (from_filter since q : option string) :
  ~ ((- 2 ^ 63 <= limit < 2 ^ 63)%Z /\ (- 2 ^ 63 <= offset < 2 ^ 63)%Z) ->
  Storage.get_messages db limit offset from_filter since q = Raise OverflowError.
Proof.
  intros H. unfold Storage.get_messages, Storage.bind_int.
  destruct (Storage.fits_int64 limit) eqn:El; [|reflexivity].
  destruct (Storage.fits_int64 offset) eqn:Eo; [|reflexivity].
  apply fits_int64_range in El, Eo. tauto.
Qed.

Lemma storage_get_messages_page (db : table) (limit offset : Z)
    (from_filter since q : option string) (page : MessageStorage.Page) :
  Storage.get_messages db limit offset from_filter since q = Ok page ->
  page = MessageStorage.get_messages db limit offset from_filter since q
  /\ (- 2 ^ 63 <= limit < 2 ^ 63)%Z /\ (- 2 ^ 63 <= offset < 2 ^ 63)%Z.
Proof.
  unfold Storage.get_messages, Storage.bind_int.
  destruct (Storage.fits_int64 limit) eqn:El; [|discriminate].
  destruct (Storage.fits_int64 offset) eqn:Eo; [|discriminate].
  apply fits_int64_range in El, Eo. cbn [bind]. intros [= <-]. auto.
Qed.


(** C10.  An empty-string filter is the same call as an absent filter, for
    each of [from_filter], [since] and [q], whatever the other parameters
    are; in particular a [from_filter] of [""] alone selects every row, not
    the rows with an empty sender. *)
Theorem get_messages_empty_filter_is_absent :
  forall (db : table) (limit offset : Z) (from_filter since q : option string),
    MessageStorage.get_messages db limit offset (Some "") since q
    = MessageStorage.get_messages db limit offset None since q
    /\ MessageStorage.get_messages db limit offset from_filter (Some "") q
       = MessageStorage.get_messages db limit offset from_filter None q
    /\ MessageStorage.get_messages db limit offset from_filter since (Some "")
       = MessageStorage.get_messages db limit offset from_filter since None
    /\ MessageStorage.matching db (Some "") None None = db.
Proof.
  intros db limit offset from_filter since q.
  assert (Hfrom : MessageStorage.conditions (Some "") since q
                  = MessageStorage.conditions None since q) by reflexivity.
  assert (Hsince : MessageStorage.conditions from_filter (Some "") q
                   = MessageStorage.conditions from_filter None q) by reflexivity.
  assert (Hq : MessageStorage.conditions from_filter since (Some "")
               = MessageStorage.conditions from_filter since None) by reflexivity.
  unfold MessageStorage.get_messages, MessageStorage.matching.
  rewrite Hfrom, Hsince, Hq. repeat split.
  induction db as [|r db IH]; simpl; [reflexivity|]. f_equal. exact IH.
Qed.

(** Through the endpoint: a request is refused with 422, or answered with
    a page of at most [limit] items, or, for an [offset] that SQLite
    cannot hold, ends in the store's [OverflowError] and is answered 500. *)
Lemma listing_endpoint_bounded (db : table) (limit offset : Z)
    (from_ since q : option string) :
  Main.status_code (Main.get_messages db limit offset from_ since q) = 422%Z
  \/ ((2 ^ 63 <= offset)%Z
      /\ Main.get_messages db limit offset from_ since q
         = Main.respond (Main.Uncaught OverflowError))
  \/ exists page,
       Storage.get_messages db limit offset from_ since q = Ok page
       /\ Main.get_messages db limit offset from_ since q
          = Main.mkResponse 200 (Main.Listing page)
       /\ (Z.of_nat (List.length (MessageStorage.data page)) <= limit)%Z.
Proof.
  unfold Main.get_messages.
  destruct ((1 <=? limit)%Z && (limit <=? 100)%Z && (0 <=? offset)%Z) eqn:E;
    [right|now left].
  apply andb_prop in E as [E Eo]. apply andb_prop in E as [E1 E2].
  apply Z.leb_le in E1, E2, Eo.
  destruct (Z_lt_le_dec offset (2 ^ 63)) as [Hlt|Hge].
  - right. rewrite storage_get_messages_returns by lia.
    eexists. split; [reflexivity|]. split; [reflexivity|].
    unfold MessageStorage.get_messages; cbn [MessageStorage.data].
    rewrite length_map. apply limit_offset_length. lia.
  - left. split; [exact Hge|].
    rewrite storage_get_messages_overflow by lia. reflexivity.
Qed.

(** ** Idempotent insert *)

Lemma has_key_rows (db : table) (k : string) :
  MessageStorage.has_key db k = false <-> rows_with_id db k = [].
Proof.
  unfold MessageStorage.has_key, rows_with_id.
  induction db as [|r db IH]; simpl; [tauto|].
  destruct (String.eqb (message_id r) k); simpl; [split; discriminate|exact IH].
Qed.

Lemma rows_with_id_app (db1 db2 : table) (k : string) :
  rows_with_id (db1 ++ db2) k = rows_with_id db1 k ++ rows_with_id db2 k.
Proof. apply filter_app. Qed.

Lemma insert_message_duplicate (now : string) (db : table)
    (k f t s : string) (x : option string) :
  MessageStorage.has_key db k = true ->
  MessageStorage.insert_message DbOk now db k f t s x = (Ok (true, true), db).
Proof. intros H. unfold MessageStorage.insert_message. now rewrite H. Qed.

(** A call never touches the rows stored under another key, and never adds
    a row under a key already present. *)
Lemma run_call_keeps_rows (db : table) (c : InsertCall) (k : string) :
  MessageStorage.has_key db k = true ->
  rows_with_id (run_call db c) k = rows_with_id db k.
Proof.
  intros Hk. unfold run_call, MessageStorage.insert_message.
  destruct (call_env c); simpl; try reflexivity.
  destruct (MessageStorage.has_key db (call_message_id c)) eqn:Hc; simpl;
    [reflexivity|].
  rewrite rows_with_id_app. unfold rows_with_id at 2. simpl.
  destruct (String.eqb (call_message_id c) k) eqn:E.
  - apply String.eqb_eq in E. congruence.
  - apply app_nil_r.
Qed.

Lemma run_call_keeps_key (db : table) (c : InsertCall) (k : string) :
  MessageStorage.has_key db k = true ->
  MessageStorage.has_key (run_call db c) k = true.
Proof.
  intros Hk.
  destruct (MessageStorage.has_key (run_call db c) k) eqn:E; [reflexivity|].
  apply has_key_rows in E. rewrite run_call_keeps_rows in E by exact Hk.
  apply has_key_rows in E. congruence.
Qed.

Lemma run_calls_keep_rows (cs : list InsertCall) (db : table) (k : string) :
  MessageStorage.has_key db k = true ->
  rows_with_id (run_calls db cs) k = rows_with_id db k
  /\ MessageStorage.has_key (run_calls db cs) k = true.
Proof.
  revert db. induction cs as [|c cs IH]; intros db Hk; simpl; [auto|].
  destruct (IH (run_call db c) (run_call_keeps_key db c k Hk)) as [H1 H2].
  unfold run_calls in *. simpl. rewrite H1, H2.
  split; [now apply run_call_keeps_rows|reflexivity].
Qed.

(** The PRIMARY KEY invariant is kept by every call. *)
Lemma run_call_unique_ids (db : table) (c : InsertCall) :
  unique_ids db -> unique_ids (run_call db c).
Proof.
  unfold unique_ids, run_call, MessageStorage.insert_message.
  destruct (call_env c); simpl; auto.
  destruct (MessageStorage.has_key db (call_message_id c)) eqn:Hc; simpl; auto.
  intros Hnd. rewrite map_app. simpl.
  apply NoDup_app; [exact Hnd|repeat constructor; simpl; tauto|].
  intros a Ha [<-|[]]. simpl in Ha.
  apply in_map_iff in Ha as (r & Hr & Hin).
  unfold MessageStorage.has_key in Hc.
  rewrite <- not_true_iff_false in Hc. apply Hc.
  apply existsb_exists. exists r. split; [exact Hin|now apply String.eqb_eq].
Qed.

(** C1.  When no storage fault occurs, the first insert under a message id
    reports created, [(True, False)], and leaves exactly one row under that
    id; after any further calls (under any ids, with any outcomes) that row
    is still the only one under the id and still holds the fields stored
    first, and every insert under the id, whatever its other fields,
    reports duplicate, [(True, True)], and leaves the table as it was. *)
Theorem insert_message_idempotent :
  forall (db : table) (now mid f t s : string) (x : option string),
    MessageStorage.has_key db mid = false ->
    exists db1 : table,
      MessageStorage.insert_message DbOk now db mid f t s x = (Ok (true, false), db1)
      /\ rows_with_id db1 mid = [mkRow mid f t s x now]
      /\ forall later : list InsertCall,
           let db2 := run_calls db1 later in
           rows_with_id db2 mid = [mkRow mid f t s x now]
           /\ forall (now' f' t' s' : string) (x' : option string),
                MessageStorage.insert_message DbOk now' db2 mid f' t' s' x'
                = (Ok (true, true), db2).
Proof.
  intros db now mid f t s x Hfresh.
  exists (db ++ [mkRow mid f t s x now]).
  assert (Hrows : rows_with_id (db ++ [mkRow mid f t s x now]) mid
                  = [mkRow mid f t s x now]).
  { rewrite rows_with_id_app. apply has_key_rows in Hfresh. rewrite Hfresh.
    unfold rows_with_id. simpl. now rewrite String.eqb_refl. }
  assert (Hkey : MessageStorage.has_key (db ++ [mkRow mid f t s x now]) mid = true).
  { destruct (MessageStorage.has_key (db ++ [mkRow mid f t s x now]) mid) eqn:E;
      [reflexivity|].
    apply has_key_rows in E. congruence. }
  split; [|split].
  - unfold MessageStorage.insert_message. now rewrite Hfresh.
  - exact Hrows.
  - intros later db2. subst db2.
    destruct (run_calls_keep_rows later _ mid Hkey) as [H1 H2].
    split; [congruence|].
    intros. now apply insert_message_duplicate.
Qed.

(** ** Text search: LIKE on a plain query is substring search *)

Ltac ascii_cases c :=
  destruct c as [[] [] [] [] [] [] [] []]; vm_compute; try reflexivity;
  try discriminate; auto.

Lemma tolower_not_upper (c : ascii) : is_upper_AZ (sqlite_tolower c) = false.
Proof. ascii_cases c. Qed.

Lemma tolower_nul (c : ascii) :
  Ascii.eqb (sqlite_tolower c) zero = Ascii.eqb c zero.
Proof. ascii_cases c. Qed.

Lemma py_lower_ascii (c : ascii) :
  is_ascii c = true -> py_lower_char c = sqlite_tolower c.
Proof. ascii_cases c. Qed.

Lemma plain_char_tolower (c : ascii) :
  plain_char c = true -> plain_char (sqlite_tolower c) = true.
Proof. ascii_cases c. Qed.

Lemma plain_char_is_ascii (c : ascii) : plain_char c = true -> is_ascii c = true.
Proof. ascii_cases c. Qed.

Lemma like_char_eq_lower (c d : ascii) :
  is_upper_AZ c = false -> is_upper_AZ d = false ->
  Sqlite.like_char_eq c d = true -> c = d.
Proof.
  intros Hc Hd. unfold Sqlite.like_char_eq, sqlite_tolower. rewrite Hc, Hd.
  destruct (Ascii.eqb c d) eqn:E; [intros _; now apply Ascii.eqb_eq|].
  simpl. rewrite andb_false_r. discriminate.
Qed.

Lemma like_char_eq_refl (c : ascii) : Sqlite.like_char_eq c c = true.
Proof. unfold Sqlite.like_char_eq. now rewrite Ascii.eqb_refl. Qed.

Lemma c_str_fold_case (t : string) :
  Sqlite.c_str (fold_case t) = fold_case (Sqlite.c_str t).
Proof.
  unfold fold_case. induction t as [|c t IH]; simpl; [reflexivity|].
  rewrite tolower_nul. destruct (Ascii.eqb c zero); simpl; [reflexivity|].
  now rewrite IH.
Qed.

Lemma py_lower_plain (q : string) :
  plain_query q = true -> py_lower q = fold_case q.
Proof.
  unfold py_lower, fold_case, plain_query.
  induction q as [|c q IH]; cbn [forall_string map_string]; [reflexivity|].
  intros H. apply andb_prop in H as [Hc Hq].
  now rewrite IH, (py_lower_ascii c (plain_char_is_ascii c Hc)).
Qed.

Lemma plain_query_fold_case (q : string) :
  plain_query q = true -> plain_query (fold_case q) = true.
Proof.
  unfold fold_case, plain_query.
  induction q as [|c q IH]; cbn [forall_string map_string]; [reflexivity|].
  intros H. apply andb_prop in H as [Hc Hq].
  now rewrite plain_char_tolower, IH.
Qed.

Lemma c_str_plain (p rest : string) :
  plain_query p = true ->
  Sqlite.c_str (p ++ rest) = (p ++ Sqlite.c_str rest)%string.
Proof.
  unfold plain_query.
  induction p as [|c p IH]; cbn [forall_string]; simpl; [reflexivity|].
  intros H. apply andb_prop in H as [Hc Hp].
  unfold plain_char in Hc.
  destruct (Ascii.eqb c zero); [now rewrite andb_false_r in Hc|].
  now rewrite IH.
Qed.

Lemma lowered_fold_case (t : string) : lowered (fold_case t).
Proof.
  unfold lowered, fold_case. induction t as [|c t IH]; simpl; [reflexivity|].
  now rewrite tolower_not_upper.
Qed.

Lemma lowered_app (a b : string) : lowered (a ++ b) <-> lowered a /\ lowered b.
Proof.
  unfold lowered. induction a as [|c a IH]; simpl; [tauto|].
  rewrite !andb_true_iff, IH. tauto.
Qed.

(** Unfolding of the [%] case: try here, or skip one character. *)
Lemma patternCompare_matchAll (p s : string) :
  Sqlite.patternCompare (String Sqlite.matchAll p) s
  = Sqlite.patternCompare p s
    || match s with
       | EmptyString => false
       | String _ s' => Sqlite.patternCompare (String Sqlite.matchAll p) s'
       end.
Proof. destruct s; reflexivity. Qed.

Lemma patternCompare_matchAll_iff (p s : string) :
  Sqlite.patternCompare (String Sqlite.matchAll p) s = true
  <-> exists pre t : string, s = (pre ++ t)%string /\ Sqlite.patternCompare p t = true.
Proof.
  induction s as [|d s IH]; rewrite patternCompare_matchAll, orb_true_iff.
  - split.
    + intros [H|H]; [|discriminate]. now exists "", "".
    + intros (pre & t & Heq & H). left.
      destruct pre; [|discriminate]. simpl in Heq. now subst.
  - rewrite IH. split.
    + intros [H|(pre & t & -> & H)].
      * now exists "", (String d s).
      * now exists (String d pre), t.
    + intros (pre & t & Heq & H). destruct pre as [|d' pre]; simpl in Heq.
      * left. now subst.
      * right. injection Heq as -> ->. now exists pre, t.
Qed.

Lemma patternCompare_only_matchAll (s : string) :
  Sqlite.patternCompare (String Sqlite.matchAll EmptyString) s = true.
Proof.
  apply patternCompare_matchAll_iff. exists s, "". split; [|reflexivity].
  clear. induction s; simpl; congruence.
Qed.

(** A plain, lowered prefix of the pattern consumes exactly itself. *)
Lemma patternCompare_plain_prefix (p rest s : string) :
  plain_query p = true -> lowered p -> lowered s ->
  Sqlite.patternCompare (p ++ rest) s = true
  <-> exists s' : string, s = (p ++ s')%string /\ Sqlite.patternCompare rest s' = true.
Proof.
  revert s. induction p as [|c p IH]; intros s Hp Hlp Hls; simpl.
  - split; [intros H; now exists s|intros (s' & -> & H); exact H].
  - unfold plain_query in Hp. cbn [forall_string] in Hp.
    apply andb_prop in Hp as [Hc Hp]. fold (plain_query p) in Hp.
    unfold lowered in Hlp. cbn [forall_string] in Hlp.
    apply andb_prop in Hlp as [Hlc Hlp]. fold (lowered p) in Hlp.
    assert (Ascii.eqb c Sqlite.matchAll = false /\ Ascii.eqb c Sqlite.matchOne = false)
      as [E1 E2].
    { unfold plain_char in Hc.
      apply andb_prop in Hc as [Hc E2]. apply andb_prop in Hc as [_ E1].
      now apply negb_true_iff in E1, E2. }
    rewrite E1, E2. destruct s as [|d s].
    + split; [discriminate|intros (s' & Heq & _); discriminate].
    + unfold lowered in Hls. cbn [forall_string] in Hls.
      apply andb_prop in Hls as [Hld Hls]. fold (lowered s) in Hls.
      simpl. rewrite andb_true_iff, (IH s Hp Hlp Hls). split.
      * intros [Hcd (s' & -> & H)].
        apply like_char_eq_lower in Hcd;
          [|now apply negb_true_iff|now apply negb_true_iff].
        subst. now exists s'.
      * intros (s' & Heq & H). injection Heq as -> ->.
        split; [apply like_char_eq_refl|now exists s'].
Qed.

Lemma append_assoc (a b c : string) : ((a ++ b) ++ c = a ++ (b ++ c))%string.
Proof. induction a; simpl; congruence. Qed.

(** [LOWER(text) LIKE '%' || q.lower() || '%'] for a plain [q]. *)
Lemma like_plain_query (q : string) (x : option string) :
  plain_query q = true ->
  Sqlite.is_true
    (Sqlite.like (Sqlite.lower x) ("%" ++ py_lower q ++ "%")%string) = true
  <-> exists txt : string, x = Some txt /\ occurs_ci q (Sqlite.c_str txt).
Proof.
  intros Hq. destruct x as [txt|].
  2:{ simpl. split; [discriminate|intros (? & ? & _); discriminate]. }
  unfold Sqlite.lower, Sqlite.like, option_map, Sqlite.is_true.
  rewrite (py_lower_plain q Hq).
  assert (Hpat : Sqlite.c_str ("%" ++ fold_case q ++ "%")%string
                 = String Sqlite.matchAll
                     (fold_case q ++ String Sqlite.matchAll "")%string).
  { change ("%" ++ fold_case q ++ "%")%string
      with (String Sqlite.matchAll (fold_case q ++ String Sqlite.matchAll ""))%string.
    cbn [Sqlite.c_str]. change (Ascii.eqb Sqlite.matchAll zero) with false.
    cbv iota. now rewrite (c_str_plain _ _ (plain_query_fold_case q Hq)). }
  rewrite Hpat. fold (fold_case txt). rewrite c_str_fold_case.
  set (t := Sqlite.c_str txt).
  destruct (Sqlite.patternCompare _ (fold_case t)) eqn:E.
  - split; [intros _|reflexivity]. exists txt. split; [reflexivity|].
    apply patternCompare_matchAll_iff in E as (pre & u & Heq & H).
    assert (lowered u) as Hu.
    { pose proof (lowered_fold_case t) as Hl. rewrite Heq in Hl.
      now apply lowered_app in Hl. }
    apply patternCompare_plain_prefix in H as (post & -> & _);
      auto using plain_query_fold_case, lowered_fold_case.
    now exists pre, post.
  - split; [discriminate|]. intros (txt' & Htxt & pre & post & Heq).
    injection Htxt as <-. fold t in Heq.
    rewrite <- E. apply patternCompare_matchAll_iff.
    exists pre, (fold_case q ++ post)%string. split; [exact Heq|].
    apply patternCompare_plain_prefix;
      auto using plain_query_fold_case, lowered_fold_case.
    + pose proof (lowered_fold_case t) as Hl. rewrite Heq in Hl.
      now apply lowered_app in Hl.
    + exists post. split; [reflexivity|apply patternCompare_only_matchAll].
Qed.

(** ** The matching set *)

Lemma from_condition (f : option string) (r : Row) :
  forallb (MessageStorage.eval_condition r)
    (if truthy f
     then match f with Some f => [MessageStorage.FromEq f] | None => [] end
     else []) = true
  <-> match f with Some f => f = "" \/ from_msisdn r = f | None => True end.
Proof.
  destruct f as [[|c f]|]; simpl; try tauto.
  rewrite andb_true_r, String.eqb_eq. split; [auto|].
  intros [H|H]; [discriminate|exact H].
Qed.

Lemma since_condition (s : option string) (r : Row) :
  forallb (MessageStorage.eval_condition r)
    (if truthy s
     then match s with Some s => [MessageStorage.TsGe s] | None => [] end
     else []) = true
  <-> match s with Some s => s = "" \/ String.leb s (ts r) = true | None => True end.
Proof.
  destruct s as [[|c s]|]; simpl; try tauto.
  rewrite andb_true_r. split; [auto|].
  intros [H|H]; [discriminate|exact H].
Qed.

Lemma text_condition (q : option string) (r : Row) :
  (forall t, q = Some t -> plain_query t = true) ->
  forallb (MessageStorage.eval_condition r)
    (if truthy q
     then match q with
          | Some s => [MessageStorage.LowerTextLike ("%" ++ py_lower s ++ "%")%string]
          | None => []
          end
     else []) = true
  <-> match q with
      | Some t =>
          t = "" \/ exists txt : string,
                      text r = Some txt /\ occurs_ci t (Sqlite.c_str txt)
      | None => True
      end.
Proof.
  intros Hq. destruct q as [[|c q]|]; cbn [truthy forallb]; try tauto.
  cbn [MessageStorage.eval_condition]. rewrite andb_true_r.
  rewrite like_plain_query by (now apply Hq).
  split; [auto|]. intros [H|H]; [discriminate|exact H].
Qed.

Lemma c_str_nul_free (s : string) : nul_free s = true -> Sqlite.c_str s = s.
Proof.
  unfold nul_free. induction s as [|c s IH]; cbn [forall_string Sqlite.c_str];
    [reflexivity|].
  intros H. apply andb_prop in H as [Hc Hs].
  destruct (Ascii.eqb c zero); [discriminate|]. now rewrite IH.
Qed.

(** C5, as the code has it.  For a query made of ASCII characters other
    than [%], [_] and NUL, and a row whose text holds no NUL, the row
    belongs to the matching set exactly when it is stored and passes every
    filter that is supplied and not empty: [from_filter] equals its
    sender; [since] is at most its [ts] in text order; and the query
    occurs in its text as a substring when the case of A-Z is ignored (a
    row without text never passes).  An empty-string filter does not
    restrict. *)
Theorem matching_filter_semantics :
  forall (db : table) (from_filter since q : option string) (r : Row),
    (forall t : string, q = Some t -> plain_query t = true) ->
    (forall t txt : string, q = Some t -> text r = Some txt -> nul_free txt = true) ->
    In r (MessageStorage.matching db from_filter since q)
    <-> In r db /\ filter_match from_filter since q r.
Proof.
  intros db from_filter since q r Hq Hnul.
  unfold MessageStorage.matching, filter_match. rewrite filter_In.
  unfold MessageStorage.where_clause, MessageStorage.conditions.
  rewrite !forallb_app, !andb_true_iff.
  rewrite from_condition, since_condition, (text_condition q r Hq).
  assert (Htext :
    match q with
    | Some t =>
        t = "" \/ exists txt : string,
                    text r = Some txt /\ occurs_ci t (Sqlite.c_str txt)
    | None => True
    end
    <-> match q with
        | Some t =>
            t = "" \/ exists txt : string, text r = Some txt /\ occurs_ci t txt
        | None => True
        end).
  { destruct q as [t|]; [|tauto]. split.
    - intros [H|(txt & Ht & Ho)]; [now left|right].
      exists txt. split; [exact Ht|].
      now rewrite (c_str_nul_free txt (Hnul t txt eq_refl Ht)) in Ho.
    - intros [H|(txt & Ht & Ho)]; [now left|right].
      exists txt. split; [exact Ht|].
      now rewrite (c_str_nul_free txt (Hnul t txt eq_refl Ht)). }
  rewrite Htext. reflexivity.
Qed.

(** C5 as stated fails: with [from_filter = ""] the row of sender [+1] is
    in the matching set, although [""] is not its sender. *)
Lemma stated_filter_semantics_fails :
  let db := [sample_row "m1" "+1" "2025-01-15T10:00:00Z" (Some "Hello")] in
  ~ (forall r : Row,
       In r (MessageStorage.matching db (Some "") None None)
       <-> In r db /\ stated_match (Some "") None None r).
Proof.
  intros db H.
  destruct (proj1 (H (sample_row "m1" "+1" "2025-01-15T10:00:00Z" (Some "Hello"))))
    as [_ [Hfrom _]].
  - simpl. now left.
  - simpl in Hfrom. discriminate.
Qed.

(** The wildcards of LIKE are not escaped: the query [a_c] selects the text
    [abc], in which it does not occur. *)
Remark like_wildcard_in_query :
  let r := sample_row "m1" "+1" "2025-01-15T10:00:00Z" (Some "abc") in
  MessageStorage.matching [r] None None (Some "a_c") = [r]
  /\ ~ occurs_ci "a_c" "abc".
Proof.
  split; [reflexivity|].
  intros (pre & post & H). vm_compute in H.
  destruct pre as [|a [|b [|c [|d pre]]]]; simpl in H; discriminate.
Qed.

(** The text is read up to its first NUL: the query [cd] does not select
    the text [ab], NUL, [cd], in which it occurs. *)
Remark like_nul_in_text :
  let txt := ("ab" ++ String zero "cd")%string in
  let r := sample_row "m1" "+1" "2025-01-15T10:00:00Z" (Some txt) in
  MessageStorage.matching [r] None None (Some "cd") = []
  /\ occurs_ci "cd" txt.
Proof.
  split; [reflexivity|].
  exists ("ab" ++ String zero "")%string, EmptyString. reflexivity.
Qed.

(** Case folding differs between the two sides of the LIKE: the query is
    lowered by Python, the text by SQLite, which leaves non-ASCII letters
    alone; the query [É] does not select the text [É]. *)
Remark like_non_ascii_query :
  let r := sample_row "m1" "+1" "2025-01-15T10:00:00Z"
             (Some (String (ascii_of_nat 201) "")) in
  MessageStorage.matching [r] None None (Some (String (ascii_of_nat 201) "")) = [].
Proof. reflexivity. Qed.

(** ** Aggregates *)

Lemma counted_bump (k k0 : string) (g : list (string * nat)) :
  counted k (Sqlite.bump k0 g)
  = counted k g + (if String.eqb k0 k then 1 else 0).
Proof.
  induction g as [|[k' n] g IH]; simpl.
  - destruct (String.eqb k0 k); lia.
  - destruct (String.compare k0 k') eqn:E; simpl.
    + apply compare_eq in E. subst k'. destruct (String.eqb k0 k); lia.
    + destruct (String.eqb k0 k), (String.eqb k' k); lia.
    + rewrite IH. lia.
Qed.

Lemma counted_group_count_gen (k : string) (l : list string) (g : list (string * nat)) :
  counted k (fold_left (fun g k => Sqlite.bump k g) l g)
  = counted k g + List.length (filter (fun k0 => String.eqb k0 k) l).
Proof.
  revert g. induction l as [|k0 l IH]; intros g; simpl; [lia|].
  rewrite IH, counted_bump. destruct (String.eqb k0 k); simpl; lia.
Qed.

Lemma counted_group_count (db : table) (k : string) :
  counted k (Sqlite.group_count (map from_msisdn db)) = sent_by db k.
Proof.
  unfold Sqlite.group_count, sent_by. rewrite counted_group_count_gen. simpl.
  induction db as [|r db IH]; simpl; [reflexivity|].
  destruct (String.eqb (from_msisdn r) k); simpl; congruence.
Qed.

Lemma bump_keys (k0 : string) (g : list (string * nat)) (p : string * nat) :
  In p (Sqlite.bump k0 g) -> fst p = k0 \/ In (fst p) (map fst g).
Proof.
  induction g as [|[k' n] g IH]; simpl.
  - intros [<-|[]]. now left.
  - destruct (String.compare k0 k') eqn:E; simpl.
    + intros [<-|H]; simpl; auto. right. right. now apply in_map.
    + intros [<-|[<-|H]]; simpl; auto. right. right. now apply in_map.
    + intros [<-|H]; simpl; auto. destruct (IH H); auto.
Qed.

Lemma bump_keys_ascending (k0 : string) (g : list (string * nat)) :
  keys_ascending g -> keys_ascending (Sqlite.bump k0 g).
Proof.
  unfold keys_ascending. induction 1 as [|[k' n] g Hs IH Hk]; simpl.
  - repeat constructor.
  - destruct (String.compare k0 k') eqn:E.
    + constructor; [exact Hs|exact Hk].
    + constructor; [now constructor|]. constructor; [exact E|].
      rewrite Forall_forall in *. intros p Hp. simpl.
      eapply compare_lt_trans; [exact E|]. now apply Hk.
    + constructor; [exact IH|].
      rewrite Forall_forall in *. intros p Hp. simpl.
      destruct (bump_keys _ _ _ Hp) as [->|Hin].
      * now apply compare_gt_lt.
      * apply in_map_iff in Hin as (p' & Heq & Hin).
        rewrite <- Heq. now apply Hk.
Qed.

Lemma group_count_keys_ascending (l : list string) :
  keys_ascending (Sqlite.group_count l).
Proof.
  unfold Sqlite.group_count.
  assert (H : keys_ascending []) by constructor.
  revert H. generalize (@nil (string * nat)).
  induction l as [|k l IH]; intros g Hg; simpl; [exact Hg|].
  apply IH. now apply bump_keys_ascending.
Qed.

Lemma compare_lt_neq (a b : string) : String.compare a b = Lt -> a <> b.
Proof. intros H ->. rewrite compare_refl in H. discriminate. Qed.

Lemma keys_ascending_nodup (g : list (string * nat)) :
  keys_ascending g -> NoDup (map fst g).
Proof.
  induction 1 as [|p g Hs IH Hp]; simpl; constructor; [|exact IH].
  intros Hin. apply in_map_iff in Hin as (p' & Heq & Hin).
  rewrite Forall_forall in Hp. apply (compare_lt_neq _ _ (Hp _ Hin)). congruence.
Qed.

Lemma counted_absent (k : string) (g : list (string * nat)) :
  ~ In k (map fst g) -> counted k g = 0.
Proof.
  induction g as [|[k' n] g IH]; simpl; [reflexivity|].
  intros H. destruct (String.eqb_spec k' k) as [->|Hne]; [tauto|].
  rewrite IH; tauto.
Qed.

Lemma counted_unique (k : string) (n : nat) (g : list (string * nat)) :
  NoDup (map fst g) -> In (k, n) g -> counted k g = n.
Proof.
  induction g as [|[k' n'] g IH]; simpl; [contradiction|].
  intros Hnd [Heq|Hin]; inversion Hnd as [|? ? Hnotin Hnd']; subst.
  - injection Heq as -> ->. rewrite String.eqb_refl.
    rewrite counted_absent by exact Hnotin. lia.
  - destruct (String.eqb_spec k' k) as [->|Hne].
    + exfalso. apply Hnotin.
      change k with (fst (k, n)). now apply in_map.
    + now rewrite IH.
Qed.

Lemma counted_positive (k : string) (g : list (string * nat)) :
  0 < counted k g -> exists n, In (k, n) g.
Proof.
  induction g as [|[k' n'] g IH]; simpl; [lia|].
  destruct (String.eqb_spec k' k) as [->|Hne]; intros H.
  - exists n'. now left.
  - destruct (IH H) as [n Hn]. exists n. now right.
Qed.

Lemma count_geb_total (a b : string * nat) :
  MessageStorage.count_geb a b = true \/ MessageStorage.count_geb b a = true.
Proof. unfold MessageStorage.count_geb. rewrite !Nat.leb_le. lia. Qed.

Lemma count_geb_trans (a b c : string * nat) :
  MessageStorage.count_geb a b = true -> MessageStorage.count_geb b c = true ->
  MessageStorage.count_geb a c = true.
Proof. unfold MessageStorage.count_geb. rewrite !Nat.leb_le. lia. Qed.

Lemma nodup_firstn {A : Type} (n : nat) (l : list A) :
  NoDup l -> NoDup (firstn n l).
Proof.
  intros H. revert n. induction H as [|a l Hnotin Hnd IH]; intros [|n]; simpl;
    try constructor; auto.
  intros Hin. apply Hnotin. eapply in_firstn; eauto.
Qed.

Lemma strongly_sorted_app_le {A : Type} (R : A -> A -> Prop) (l1 l2 : list A) :
  StronglySorted R (l1 ++ l2) -> forall x y, In x l1 -> In y l2 -> R x y.
Proof.
  induction l1 as [|a l1 IH]; simpl; [contradiction|].
  intros H x y [<-|Hx] Hy; inversion H as [|? ? Hs Ha]; subst.
  - rewrite Forall_forall in Ha. apply Ha, in_or_app. now right.
  - now apply IH.
Qed.

Lemma min_text_spec (l : list string) (m0 : string) :
  exists m,
    fold_left
      (fun acc s =>
         match acc with
         | None => Some s
         | Some m => if String.ltb s m then Some s else Some m
         end) l (Some m0) = Some m
    /\ In m (m0 :: l)
    /\ forall s, In s (m0 :: l) -> String.leb m s = true.
Proof.
  revert m0. induction l as [|s l IH]; intros m0; simpl.
  - exists m0. split; [reflexivity|]. split; [now left|].
    intros s [<-|[]]. apply leb_refl.
  - destruct (String.ltb s m0) eqn:E.
    + destruct (IH s) as (m & Hm & Hin & Hle). exists m. split; [exact Hm|].
      split; [simpl in Hin; tauto|].
      intros s' [<-|Hs']; [|now apply Hle].
      apply leb_trans with s; [apply Hle; now left|].
      apply ltb_iff in E. apply leb_iff. now left.
    + destruct (IH m0) as (m & Hm & Hin & Hle). exists m. split; [exact Hm|].
      split; [simpl in Hin; simpl; tauto|].
      intros s' [<-|[<-|Hs']].
      * apply Hle. now left.
      * apply leb_trans with m0; [apply Hle; now left|].
        now apply ltb_false_leb.
      * apply Hle. now right.
Qed.

Lemma max_text_spec (l : list string) (m0 : string) :
  exists m,
    fold_left
      (fun acc s =>
         match acc with
         | None => Some s
         | Some m => if String.ltb m s then Some s else Some m
         end) l (Some m0) = Some m
    /\ In m (m0 :: l)
    /\ forall s, In s (m0 :: l) -> String.leb s m = true.
Proof.
  revert m0. induction l as [|s l IH]; intros m0; simpl.
  - exists m0. split; [reflexivity|]. split; [now left|].
    intros s [<-|[]]. apply leb_refl.
  - destruct (String.ltb m0 s) eqn:E.
    + destruct (IH s) as (m & Hm & Hin & Hle). exists m. split; [exact Hm|].
      split; [simpl in Hin; tauto|].
      intros s' [<-|Hs']; [|now apply Hle].
      apply leb_trans with s; [|apply Hle; now left].
      apply ltb_iff in E. apply leb_iff. now left.
    + destruct (IH m0) as (m & Hm & Hin & Hle). exists m. split; [exact Hm|].
      split; [simpl in Hin; simpl; tauto|].
      intros s' [<-|[<-|Hs']].
      * apply Hle. now left.
      * apply leb_trans with m0; [|apply Hle; now left].
        now apply ltb_false_leb.
      * apply Hle. now right.
Qed.

Lemma bump_positive (k0 : string) (g : list (string * nat)) :
  Forall (fun p => 0 < snd p) g -> Forall (fun p => 0 < snd p) (Sqlite.bump k0 g).
Proof.
  induction 1 as [|[k' n] g Hn Hg IH]; simpl.
  - repeat constructor.
  - destruct (String.compare k0 k'); repeat constructor; simpl in *; auto; lia.
Qed.

Lemma group_count_positive (l : list string) :
  Forall (fun p => 0 < snd p) (Sqlite.group_count l).
Proof.
  unfold Sqlite.group_count.
  assert (H : Forall (fun p : string * nat => 0 < snd p) []) by constructor.
  revert H. generalize (@nil (string * nat)).
  induction l as [|k l IH]; intros g Hg; simpl; [exact Hg|].
  apply IH. now apply bump_positive.
Qed.

Lemma top_ten (L : list (string * nat)) :
  Sqlite.limit_offset 10 0 L = firstn 10 L.
Proof. reflexivity. Qed.

(** C6.  For every table: [total_messages] is the number of rows;
    [senders_count] is the number of distinct senders; [messages_per_sender]
    holds at most 10 pairs, sorted by count descending, with pairwise
    different senders, each count being the (positive) number of rows of
    its sender, and no sender left out has more rows than a listed one;
    [first_message_ts] and [last_message_ts] are the least and greatest
    [ts] in text order, and both are the null marker when the table is
    empty. *)
Theorem get_stats_correct :
  forall db : table,
    let st := MessageStorage.get_stats db in
    let top := MessageStorage.messages_per_sender st in
    MessageStorage.total_messages st = List.length db
    /\ (exists senders : list string,
          NoDup senders
          /\ (forall f, In f senders <-> exists r, In r db /\ from_msisdn r = f)
          /\ MessageStorage.senders_count st = List.length senders)
    /\ List.length top <= 10
    /\ count_descending top
    /\ NoDup (map fst top)
    /\ (forall f c, In (f, c) top -> c = sent_by db f /\ 0 < c)
    /\ (forall f, 0 < sent_by db f ->
          (exists c, In (f, c) top)
          \/ (List.length top = 10
              /\ forall f' c', In (f', c') top -> sent_by db f <= c'))
    /\ (db = [] ->
        MessageStorage.first_message_ts st = None
        /\ MessageStorage.last_message_ts st = None)
    /\ (db <> [] ->
        exists lo hi : string,
          MessageStorage.first_message_ts st = Some lo
          /\ MessageStorage.last_message_ts st = Some hi
          /\ In lo (map ts db) /\ In hi (map ts db)
          /\ forall r, In r db ->
               String.leb lo (ts r) = true /\ String.leb (ts r) hi = true).
Proof.
  intros db st top. subst st top. unfold MessageStorage.get_stats.
  cbn [MessageStorage.total_messages MessageStorage.senders_count
       MessageStorage.messages_per_sender MessageStorage.first_message_ts
       MessageStorage.last_message_ts].
  rewrite top_ten.
  set (G := Sqlite.group_count (map from_msisdn db)).
  set (L := Sqlite.order_by MessageStorage.count_geb G).
  assert (HGL : Permutation G L) by apply order_by_perm.
  assert (HsL : StronglySorted (fun a b => MessageStorage.count_geb a b = true) L).
  { apply order_by_sorted; [apply count_geb_total|apply count_geb_trans]. }
  assert (HndG : NoDup (map fst G)).
  { apply keys_ascending_nodup, group_count_keys_ascending. }
  assert (HinG : forall f c, In (f, c) G -> c = sent_by db f /\ 0 < c).
  { intros f c Hin. split.
    - rewrite <- counted_group_count. symmetry. now apply counted_unique.
    - pose proof (group_count_positive (map from_msisdn db)) as Hp.
      rewrite Forall_forall in Hp. apply (Hp _ Hin). }
  assert (Hdesc : count_descending L).
  { unfold count_descending. clear -HsL.
    induction HsL as [|a l Hs IH Ha]; constructor; auto.
    rewrite Forall_forall in *. intros y Hy.
    apply Nat.leb_le. now apply Ha. }
  split; [reflexivity|]. split; [|split; [|split; [|split; [|split; [|split; [|split]]]]]].
  - exists (nodup string_dec (map from_msisdn db)).
    split; [apply NoDup_nodup|]. split; [|reflexivity].
    intros f. rewrite nodup_In, in_map_iff.
    split; intros (r & H1 & H2); exists r; auto.
  - apply firstn_le_length.
  - now apply strongly_sorted_firstn.
  - rewrite <- firstn_map. apply nodup_firstn.
    eapply Permutation_NoDup; [|exact HndG]. now apply Permutation_map.
  - intros f c Hin. apply HinG.
    eapply Permutation_in; [apply Permutation_sym, HGL|].
    eapply in_firstn; eauto.
  - intros f Hf. rewrite <- counted_group_count in Hf. fold G in Hf.
    pose proof Hf as Hf'. apply counted_positive in Hf' as [n Hn].
    assert (n = counted f G) as Hn' by (symmetry; now apply counted_unique).
    apply (Permutation_in _ HGL) in Hn.
    rewrite <- (firstn_skipn 10 L) in Hn. apply in_app_or in Hn as [Hn|Hn].
    + left. now exists n.
    + right. split.
      * rewrite length_firstn. apply Nat.min_l.
        assert (0 < List.length (skipn 10 L)) by (destruct (skipn 10 L); simpl in *; [contradiction|lia]).
        rewrite length_skipn in H. lia.
      * intros f' c' Hin.
        rewrite <- (firstn_skipn 10 L) in Hdesc.
        pose proof (strongly_sorted_app_le _ _ _ Hdesc _ _ Hin Hn) as Hle.
        simpl in Hle. rewrite <- counted_group_count. fold G. lia.
  - intros ->. split; reflexivity.
  - intros Hne. destruct db as [|r db]; [congruence|]. simpl map.
    unfold Sqlite.min_text, Sqlite.max_text. cbn [fold_left].
    destruct (min_text_spec (map ts db) (ts r)) as (lo & Hlo & Hinlo & Hle).
    destruct (max_text_spec (map ts db) (ts r)) as (hi & Hhi & Hinhi & Hge).
    exists lo, hi. repeat split; auto.
    + apply Hle. change (ts r :: map ts db) with (map ts (r :: db)).
      now apply in_map.
    + apply Hge. change (ts r :: map ts db) with (map ts (r :: db)).
      now apply in_map.
Qed.

(** ** Signature verification *)

(** The model of [hashlib] and [hmac] agrees with the published vectors:
    SHA-256 of [abc] (FIPS 180-4) and test case 2 of RFC 4231. *)
Example sha256_abc :
  Hmac.hex (Sha256.digest (list_byte_of_string "abc"))
  = "ba7816bf8f01cfea414140de5dae2223b00361a396177a9cb410ff61f20015ad".
Proof. vm_compute. reflexivity. Qed.

Example hmac_sha256_rfc4231_2 :
  Hmac.hexdigest (list_byte_of_string "Jefe")
    (list_byte_of_string "what do ya want for nothing?")
  = "5bdcc146bf60754e6a042426089575c75a003f089d2739839dec58b964ec3843".
Proof. vm_compute. reflexivity. Qed.

Lemma hex_digit_ascii (n : nat) : n < 16 -> is_ascii (Hmac.hex_digit n) = true.
Proof.
  intros H. do 16 (destruct n as [|n]; [reflexivity|]). lia.
Qed.

Lemma hex_is_ascii (bs : list byte) : forall_string is_ascii (Hmac.hex bs) = true.
Proof.
  induction bs as [|b bs IH]; cbn [Hmac.hex forall_string]; [reflexivity|].
  rewrite IH, !hex_digit_ascii; [reflexivity| |].
  - apply Nat.mod_upper_bound. discriminate.
  - apply Nat.Div0.div_lt_upper_bound.
    pose proof (Byte.to_nat_bounded b). lia.
Qed.

(** C7.  [verify_signature] returns [True] exactly when the signature is
    the lower-case hex encoding of the HMAC-SHA256 of the body bytes under
    the UTF-8 bytes of the secret.  It is a function of these three inputs
    alone: it returns [False] exactly on an ASCII signature that differs,
    and raises [TypeError] exactly on a signature with a non-ASCII
    character. *)
Theorem verify_signature_spec :
  forall (secret : string) (body : list byte) (signature : string),
    (verify_signature secret body signature = Ok true
     <-> signature = Hmac.hexdigest (encode_utf8 secret) body)
    /\ (verify_signature secret body signature = Ok false
        <-> forall_string is_ascii signature = true
            /\ signature <> Hmac.hexdigest (encode_utf8 secret) body)
    /\ (verify_signature secret body signature = Raise TypeError
        <-> forall_string is_ascii signature = false).
Proof.
  intros secret body signature.
  unfold verify_signature, Hmac.compare_digest, Hmac.hexdigest.
  rewrite hex_is_ascii. simpl andb.
  set (expected := Hmac.hex _).
  destruct (forall_string is_ascii signature) eqn:Ha.
  - destruct (String.eqb_spec expected signature) as [<-|Hne].
    + repeat split; try congruence. intros [_ H]. congruence.
    + repeat split; try congruence; try discriminate.
  - repeat split; try congruence; try discriminate.
    + intros ->. subst expected. rewrite hex_is_ascii in Ha. discriminate.
    + intros [H _]. discriminate.
Qed.

(** The digest is taken over the bytes as received: a signature computed
    over one serialization is rejected for another serialization of the
    same JSON value. *)
Example signature_is_over_raw_bytes :
  let compact := list_byte_of_string "[1,2]" in
  let spaced := list_byte_of_string "[1, 2]" in
  verify_signature "testsecret" compact
    (Hmac.hexdigest (encode_utf8 "testsecret") compact) = Ok true
  /\ verify_signature "testsecret" spaced
       (Hmac.hexdigest (encode_utf8 "testsecret") compact) = Ok false.
Proof. vm_compute. split; reflexivity. Qed.

(** ** Patterns: the matcher decides the language *)

Lemma append_nil_r (s : string) : (s ++ "")%string = s.
Proof. induction s; simpl; congruence. Qed.

Lemma append_eq_nil (a b : string) :
  (a ++ b)%string = EmptyString -> a = EmptyString /\ b = EmptyString.
Proof. destruct a; simpl; [auto|discriminate]. Qed.

Lemma lang_cat_inv (r1 r2 : Re.regex) (s : string) :
  lang (Re.Cat r1 r2) s ->
  exists s1 s2, s = (s1 ++ s2)%string /\ lang r1 s1 /\ lang r2 s2.
Proof. inversion 1; subst; eauto. Qed.

Lemma lang_alt_inv (r1 r2 : Re.regex) (s : string) :
  lang (Re.Alt r1 r2) s -> lang r1 s \/ lang r2 s.
Proof. inversion 1; subst; auto. Qed.

Lemma lang_sym_inv (cs : Re.charset) (s : string) :
  lang (Re.Sym cs) s -> exists c, s = String c EmptyString /\ Re.in_set cs c = true.
Proof. inversion 1; subst; eauto. Qed.

Lemma lang_eps_inv (s : string) : lang Re.Eps s -> s = EmptyString.
Proof. now inversion 1. Qed.

Lemma nullable_lang (r : Re.regex) :
  Re.nullable r = true <-> lang r EmptyString.
Proof.
  split.
  - induction r; simpl; intros H; try discriminate.
    + constructor.
    + apply andb_prop in H as [H1 H2].
      change EmptyString with (EmptyString ++ EmptyString)%string.
      constructor; auto.
    + apply orb_prop in H as [H|H]; [apply lang_alt_l|apply lang_alt_r]; auto.
    + constructor.
  - intros H. remember EmptyString as s eqn:Hs.
    induction H; simpl; try discriminate; auto.
    + apply append_eq_nil in Hs as [-> ->]. now rewrite IHlang1, IHlang2.
    + now rewrite IHlang.
    + rewrite IHlang by assumption. apply orb_true_r.
Qed.

Lemma deriv_sound (c : ascii) (r : Re.regex) (s : string) :
  lang (Re.deriv c r) s -> lang r (String c s).
Proof.
  revert s. induction r; simpl; intros s H.
  - inversion H.
  - inversion H.
  - destruct (Re.in_set cs c) eqn:E; inversion H; subst. now constructor.
  - destruct (Re.nullable r1) eqn:E.
    + apply lang_alt_inv in H as [H|H].
      * apply lang_cat_inv in H as (s1 & s2 & -> & H1 & H2).
        change (String c (s1 ++ s2)) with (String c s1 ++ s2)%string.
        constructor; auto.
      * change (String c s) with (EmptyString ++ String c s)%string.
        constructor; auto. now apply nullable_lang.
    + apply lang_cat_inv in H as (s1 & s2 & -> & H1 & H2).
      change (String c (s1 ++ s2)) with (String c s1 ++ s2)%string.
      constructor; auto.
  - apply lang_alt_inv in H as [H|H]; [apply lang_alt_l|apply lang_alt_r]; auto.
  - apply lang_cat_inv in H as (s1 & s2 & -> & H1 & H2).
    change (String c (s1 ++ s2)) with (String c s1 ++ s2)%string.
    constructor; auto.
Qed.

Lemma deriv_complete (c : ascii) (r : Re.regex) (s : string) :
  lang r (String c s) -> lang (Re.deriv c r) s.
Proof.
  intros H. remember (String c s) as w eqn:Hw. revert c s Hw.
  induction H; intros c0 s0 Hw; simpl; try discriminate.
  - injection Hw as -> <-. rewrite H. constructor.
  - destruct s1 as [|c1 s1]; simpl in Hw.
    + subst s2. apply nullable_lang in H. rewrite H.
      apply lang_alt_r. now apply IHlang2.
    + injection Hw as -> <-.
      destruct (Re.nullable r1); [apply lang_alt_l|]; constructor; auto.
  - apply lang_alt_l. auto.
  - apply lang_alt_r. auto.
  - destruct s1 as [|c1 s1]; simpl in Hw.
    + now apply IHlang2.
    + injection Hw as -> <-. constructor; auto.
Qed.

Lemma accepts_lang (r : Re.regex) (s : string) :
  Re.accepts r s = true <-> lang r s.
Proof.
  revert r. induction s as [|c s IH]; intros r; simpl.
  - apply nullable_lang.
  - rewrite IH. split; [apply deriv_sound|apply deriv_complete].
Qed.

Lemma chomp_append (w : string) : Re.chomp (w ++ newline) = Some w.
Proof.
  induction w as [|a w IH]; [reflexivity|].
  change (String a w ++ newline)%string with (String a (w ++ newline)%string).
  cbn [Re.chomp]. rewrite IH.
  destruct w; reflexivity.
Qed.

Lemma chomp_spec (s w : string) :
  Re.chomp s = Some w <-> s = (w ++ newline)%string.
Proof.
  split; [|intros ->; apply chomp_append].
  revert w. induction s as [|c s IH]; intros w; [discriminate|].
  cbn [Re.chomp]. destruct s as [|c' s'].
  - destruct (Ascii.eqb_spec c "010"%char) as [->|Hne]; [|discriminate].
    now intros [= <-].
  - destruct (Re.chomp (String c' s')) as [w'|]; [|discriminate].
    simpl. intros [= <-]. now rewrite (IH w' eq_refl).
Qed.

Lemma match_lang (r : Re.regex) (s : string) :
  Re.match_ r s = true
  <-> lang r s \/ exists w, s = (w ++ newline)%string /\ lang r w.
Proof.
  unfold Re.match_. rewrite orb_true_iff, accepts_lang. split.
  - intros [H|H]; [now left|]. right.
    destruct (Re.chomp s) as [w|] eqn:E; [|discriminate].
    exists w. split; [now apply chomp_spec|now apply accepts_lang].
  - intros [H|(w & Hs & H)]; [now left|]. right.
    apply chomp_spec in Hs. rewrite Hs. now apply accepts_lang.
Qed.

Lemma lang_star_sym (cs : Re.charset) (s : string) :
  lang (Re.Star (Re.Sym cs)) s <-> forall_string (Re.in_set cs) s = true.
Proof.
  split.
  - intros H. remember (Re.Star (Re.Sym cs)) as r eqn:Hr.
    induction H; try discriminate; [reflexivity|].
    injection Hr as ->.
    apply lang_sym_inv in H as (c & -> & Hc). simpl. rewrite Hc. auto.
  - induction s as [|c s IH]; simpl; intros H; [constructor|].
    apply andb_prop in H as [Hc Hs].
    change (String c s) with (String c EmptyString ++ s)%string.
    constructor; [now constructor|auto].
Qed.

Lemma lang_plus_sym (cs : Re.charset) (s : string) :
  lang (Re.Plus (Re.Sym cs)) s
  <-> s <> EmptyString /\ forall_string (Re.in_set cs) s = true.
Proof.
  unfold Re.Plus. split.
  - intros H. apply lang_cat_inv in H as (s1 & s2 & -> & H1 & H2).
    apply lang_sym_inv in H1 as (c & -> & Hc). apply lang_star_sym in H2.
    simpl. rewrite Hc, H2. split; [discriminate|reflexivity].
  - intros [Hne H]. destruct s as [|c s]; [congruence|].
    simpl in H. apply andb_prop in H as [Hc Hs].
    change (String c s) with (String c EmptyString ++ s)%string.
    constructor; [now constructor|now apply lang_star_sym].
Qed.

Lemma lang_lit (c : ascii) (s : string) :
  lang (Re.lit c) s <-> s = String c EmptyString.
Proof.
  unfold Re.lit. split.
  - intros H. apply lang_sym_inv in H as (c' & -> & Hc). simpl in Hc.
    apply Ascii.eqb_eq in Hc. now subst.
  - intros ->. constructor. simpl. apply Ascii.eqb_refl.
Qed.

Lemma lang_d (s : string) :
  lang Re.d s <-> exists c, s = String c EmptyString /\ Datetime.is_digit c = true.
Proof.
  unfold Re.d. split.
  - apply lang_sym_inv.
  - intros (c & -> & Hc). now constructor.
Qed.

Lemma lang_E164 (s : string) :
  lang E164_PATTERN s
  <-> exists ds, s = String "+"%char ds /\ ds <> EmptyString /\ digits ds.
Proof.
  unfold E164_PATTERN. split.
  - intros H. apply lang_cat_inv in H as (s1 & s2 & -> & H1 & H2).
    apply lang_lit in H1 as ->. apply lang_plus_sym in H2 as [Hne Hd].
    exists s2. auto.
  - intros (ds & -> & Hne & Hd).
    change (String "+" ds) with (String "+" EmptyString ++ ds)%string.
    constructor; [now apply lang_lit|]. apply lang_plus_sym. auto.
Qed.

Lemma match_E164 (s : string) : Re.match_ E164_PATTERN s = true <-> e164 s.
Proof.
  rewrite match_lang. unfold e164. split.
  - intros [H|(w & -> & H)]; apply lang_E164 in H as (ds & -> & Hne & Hd).
    + exists ds, EmptyString. rewrite append_nil_r. auto.
    + exists ds, newline. auto.
  - intros (ds & nl & -> & Hne & Hd & [->| ->]).
    + left. apply lang_E164. exists ds. rewrite append_nil_r. auto.
    + right. exists (String "+" ds). split; [reflexivity|].
      apply lang_E164. eauto.
Qed.

(** The shape that [ISO8601_UTC_PATTERN] describes. *)
Lemma lang_ISO8601 (s : string) :
  lang ISO8601_UTC_PATTERN s
  <-> exists (y1 y2 y3 y4 m1 m2 d1 d2 h1 h2 n1 n2 s1 s2 : ascii) (frac : string),
        s = stamp y1 y2 y3 y4 m1 m2 d1 d2 h1 h2 n1 n2 s1 s2 (frac ++ "Z")%string
        /\ stamp_digits y1 y2 y3 y4 m1 m2 d1 d2 h1 h2 n1 n2 s1 s2
        /\ fraction_ok frac.
Proof.
  unfold ISO8601_UTC_PATTERN, Re.Opt, stamp, stamp_digits, fraction_ok.
  cbn [Re.Rep]. split.
  - intros H.
    repeat match goal with
           | H : lang (Re.Cat _ _) _ |- _ =>
               apply lang_cat_inv in H as (? & ? & -> & ? & ?)
           | H : lang (Re.lit _) _ |- _ => apply lang_lit in H as ->
           | H : lang Re.d _ |- _ => apply lang_d in H as (? & -> & ?)
           | H : lang Re.Eps _ |- _ => apply lang_eps_inv in H as ->
           end.
    match goal with
    | H : lang (Re.Alt _ _) ?f |- _ => rename H into Hfrac; set (frac := f) in *
    end.
    simpl. do 14 eexists. exists frac. split; [reflexivity|]. split.
    + unfold digits. cbn [forall_string].
      repeat match goal with H : Datetime.is_digit _ = true |- _ => rewrite H; clear H end.
      reflexivity.
    + apply lang_alt_inv in Hfrac as [Hf|Hf].
      * right. apply lang_cat_inv in Hf as (f1 & f2 & Heq & Hf1 & Hf2).
        apply lang_lit in Hf1 as ->. apply lang_plus_sym in Hf2 as [Hne Hd].
        exists f2. auto.
      * left. now apply lang_eps_inv in Hf.
  - intros (y1 & y2 & y3 & y4 & m1 & m2 & d1 & d2 & h1 & h2 & n1 & n2 & s1 & s2
            & frac & -> & Hd & Hfrac).
    unfold digits in Hd. cbn [forall_string] in Hd.
    repeat match goal with
           | H : _ && _ = true |- _ => apply andb_prop in H as [? H]
           end.
    assert (forall c, Datetime.is_digit c = true -> lang Re.d (String c EmptyString))
      as Hdig by (intros c Hc; apply lang_d; eauto).
    assert (Hf : lang (Re.Alt (Re.Cat (Re.lit ".") (Re.Plus Re.d)) Re.Eps) frac).
    { destruct Hfrac as [->|(ds & -> & Hne & Hds)].
      - apply lang_alt_r. constructor.
      - apply lang_alt_l.
        change (String "." ds) with (String "." EmptyString ++ ds)%string.
        constructor; [now apply lang_lit|]. apply lang_plus_sym. auto. }
    change (String y1 (String y2 (String y3 (String y4 (String "-"
             (String m1 (String m2 (String "-"
             (String d1 (String d2 (String "T"
             (String h1 (String h2 (String ":"
             (String n1 (String n2 (String ":"
             (String s1 (String s2 (frac ++ "Z"))))))))))))))))))))%string
      with ((String y1 EmptyString ++ String y2 EmptyString
               ++ String y3 EmptyString ++ String y4 EmptyString ++ EmptyString)
            ++ String "-" EmptyString
            ++ (String m1 EmptyString ++ String m2 EmptyString ++ EmptyString)
            ++ String "-" EmptyString
            ++ (String d1 EmptyString ++ String d2 EmptyString ++ EmptyString)
            ++ String "T" EmptyString
            ++ (String h1 EmptyString ++ String h2 EmptyString ++ EmptyString)
            ++ String ":" EmptyString
            ++ (String n1 EmptyString ++ String n2 EmptyString ++ EmptyString)
            ++ String ":" EmptyString
            ++ (String s1 EmptyString ++ String s2 EmptyString ++ EmptyString)
            ++ frac ++ String "Z" EmptyString)%string.
    repeat (first [apply lang_cat | apply lang_eps | apply lang_lit; reflexivity
                  | apply Hdig; assumption | exact Hf]).
Qed.

(** ** Timestamps: pattern, replacement and parsing *)

Lemma digit_not_Z (c : ascii) :
  Datetime.is_digit c = true -> Ascii.eqb c "Z" = false.
Proof. ascii_cases c. Qed.

Lemma digit_value (c : ascii) :
  Datetime.is_digit c = true -> Datetime.digit c = Some (dec c).
Proof. unfold Datetime.digit, dec. now intros ->. Qed.

Lemma dec_bound (c : ascii) : Datetime.is_digit c = true -> dec c <= 9.
Proof. ascii_cases c; unfold dec, code; simpl; lia. Qed.

Lemma num2_digits (a b : ascii) (rest : string) :
  Datetime.is_digit a = true -> Datetime.is_digit b = true ->
  Datetime.num2 (String a (String b rest)) = Some (dec2 a b, rest).
Proof.
  intros Ha Hb. unfold Datetime.num2.
  now rewrite (digit_value a Ha), (digit_value b Hb).
Qed.

Lemma num4_digits (a b c d : ascii) (rest : string) :
  Datetime.is_digit a = true -> Datetime.is_digit b = true ->
  Datetime.is_digit c = true -> Datetime.is_digit d = true ->
  Datetime.num4 (String a (String b (String c (String d rest))))
  = Some (dec4 a b c d, rest).
Proof.
  intros Ha Hb Hc Hd. unfold Datetime.num4.
  now rewrite (num2_digits a b _ Ha Hb), (num2_digits c d _ Hc Hd).
Qed.

Lemma str_replace_keep (old c : ascii) (new s : string) :
  Ascii.eqb c old = false ->
  str_replace old new (String c s) = String c (str_replace old new s).
Proof. intros H. cbn [str_replace]. now rewrite H. Qed.

Lemma str_replace_hit (old : ascii) (new s : string) :
  str_replace old new (String old s) = (new ++ str_replace old new s)%string.
Proof. cbn [str_replace]. now rewrite Ascii.eqb_refl. Qed.

Lemma replace_digits (new ds t : string) :
  digits ds ->
  str_replace "Z" new (ds ++ t) = (ds ++ str_replace "Z" new t)%string.
Proof.
  unfold digits. induction ds as [|c ds IH]; cbn [forall_string]; intros H;
    [reflexivity|].
  apply andb_prop in H as [Hc Hds]. simpl.
  now rewrite (digit_not_Z c Hc), IH.
Qed.

Lemma span_digits_app (ds t : string) :
  digits ds ->
  Datetime.span_digits (ds ++ String "+" t) = (ds, String "+" t).
Proof.
  unfold digits. induction ds as [|c ds IH]; cbn [forall_string]; intros H;
    [reflexivity|].
  apply andb_prop in H as [Hc Hds]. simpl. now rewrite Hc, IH.
Qed.

Lemma replace_fraction (new frac t : string) :
  fraction_ok frac ->
  str_replace "Z" new (frac ++ t) = (frac ++ str_replace "Z" new t)%string.
Proof.
  intros [->|(ds & -> & _ & Hds)]; [reflexivity|].
  simpl. now rewrite replace_digits.
Qed.

Lemma fraction_part_ok (frac t : string) :
  fraction_ok frac ->
  Datetime.fraction_part (frac ++ String "+" t)
  = Some (match frac with String _ ds => ds | EmptyString => EmptyString end,
          String "+" t).
Proof.
  intros [->|(ds & -> & Hne & Hds)]; [reflexivity|].
  simpl. rewrite span_digits_app by exact Hds.
  destruct ds; [congruence|reflexivity].
Qed.

Ltac split_digits H :=
  unfold stamp_digits, digits in H; cbn [forall_string] in H;
  repeat match type of H with
         | _ && _ = true =>
             let H1 := fresh "Hd" in apply andb_prop in H as [H1 H]
         end.

Lemma replace_stamp (y1 y2 y3 y4 m1 m2 d1 d2 h1 h2 n1 n2 s1 s2 : ascii)
    (frac nl : string) :
  stamp_digits y1 y2 y3 y4 m1 m2 d1 d2 h1 h2 n1 n2 s1 s2 ->
  fraction_ok frac ->
  str_replace "Z" "+00:00"
    (stamp y1 y2 y3 y4 m1 m2 d1 d2 h1 h2 n1 n2 s1 s2 (frac ++ String "Z" nl))
  = stamp y1 y2 y3 y4 m1 m2 d1 d2 h1 h2 n1 n2 s1 s2
      (frac ++ String "+" ("00:00" ++ str_replace "Z" "+00:00" nl))%string.
Proof.
  intros Hd Hf. split_digits Hd. unfold stamp.
  repeat (rewrite str_replace_keep
            by (first [reflexivity | apply digit_not_Z; assumption])).
  now rewrite (replace_fraction _ _ _ Hf), str_replace_hit.
Qed.

Lemma parse_stamp (y1 y2 y3 y4 m1 m2 d1 d2 h1 h2 n1 n2 s1 s2 : ascii)
    (frac t : string) :
  stamp_digits y1 y2 y3 y4 m1 m2 d1 d2 h1 h2 n1 n2 s1 s2 ->
  fraction_ok frac ->
  Datetime.parse
    (stamp y1 y2 y3 y4 m1 m2 d1 d2 h1 h2 n1 n2 s1 s2 (frac ++ String "+" t))
  = match Datetime.offset_part (String "+" t) with
    | Some off =>
        let dt :=
          Datetime.mkDatetime (dec4 y1 y2 y3 y4) (dec2 m1 m2) (dec2 d1 d2)
            (dec2 h1 h2) (dec2 n1 n2) (dec2 s1 s2)
            (Datetime.microseconds
               (match frac with String _ ds => ds | EmptyString => EmptyString end))
            off in
        if Datetime.in_range dt then Some dt else None
    | None => None
    end.
Proof.
  intros Hd Hf. split_digits Hd. unfold stamp, Datetime.parse.
  rewrite num4_digits by assumption.
  repeat (cbn [Datetime.opt_bind Datetime.expect];
          rewrite ?Ascii.eqb_refl;
          cbn [Datetime.opt_bind];
          try rewrite num2_digits by assumption).
  rewrite (fraction_part_ok _ _ Hf). cbn [Datetime.opt_bind].
  destruct (Datetime.offset_part (String "+" t)); reflexivity.
Qed.

Lemma in_range_real (y1 y2 y3 y4 m1 m2 d1 d2 h1 h2 n1 n2 s1 s2 : ascii)
    (us : N) :
  stamp_digits y1 y2 y3 y4 m1 m2 d1 d2 h1 h2 n1 n2 s1 s2 ->
  Datetime.in_range
    (Datetime.mkDatetime (dec4 y1 y2 y3 y4) (dec2 m1 m2) (dec2 d1 d2)
       (dec2 h1 h2) (dec2 n1 n2) (dec2 s1 s2) us (Some (false, 0, 0))) = true
  <-> real_instant (dec4 y1 y2 y3 y4) (dec2 m1 m2) (dec2 d1 d2)
        (dec2 h1 h2) (dec2 n1 n2) (dec2 s1 s2).
Proof.
  intros Hd. split_digits Hd.
  assert (Z.of_nat (dec4 y1 y2 y3 y4) <= 9999)%Z as Hy.
  { unfold dec4, dec2.
    pose proof (dec_bound y1 Hd0). pose proof (dec_bound y2 Hd1).
    pose proof (dec_bound y3 Hd2). pose proof (dec_bound y4 Hd3). lia. }
  unfold Datetime.in_range, real_instant.
  cbn [Datetime.year Datetime.month Datetime.day Datetime.hour Datetime.minute
       Datetime.second Datetime.utcoffset].
  rewrite !andb_true_iff, !Nat.leb_le, Z.leb_le. simpl (0 <= _). intuition lia.
Qed.

Lemma fromisoformat_stamp_Z (y1 y2 y3 y4 m1 m2 d1 d2 h1 h2 n1 n2 s1 s2 : ascii)
    (frac : string) :
  stamp_digits y1 y2 y3 y4 m1 m2 d1 d2 h1 h2 n1 n2 s1 s2 ->
  fraction_ok frac ->
  (exists dt,
     Datetime.fromisoformat
       (str_replace "Z" "+00:00"
          (stamp y1 y2 y3 y4 m1 m2 d1 d2 h1 h2 n1 n2 s1 s2 (frac ++ "Z")))
     = Ok dt)
  <-> real_instant (dec4 y1 y2 y3 y4) (dec2 m1 m2) (dec2 d1 d2)
        (dec2 h1 h2) (dec2 n1 n2) (dec2 s1 s2).
Proof.
  intros Hd Hf. unfold Datetime.fromisoformat.
  rewrite (replace_stamp _ _ _ _ _ _ _ _ _ _ _ _ _ _ _ EmptyString Hd Hf).
  rewrite (parse_stamp _ _ _ _ _ _ _ _ _ _ _ _ _ _ _ _ Hd Hf).
  change (Datetime.offset_part
            (String "+" ("00:00" ++ str_replace "Z" "+00:00" "")))
    with (Some (Some (false, 0, 0))).
  cbv zeta. rewrite <- (in_range_real _ _ _ _ _ _ _ _ _ _ _ _ _ _
                          (Datetime.microseconds
                             (match frac with
                              | String _ ds => ds
                              | EmptyString => EmptyString
                              end)) Hd).
  destruct (Datetime.in_range _).
  - split; [reflexivity|eauto].
  - split; [intros [dt H]; discriminate|discriminate].
Qed.

Lemma fromisoformat_stamp_Z_newline
    (y1 y2 y3 y4 m1 m2 d1 d2 h1 h2 n1 n2 s1 s2 : ascii) (frac : string) :
  stamp_digits y1 y2 y3 y4 m1 m2 d1 d2 h1 h2 n1 n2 s1 s2 ->
  fraction_ok frac ->
  Datetime.fromisoformat
    (str_replace "Z" "+00:00"
       (stamp y1 y2 y3 y4 m1 m2 d1 d2 h1 h2 n1 n2 s1 s2
          (frac ++ String "Z" newline)))
  = Raise ValueError.
Proof.
  intros Hd Hf. unfold Datetime.fromisoformat.
  rewrite (replace_stamp _ _ _ _ _ _ _ _ _ _ _ _ _ _ _ newline Hd Hf).
  rewrite (parse_stamp _ _ _ _ _ _ _ _ _ _ _ _ _ _ _ _ Hd Hf).
  reflexivity.
Qed.

Lemma stamp_append (y1 y2 y3 y4 m1 m2 d1 d2 h1 h2 n1 n2 s1 s2 : ascii)
    (frac nl : string) :
  (stamp y1 y2 y3 y4 m1 m2 d1 d2 h1 h2 n1 n2 s1 s2 (frac ++ "Z") ++ nl)%string
  = stamp y1 y2 y3 y4 m1 m2 d1 d2 h1 h2 n1 n2 s1 s2 (frac ++ String "Z" nl).
Proof. unfold stamp. cbn [append]. now rewrite append_assoc. Qed.

(** [validate_ts_iso8601] accepts exactly the texts of the UTC shape that
    name a real calendar instant, and returns them unchanged. *)
Lemma validate_ts_spec (v v' : string) :
  WebhookPayload.validate_ts_iso8601 v = Ok v'
  <-> v' = v /\ iso8601_utc_instant v.
Proof.
  unfold WebhookPayload.validate_ts_iso8601. split.
  - destruct (Re.match_ ISO8601_UTC_PATTERN v) eqn:Em; [|discriminate].
    cbn [negb]. apply match_lang in Em.
    destruct Em as [H|(w & -> & H)];
      apply lang_ISO8601 in H
        as (y1 & y2 & y3 & y4 & m1 & m2 & d1 & d2 & h1 & h2 & n1 & n2 & s1 & s2
            & frac & -> & Hd & Hf).
    + destruct (Datetime.fromisoformat _) as [dt|e] eqn:E; [|discriminate].
      intros [= <-]. split; [reflexivity|].
      exists y1, y2, y3, y4, m1, m2, d1, d2, h1, h2, n1, n2, s1, s2, frac.
      repeat split; auto.
      all: apply (fromisoformat_stamp_Z _ _ _ _ _ _ _ _ _ _ _ _ _ _ _ Hd Hf); eauto.
    + rewrite stamp_append, fromisoformat_stamp_Z_newline by assumption.
      discriminate.
  - intros (-> & y1 & y2 & y3 & y4 & m1 & m2 & d1 & d2 & h1 & h2 & n1 & n2 & s1 & s2
            & frac & -> & Hd & Hf & Hreal).
    assert (Re.match_ ISO8601_UTC_PATTERN
              (stamp y1 y2 y3 y4 m1 m2 d1 d2 h1 h2 n1 n2 s1 s2 (frac ++ "Z"))
            = true) as ->.
    { apply match_lang. left. apply lang_ISO8601.
      exists y1, y2, y3, y4, m1, m2, d1, d2, h1, h2, n1, n2, s1, s2, frac. auto. }
    cbn [negb].
    apply (fromisoformat_stamp_Z _ _ _ _ _ _ _ _ _ _ _ _ _ _ _ Hd Hf) in Hreal
      as [dt ->].
    reflexivity.
Qed.

(** ** Payload validation *)

Lemma length_nonempty (s : string) : (1 <=? String.length s) = true <-> s <> EmptyString.
Proof. destruct s; simpl; split; congruence. Qed.

Ltac not_text :=
  split; [discriminate|];
  repeat match goal with
         | |- _ /\ _ -> _ => intros [? ?]
         | |- _ \/ _ -> _ => intros [?|?]
         | H : _ /\ _ |- _ => destruct H
         | H : _ \/ _ |- _ => destruct H
         end; discriminate.

Lemma field_message_id_spec (data : list (string * pyvalue)) (s : string) :
  WebhookPayload.field_message_id data = WebhookPayload.Valid s
  <-> dict_get "message_id" data = Some (PStr s) /\ s <> EmptyString.
Proof.
  unfold WebhookPayload.field_message_id, WebhookPayload.required_str.
  destruct (dict_get "message_id" data) as [[ | b | z | l | t | l | items]|];
    try not_text.
  destruct (1 <=? String.length t) eqn:E.
  - apply length_nonempty in E. split.
    + intros [= Heq]. subst. auto.
    + intros [[= Heq] _]. now subst.
  - split; [discriminate|]. intros [[= Heq] H]. subst.
    apply length_nonempty in H. congruence.
Qed.

Lemma field_from_spec (data : list (string * pyvalue)) (s : string) :
  WebhookPayload.field_from data = WebhookPayload.Valid s
  <-> (dict_get "from" data = Some (PStr s)
       \/ (dict_get "from" data = None /\ dict_get "from_" data = Some (PStr s)))
      /\ e164 s.
Proof.
  unfold WebhookPayload.field_from, WebhookPayload.validate_from_e164,
    WebhookPayload.required_str.
  rewrite <- match_E164.
  destruct (dict_get "from" data) as [[ | b | z | l | t | l | items]|];
    try not_text.
  - destruct (Re.match_ E164_PATTERN t) eqn:E.
    + split.
      * intros [= Heq]. subst. auto.
      * intros [[[= Heq]|[H _]] _]; [now subst|discriminate].
    + split; [discriminate|].
      intros [[[= Heq]|[H _]] H']; [subst; congruence|discriminate].
  - destruct (dict_get "from_" data) as [[ | b | z | l | t | l | items]|];
      try not_text.
    destruct (Re.match_ E164_PATTERN t) eqn:E.
    + split.
      * intros [= Heq]. subst. auto.
      * intros [[H|[_ [= Heq]]] _]; [discriminate|now subst].
    + split; [discriminate|].
      intros [[H|[_ [= Heq]]] H']; [discriminate|subst; congruence].
Qed.

Lemma field_to_spec (data : list (string * pyvalue)) (s : string) :
  WebhookPayload.field_to data = WebhookPayload.Valid s
  <-> dict_get "to" data = Some (PStr s) /\ e164 s.
Proof.
  unfold WebhookPayload.field_to, WebhookPayload.validate_to_e164,
    WebhookPayload.required_str.
  rewrite <- match_E164.
  destruct (dict_get "to" data) as [[ | b | z | l | t | l | items]|];
    try not_text.
  destruct (Re.match_ E164_PATTERN t) eqn:E.
  - split; [intros [= Heq]; subst; auto|intros [[= Heq] _]; now subst].
  - split; [discriminate|intros [[= Heq] H]; subst; congruence].
Qed.

Lemma field_ts_spec (data : list (string * pyvalue)) (s : string) :
  WebhookPayload.field_ts data = WebhookPayload.Valid s
  <-> dict_get "ts" data = Some (PStr s) /\ iso8601_utc_instant s.
Proof.
  unfold WebhookPayload.field_ts, WebhookPayload.required_str.
  destruct (dict_get "ts" data) as [[ | b | z | l | t | l | items]|];
    try not_text.
  destruct (WebhookPayload.validate_ts_iso8601 t) as [t'|e] eqn:E.
  - apply validate_ts_spec in E as [-> Hi]. split.
    + intros [= Heq]. subst. auto.
    + intros [[= Heq] _]. now subst.
  - split; [discriminate|]. intros [[= Heq] Hi]. subst.
    assert (WebhookPayload.validate_ts_iso8601 s = Ok s) as E'
        by (apply validate_ts_spec; auto).
    congruence.
Qed.

Lemma field_text_spec (data : list (string * pyvalue)) (x : option string) :
  WebhookPayload.field_text data = WebhookPayload.Valid x <-> text_field data x.
Proof.
  unfold WebhookPayload.field_text, text_field.
  destruct (dict_get "text" data) as [[ | b | z | l | t | l | items]|].
  - split.
    + intros [= Heq]. subst. auto.
    + destruct x; [intros [? _]; discriminate|reflexivity].
  - destruct x; not_text.
  - destruct x; not_text.
  - destruct x; not_text.
  - destruct (String.length t <=? 4096) eqn:E.
    + apply Nat.leb_le in E. split.
      * intros [= Heq]. subst. auto.
      * destruct x; [intros [[= Heq] _]; now subst|intros [?|?]; discriminate].
    + apply Nat.leb_gt in E. split; [discriminate|].
      destruct x; [|intros [?|?]; discriminate].
      intros [[= Heq] H]. subst.
      exfalso. apply (Nat.lt_irrefl _ (Nat.le_lt_trans _ _ _ H E)).
  - destruct x; not_text.
  - destruct x; not_text.
  - split.
    + intros [= Heq]. subst. auto.
    + destruct x; [intros [? _]; discriminate|reflexivity].
Qed.

Lemma new_spec (data : list (string * pyvalue)) (p : WebhookPayload.t) :
  WebhookPayload.new (PDict data) = Ok p
  <-> WebhookPayload.field_message_id data
      = WebhookPayload.Valid (WebhookPayload.message_id p)
      /\ WebhookPayload.field_from data = WebhookPayload.Valid (WebhookPayload.from_ p)
      /\ WebhookPayload.field_to data = WebhookPayload.Valid (WebhookPayload.to p)
      /\ WebhookPayload.field_ts data = WebhookPayload.Valid (WebhookPayload.ts p)
      /\ WebhookPayload.field_text data = WebhookPayload.Valid (WebhookPayload.text p).
Proof.
  unfold WebhookPayload.new.
  destruct (WebhookPayload.field_message_id data),
    (WebhookPayload.field_from data), (WebhookPayload.field_to data),
    (WebhookPayload.field_ts data), (WebhookPayload.field_text data);
    try (split; [discriminate|intros (? & ? & ? & ? & ?); discriminate]).
  destruct p as [a' b' c' d' e']. simpl. split.
  - intros [= -> -> -> -> ->]. auto.
  - intros ([= ->] & [= ->] & [= ->] & [= ->] & [= ->]). reflexivity.
Qed.

Lemma dict_get_extra (k k' : string) (v : pyvalue)
    (data1 data2 : list (string * pyvalue)) :
  k <> k' ->
  dict_get k' (data1 ++ (k, v) :: data2) = dict_get k' (data1 ++ data2).
Proof.
  intros Hne. induction data1 as [|[k0 v0] data1 IH]; simpl.
  - apply String.eqb_neq in Hne. now rewrite Hne.
  - now rewrite IH.
Qed.

(** C9, as the code has it.  A decoded body is accepted exactly when it is
    an object in which [message_id] is a non-empty text; [from] (read under
    the key [from] or, when that key is absent, under the field name
    [from_]) and [to] are texts matching [^\+[0-9]+$]; [ts] is a text of
    the UTC shape that names a real calendar instant; and [text] is absent,
    null, or a text of at most 4096 characters.  The accepted payload holds
    these values.  Any violation rejects the whole body, and a field under
    any other key changes nothing. *)
Theorem webhook_payload_validation :
  (forall (pd : pyvalue) (p : WebhookPayload.t),
      WebhookPayload.new pd = Ok p <-> accepted_payload pd p)
  /\ (forall (data1 data2 : list (string * pyvalue)) (k : string) (v : pyvalue),
        known_key k = false ->
        WebhookPayload.new (PDict (data1 ++ (k, v) :: data2))
        = WebhookPayload.new (PDict (data1 ++ data2))).
Proof.
  split.
  - intros pd p. unfold accepted_payload. split.
    + destruct pd; try discriminate. intros H. exists items.
      apply new_spec in H as (H1 & H2 & H3 & H4 & H5).
      apply field_message_id_spec in H1 as [? ?].
      apply field_from_spec in H2 as [? ?].
      apply field_to_spec in H3 as [? ?].
      apply field_ts_spec in H4 as [? ?].
      apply field_text_spec in H5.
      repeat split; auto.
    + intros (data & -> & H1 & H1' & H2 & H2' & H3 & H3' & H4 & H4' & H5).
      apply new_spec. repeat split.
      * now apply field_message_id_spec.
      * now apply field_from_spec.
      * now apply field_to_spec.
      * now apply field_ts_spec.
      * now apply field_text_spec.
  - intros data1 data2 k v Hk. unfold known_key in Hk. simpl in Hk.
    repeat (apply orb_false_elim in Hk as [?E Hk]).
    repeat match goal with
           | H : String.eqb k _ = false |- _ => apply String.eqb_neq in H
           end.
    unfold WebhookPayload.new, WebhookPayload.field_message_id,
      WebhookPayload.field_from, WebhookPayload.field_to,
      WebhookPayload.field_ts, WebhookPayload.field_text.
    rewrite !(dict_get_extra k _ v data1 data2) by assumption.
    reflexivity.
Qed.

(** C9 as stated fails: a body that gives the sender under [from_] and has
    no key [from] is accepted. *)
Lemma stated_payload_validation_fails :
  let pd :=
    PDict [("message_id", PStr "m1"); ("from_", PStr "+919876543210");
           ("to", PStr "+14155550100"); ("ts", PStr "2025-01-15T10:00:00Z")] in
  ~ ((exists p, WebhookPayload.new pd = Ok p) <-> stated_payload pd).
Proof.
  intros pd [H _].
  destruct H as (data & mid & f & t & s & x & Hpd & _ & _ & Hfrom & _).
  - eexists. vm_compute. reflexivity.
  - injection Hpd as <-. simpl in Hfrom. discriminate.
Qed.

(** ** The ingestion endpoint *)

Lemma round_length (st : list Z) (kw : Z * Z) :
  List.length st = 8 -> List.length (Sha256.round st kw) = 8.
Proof.
  do 9 (destruct st as [|? st]; try discriminate). reflexivity.
Qed.

Lemma compress_length (st : list Z) (block : list byte) :
  List.length st = 8 -> List.length (Sha256.compress st block) = 8.
Proof.
  intros H. unfold Sha256.compress. rewrite length_map, length_combine.
  assert (List.length
            (fold_left Sha256.round (combine Sha256.K (Sha256.schedule block)) st) = 8)
    as ->; [|now rewrite H].
  revert st H. generalize (combine Sha256.K (Sha256.schedule block)).
  induction l as [|kw l IH]; intros st H; simpl; [exact H|].
  apply IH. now apply round_length.
Qed.

Lemma digest_length (msg : list byte) : List.length (Sha256.digest msg) = 32.
Proof.
  unfold Sha256.digest.
  assert (forall blocks st, List.length st = 8 ->
            List.length (fold_left Sha256.compress blocks st) = 8) as H.
  { induction blocks as [|b blocks IH]; intros st Hst; simpl; [exact Hst|].
    apply IH. now apply compress_length. }
  specialize (H (Sha256.chunks (List.length (Sha256.pad msg)) 64 (Sha256.pad msg))
                Sha256.H0 eq_refl).
  destruct (fold_left Sha256.compress _ Sha256.H0)
    as [|a [|b [|c [|d [|e [|f [|g [|h [|]]]]]]]]]; try discriminate.
  reflexivity.
Qed.

Lemma hex_length (bs : list byte) : String.length (Hmac.hex bs) = 2 * List.length bs.
Proof. induction bs as [|b bs IH]; cbn [Hmac.hex String.length List.length]; lia. Qed.

(** A hex digest has 64 characters. *)
Lemma hexdigest_length (key msg : list byte) :
  String.length (Hmac.hexdigest key msg) = 64.
Proof.
  unfold Hmac.hexdigest, Hmac.digest. now rewrite hex_length, digest_length.
Qed.

Lemma verify_signature_true (secret : string) (body : list byte) (sig : string) :
  verify_signature secret body sig = Ok true ->
  sig = Hmac.hexdigest (encode_utf8 secret) body.
Proof.
  unfold verify_signature, Hmac.compare_digest.
  destruct (_ && _); [|discriminate]. intros [= H].
  symmetry. now apply String.eqb_eq.
Qed.

Lemma verify_signature_non_ascii (secret : string) (body : list byte) (sig : string) :
  forall_string is_ascii sig = false ->
  verify_signature secret body sig = Raise TypeError.
Proof.
  intros H. unfold verify_signature, Hmac.compare_digest.
  now rewrite H, andb_false_r.
Qed.

Lemma valid_signature_truthy (secret : string) (body : list byte) (sig : string) :
  verify_signature secret body sig = Ok true -> truthy (Some sig) = true.
Proof.
  intros H. apply verify_signature_true in H.
  pose proof (hexdigest_length (encode_utf8 secret) body) as Hl.
  rewrite <- H in Hl. destruct sig; [discriminate|reflexivity].
Qed.

Section WebhookFacts.

Variable json_loads : list byte -> result pyvalue.

(** The exits before the store is reached.  A missing, empty or wrong
    signature gives 401 with the detail [invalid signature]; a body that
    does not decode or validate gives 422; a signature on which the
    comparison raises gives 500; the table is left as it was in all of
    them. *)
Lemma webhook_early_exits (secret : string) (env : db_env) (now : string)
    (db : table) (body : list byte) (x_signature : option string) :
  let h := Main.webhook json_loads secret env now db body x_signature in
  (truthy x_signature = false ->
     Main.respond (Main.ending_of h)
     = Main.mkResponse 401 (Main.Detail "invalid signature")
     /\ Main.table_of h = db)
  /\ (forall sig, x_signature = Some sig ->
        verify_signature secret body sig = Ok false ->
        Main.respond (Main.ending_of h)
        = Main.mkResponse 401 (Main.Detail "invalid signature")
        /\ Main.table_of h = db)
  /\ (forall sig e, x_signature = Some sig ->
        verify_signature secret body sig = Ok true ->
        (pd <- json_loads body ;; WebhookPayload.new pd) = Raise e ->
        Main.respond (Main.ending_of h) = Main.mkResponse 422 (Main.DetailOf e)
        /\ Main.table_of h = db)
  /\ (forall sig e, x_signature = Some sig ->
        verify_signature secret body sig = Raise e ->
        truthy x_signature = true ->
        Main.respond (Main.ending_of h)
        = Main.mkResponse 500 (Main.Detail "Internal server error")
        /\ Main.table_of h = db).
Proof.
  intros h. subst h. unfold Main.webhook.
  split; [|split; [|split]].
  - intros Hfalsy. rewrite Hfalsy. split; reflexivity.
  - intros sig Hx Hv. subst x_signature.
    destruct (truthy (Some sig)); [|split; reflexivity].
    cbn [negb]. rewrite Hv. split; reflexivity.
  - intros sig e Hx Hv Hparse. subst x_signature.
    rewrite (valid_signature_truthy _ _ _ Hv). cbn [negb].
    rewrite Hv, Hparse. split; reflexivity.
  - intros sig e Hx Hv Htruthy. subst x_signature.
    rewrite Htruthy. cbn [negb]. rewrite Hv. split; reflexivity.
Qed.

(** C8 fails on a signature header with a non-ASCII character (here the
    one character U+00E9): [hmac.compare_digest] raises [TypeError],
    nothing catches it, and the request is answered 500 by the generic
    handler instead of 401.  The table is left as it was. *)
Theorem webhook_non_ascii_signature :
  forall (secret : string) (env : db_env) (now : string) (db : table)
         (body : list byte),
    let h := Main.webhook json_loads secret env now db body
               (Some (String (ascii_of_nat 233) EmptyString)) in
    Main.ending_of h = Main.Uncaught TypeError
    /\ Main.respond (Main.ending_of h)
       = Main.mkResponse 500 (Main.Detail "Internal server error")
    /\ Main.table_of h = db.
Proof.
  intros secret env now db body h. subst h. unfold Main.webhook.
  cbn [truthy negb].
  rewrite (verify_signature_non_ascii secret body
             (String (ascii_of_nat 233) EmptyString) eq_refl).
  repeat split.
Qed.

(** The same happens for every signature that holds a non-ASCII
    character. *)
Lemma webhook_non_ascii_signature_any (secret : string) (env : db_env)
    (now : string) (db : table) (body : list byte) (sig : string) :
  forall_string is_ascii sig = false ->
  let h := Main.webhook json_loads secret env now db body (Some sig) in
  Main.respond (Main.ending_of h)
  = Main.mkResponse 500 (Main.Detail "Internal server error")
  /\ Main.table_of h = db.
Proof.
  intros Hsig h. subst h. unfold Main.webhook.
  destruct sig as [|c sig]; [discriminate|]. cbn [truthy negb].
  rewrite (verify_signature_non_ascii secret body _ Hsig). split; reflexivity.
Qed.

(** A correctly signed, valid request reaches the store. *)
Lemma webhook_valid_request (secret : string) (env : db_env) (now : string)
    (db : table) (body : list byte) (sig : string) (pd : pyvalue)
    (payload : WebhookPayload.t) :
  verify_signature secret body sig = Ok true ->
  json_loads body = Ok pd ->
  WebhookPayload.new pd = Ok payload ->
  Main.webhook json_loads secret env now db body (Some sig)
  = match MessageStorage.insert_message env now db
            (WebhookPayload.message_id payload) (WebhookPayload.from_ payload)
            (WebhookPayload.to payload) (WebhookPayload.ts payload)
            (WebhookPayload.text payload) with
    | (Raise e, db') =>
        Main.mkHandled (Main.Uncaught e)
          (Main.mkState (Some (WebhookPayload.message_id payload)) None None) db'
    | (Ok (success, is_duplicate), db') =>
        Main.mkHandled (Main.Returns Main.StatusOk)
          (Main.mkState (Some (WebhookPayload.message_id payload))
             (Some is_duplicate)
             (Some (if is_duplicate then Main.duplicate else Main.created)))
          db'
    end.
Proof.
  intros Hsig Hload Hnew. unfold Main.webhook.
  rewrite (valid_signature_truthy _ _ _ Hsig). cbn [negb].
  rewrite Hsig, Hload. cbn [bind]. now rewrite Hnew.
Qed.

(** C2 fails: when a statement of [insert_message] fails inside its
    [try] with an error other than a constraint violation, the call
    returns [(False, False)]; the endpoint ignores [success], records
    [created] and answers 200 with [{"status": "ok"}], although nothing
    was stored. *)
Theorem webhook_storage_fault_reported_created :
  forall (secret now : string) (db : table) (body : list byte) (sig : string)
         (pd : pyvalue) (payload : WebhookPayload.t),
    verify_signature secret body sig = Ok true ->
    json_loads body = Ok pd ->
    WebhookPayload.new pd = Ok payload ->
    let h := Main.webhook json_loads secret DbExecError now db body (Some sig) in
    Main.respond (Main.ending_of h) = Main.mkResponse 200 Main.StatusOk
    /\ Main.webhook_result (Main.state_of h) = Some Main.created
    /\ Main.webhook_dup (Main.state_of h) = Some false
    /\ Main.table_of h = db.
Proof.
  intros secret now db body sig pd payload Hsig Hload Hnew h. subst h.
  unfold Main.webhook. rewrite (valid_signature_truthy _ _ _ Hsig).
  cbn [negb]. rewrite Hsig, Hload. cbn [bind]. rewrite Hnew.
  repeat split.
Qed.

(** With a working store the same request is stored once: the first
    delivery is recorded [created], a replay [duplicate], both answered
    200 with the same body. *)
Lemma webhook_created_then_duplicate (secret now now' : string) (db : table)
    (body : list byte) (sig : string) (pd : pyvalue) (payload : WebhookPayload.t) :
  verify_signature secret body sig = Ok true ->
  json_loads body = Ok pd ->
  WebhookPayload.new pd = Ok payload ->
  MessageStorage.has_key db (WebhookPayload.message_id payload) = false ->
  let h1 := Main.webhook json_loads secret DbOk now db body (Some sig) in
  let h2 := Main.webhook json_loads secret DbOk now' (Main.table_of h1) body (Some sig) in
  Main.respond (Main.ending_of h1) = Main.mkResponse 200 Main.StatusOk
  /\ Main.webhook_result (Main.state_of h1) = Some Main.created
  /\ Main.respond (Main.ending_of h2) = Main.mkResponse 200 Main.StatusOk
  /\ Main.webhook_result (Main.state_of h2) = Some Main.duplicate
  /\ Main.table_of h2 = Main.table_of h1.
Proof.
  intros Hsig Hload Hnew Hfresh h1 h2.
  set (r := mkRow (WebhookPayload.message_id payload) (WebhookPayload.from_ payload)
              (WebhookPayload.to payload) (WebhookPayload.ts payload)
              (WebhookPayload.text payload) now).
  assert (E1 : h1 = Main.mkHandled (Main.Returns Main.StatusOk)
                 (Main.mkState (Some (WebhookPayload.message_id payload))
                    (Some false) (Some Main.created))
                 (db ++ [r])).
  { subst h1. rewrite (webhook_valid_request _ _ _ _ _ _ _ _ Hsig Hload Hnew).
    unfold MessageStorage.insert_message. now rewrite Hfresh. }
  assert (Hk : MessageStorage.has_key (db ++ [r]) (WebhookPayload.message_id payload)
               = true).
  { unfold MessageStorage.has_key. rewrite existsb_app. simpl.
    rewrite String.eqb_refl. now rewrite orb_true_r. }
  assert (E2 : h2 = Main.mkHandled (Main.Returns Main.StatusOk)
                 (Main.mkState (Some (WebhookPayload.message_id payload))
                    (Some true) (Some Main.duplicate))
                 (db ++ [r])).
  { subst h2. rewrite E1. cbn [Main.table_of].
    rewrite (webhook_valid_request _ _ _ _ _ _ _ _ Hsig Hload Hnew).
    unfold MessageStorage.insert_message. now rewrite Hk. }
  rewrite E2, E1. repeat split.
Qed.

End WebhookFacts.

(** ** Instances on the sample data *)

Lemma insert_message_idempotent_witness :
  MessageStorage.has_key sample_table "m9" = false
  /\ exists db1 : table,
       MessageStorage.insert_message DbOk "2025-01-15T10:00:02.000Z" sample_table
         "m9" "+3" "+4" "2025-01-15T09:00:00Z" None
       = (Ok (true, false), db1)
       /\ MessageStorage.insert_message DbOk "2025-01-16T00:00:00.000Z" db1
            "m9" "+5" "+6" "2025-01-16T00:00:00Z" (Some "other")
          = (Ok (true, true), db1).
Proof.
  split; [reflexivity|].
  destruct (insert_message_idempotent sample_table "2025-01-15T10:00:02.000Z"
              "m9" "+3" "+4" "2025-01-15T09:00:00Z" None eq_refl)
    as (db1 & H1 & _ & H3).
  exists db1. split; [exact H1|]. apply (proj2 (H3 [])).
Defined.

Lemma get_messages_ordered_witness :
  unique_ids sample_table
  /\ Permutation sample_table (rev sample_table)
  /\ MessageStorage.get_messages (rev sample_table) 50 0 None None None
     = MessageStorage.get_messages sample_table 50 0 None None None.
Proof.
  assert (Hu : unique_ids sample_table).
  { unfold unique_ids. simpl.
    repeat constructor; simpl; intuition discriminate. }
  assert (Hp : Permutation sample_table (rev sample_table))
    by apply Permutation_rev.
  split; [exact Hu|]. split; [exact Hp|].
  exact (proj2 (get_messages_ordered sample_table 50 0 None None None)
           (rev sample_table) Hu Hp).
Defined.


Lemma matching_filter_semantics_witness :
  (forall t : string, Some "hello" = Some t -> plain_query t = true)
  /\ (In (sample_row "m3" "+1" "2025-01-15T10:00:00Z" (Some "say HELLO"))
        (MessageStorage.matching sample_table (Some "+1")
           (Some "2025-01-15T10:00:00Z") (Some "hello"))
      <-> In (sample_row "m3" "+1" "2025-01-15T10:00:00Z" (Some "say HELLO"))
            sample_table
          /\ filter_match (Some "+1") (Some "2025-01-15T10:00:00Z") (Some "hello")
               (sample_row "m3" "+1" "2025-01-15T10:00:00Z" (Some "say HELLO"))).
Proof.
  assert (H : forall t : string, Some "hello" = Some t -> plain_query t = true)
    by (intros t [= <-]; reflexivity).
  assert (Hn : forall t txt : string,
            Some "hello" = Some t ->
            text (sample_row "m3" "+1" "2025-01-15T10:00:00Z" (Some "say HELLO"))
            = Some txt ->
            nul_free txt = true)
    by (intros t txt _ [= <-]; reflexivity).
  split; [exact H|].
  exact (matching_filter_semantics sample_table (Some "+1")
           (Some "2025-01-15T10:00:00Z") (Some "hello")
           (sample_row "m3" "+1" "2025-01-15T10:00:00Z" (Some "say HELLO")) H Hn).
Defined.

Lemma get_stats_correct_witness :
  sample_table <> []
  /\ exists lo hi : string,
       MessageStorage.first_message_ts (MessageStorage.get_stats sample_table) = Some lo
       /\ MessageStorage.last_message_ts (MessageStorage.get_stats sample_table) = Some hi.
Proof.
  assert (H : sample_table <> []) by discriminate.
  split; [exact H|].
  destruct (get_stats_correct sample_table) as (_ & _ & _ & _ & _ & _ & _ & _ & H9).
  destruct (H9 H) as (lo & hi & H1 & H2 & _).
  exists lo, hi. split; [exact H1|exact H2].
Defined.

Lemma webhook_payload_validation_witness :
  known_key "note" = false
  /\ WebhookPayload.new
       (PDict ([("message_id", PStr "m1")] ++ ("note", PInt 7)
               :: [("from", PStr "+1"); ("to", PStr "+2");
                   ("ts", PStr "2025-01-15T10:00:00Z")]))
     = WebhookPayload.new
         (PDict ([("message_id", PStr "m1")]
                 ++ [("from", PStr "+1"); ("to", PStr "+2");
                     ("ts", PStr "2025-01-15T10:00:00Z")])).
Proof.
  split; [reflexivity|].
  exact (proj2 webhook_payload_validation
           [("message_id", PStr "m1")]
           [("from", PStr "+1"); ("to", PStr "+2");
            ("ts", PStr "2025-01-15T10:00:00Z")]
           "note" (PInt 7) eq_refl).
Defined.

Lemma sample_signature_valid :
  verify_signature "testsecret" sample_body sample_signature = Ok true.
Proof. vm_compute. reflexivity. Qed.

Lemma sample_data_valid :
  WebhookPayload.new sample_data
  = Ok (WebhookPayload.mk "m1" "+919876543210" "+14155550100"
          "2025-01-15T10:00:00Z" (Some "Hello")).
Proof. vm_compute. reflexivity. Qed.

Lemma webhook_storage_fault_reported_created_witness :
  verify_signature "testsecret" sample_body sample_signature = Ok true
  /\ sample_loads sample_body = Ok sample_data
  /\ Main.respond
       (Main.ending_of
          (Main.webhook sample_loads "testsecret" DbExecError
             "2025-01-15T10:00:01.000Z" [] sample_body (Some sample_signature)))
     = Main.mkResponse 200 Main.StatusOk
  /\ Main.table_of
       (Main.webhook sample_loads "testsecret" DbExecError
          "2025-01-15T10:00:01.000Z" [] sample_body (Some sample_signature))
     = [].
Proof.
  assert (Hl : sample_loads sample_body = Ok sample_data) by (vm_compute; reflexivity).
  split; [exact sample_signature_valid|]. split; [exact Hl|].
  destruct (webhook_storage_fault_reported_created sample_loads "testsecret"
              "2025-01-15T10:00:01.000Z" [] sample_body sample_signature
              sample_data _ sample_signature_valid Hl sample_data_valid)
    as (H1 & _ & _ & H4).
  split; [exact H1|exact H4].
Defined.

(** ** Scenarios of the specification *)

(** Scenario B: the later message, stored first, is listed second. *)
Example scenario_order :
  map MessageStorage.item_message_id
    (MessageStorage.data
       (MessageStorage.get_messages
          [sample_row "m1" "+919876543210" "2025-01-15T12:00:00Z" (Some "Hello");
           sample_row "m2" "+919876543210" "2025-01-15T10:00:00Z" (Some "Hello")]
          50 0 None None None))
  = ["m2"; "m1"].
Proof. reflexivity. Qed.

(** Scenario E: ten, seven and five messages of three senders. *)
Example scenario_top_senders :
  let rows (n : nat) (prefix sender : string) : table :=
    map (fun i => sample_row (prefix ++ String (ascii_of_nat (65 + i)) "")%string
                    sender "2025-01-15T10:00:00Z" None) (seq 0 n) in
  MessageStorage.messages_per_sender
    (MessageStorage.get_stats
       (rows 5 "c" "+3333333333" ++ rows 10 "a" "+1111111111"
        ++ rows 7 "b" "+2222222222"))
  = [("+1111111111", 10); ("+2222222222", 7); ("+3333333333", 5)].
Proof. vm_compute. reflexivity. Qed.

(** Scenarios C and D: no signature header gives 401, a sender without the
    plus sign gives 422; the store stays empty. *)
Example scenario_rejections :
  let unsigned :=
    Main.webhook sample_loads "testsecret" DbOk "2025-01-15T10:00:01.000Z" []
      sample_body None in
  let bad_sender :=
    PDict [("message_id", PStr "m1"); ("from", PStr "1234567890");
           ("to", PStr "+14155550100"); ("ts", PStr "2025-01-15T10:00:00Z")] in
  Main.respond (Main.ending_of unsigned)
  = Main.mkResponse 401 (Main.Detail "invalid signature")
  /\ Main.table_of unsigned = []
  /\ WebhookPayload.new bad_sender = Raise ValidationError.
Proof. vm_compute. repeat split. Qed.

(* ================================================================== *)
(** * Further properties of the modelled code *)
(* ================================================================== *)

(** ** The store under any run of inserts *)

Lemma run_calls_app (db : table) (cs1 cs2 : list InsertCall) :
  run_calls db (cs1 ++ cs2) = run_calls (run_calls db cs1) cs2.
Proof. unfold run_calls. apply fold_left_app. Qed.

Lemma run_call_appends (db : table) (c : InsertCall) :
  run_call db c = db
  \/ (call_env c = DbOk
      /\ MessageStorage.has_key db (call_message_id c) = false
      /\ run_call db c
         = db ++ [mkRow (call_message_id c) (call_from c) (call_to c)
                    (call_ts c) (call_text c) (call_now c)]).
Proof.
  unfold run_call, MessageStorage.insert_message.
  destruct (call_env c); simpl; auto.
  destruct (MessageStorage.has_key db (call_message_id c)); simpl; auto.
Qed.

(** X1.  Whatever calls of [insert_message] are made, with whatever
    outcomes, a table whose message ids are pairwise different stays so. *)
Theorem insert_message_keeps_unique_ids :
  forall (db : table) (calls : list InsertCall),
    unique_ids db -> unique_ids (run_calls db calls).
Proof.
  intros db calls. revert db.
  induction calls as [|c calls IH]; intros db Hu; simpl; [exact Hu|].
  apply IH. now apply run_call_unique_ids.
Qed.

Lemma insert_message_keeps_unique_ids_witness :
  unique_ids sample_table
  /\ unique_ids
       (run_calls sample_table
          [mkCall DbOk "t1" "m2" "+7" "+8" "2025-02-01T00:00:00Z" None;
           mkCall DbExecError "t2" "m7" "+7" "+8" "2025-02-01T00:00:00Z" None;
           mkCall DbOk "t3" "m8" "+7" "+8" "2025-02-01T00:00:00Z" (Some "x")]).
Proof.
  assert (Hu : unique_ids sample_table).
  { unfold unique_ids. simpl. repeat constructor; simpl; intuition discriminate. }
  split; [exact Hu|]. now apply insert_message_keeps_unique_ids.
Defined.

(** X2.  The table is append-only: after any run of calls the old table is
    still there, row for row and in place, followed by at most one new row
    per call; no call removes, reorders or rewrites a stored row. *)
Theorem insert_message_append_only :
  forall (db : table) (calls : list InsertCall),
    exists added : list Row,
      run_calls db calls = db ++ added
      /\ List.length added <= List.length calls
      /\ forall r, In r added ->
           exists c, In c calls
                     /\ call_env c = DbOk
                     /\ r = mkRow (call_message_id c) (call_from c) (call_to c)
                              (call_ts c) (call_text c) (call_now c).
Proof.
  intros db calls. revert db.
  induction calls as [|c calls IH]; intros db; simpl.
  - exists []. rewrite app_nil_r. repeat split; auto. intros r [].
  - destruct (run_call_appends db c) as [E|(Henv & _ & E)]; rewrite E.
    + destruct (IH db) as (added & H1 & H2 & H3).
      exists added. split; [exact H1|]. split; [lia|].
      intros r Hr. destruct (H3 r Hr) as (c' & ? & ? & ?). exists c'. auto.
    + destruct (IH (db ++ [mkRow (call_message_id c) (call_from c) (call_to c)
                             (call_ts c) (call_text c) (call_now c)]))
        as (added & H1 & H2 & H3).
      exists (mkRow (call_message_id c) (call_from c) (call_to c)
                (call_ts c) (call_text c) (call_now c) :: added).
      split; [now rewrite H1, <- app_assoc|]. split; [simpl; lia|].
      intros r [<-|Hr].
      * exists c. auto.
      * destruct (H3 r Hr) as (c' & ? & ? & ?). exists c'. auto.
Qed.

(** ** Listing: pages *)

Lemma get_messages_data (db : table) (limit offset : Z)
    (from_filter since q : option string) :
  MessageStorage.data
    (MessageStorage.get_messages db limit offset from_filter since q)
  = map MessageStorage.item_of_row
      (Sqlite.limit_offset limit offset
         (Sqlite.order_by MessageStorage.ts_id_leb
            (MessageStorage.matching db from_filter since q))).
Proof. reflexivity. Qed.





Lemma in_some_page {A : Type} (x : A) (l : list A) (n : nat) :
  1 <= n -> In x l ->
  exists k, n * k < List.length l /\ In x (firstn n (skipn (n * k) l)).
Proof.
  intros Hn Hin. apply In_nth_error in Hin as [i Hi].
  assert (Hi' : i < List.length l)
    by (apply nth_error_Some; rewrite Hi; discriminate).
  exists (i / n). split; [pose proof (Nat.div_mod_eq i n); lia|].
  apply nth_error_In with (n := i mod n).
  rewrite nth_error_firstn.
  assert (i mod n < n) as Hlt by (apply Nat.mod_upper_bound; lia).
  apply Nat.ltb_lt in Hlt. rewrite Hlt, nth_error_skipn.
  now rewrite <- Nat.div_mod_eq.
Qed.

Lemma matching_no_filter (db : table) :
  MessageStorage.matching db None None None = db.
Proof.
  unfold MessageStorage.matching. simpl.
  induction db as [|r db IH]; simpl; congruence.
Qed.

(** X4.  What is inserted can be listed: in a table of fewer rows than
    SQLite has row ids, after an insert under a fresh id the unfiltered
    [total] is one more than before, and for every page size from 1 that
    SQLite can hold some page of the unfiltered listing is returned and
    holds the message with exactly the five fields that were passed in. *)
Theorem insert_then_list :
  forall (db : table) (now mid f t s : string) (x : option string) (limit : Z),
    MessageStorage.has_key db mid = false ->
    (1 <= limit < 2 ^ 63)%Z ->
    (Z.of_nat (List.length db) < 2 ^ 63 - 1)%Z ->
    let db1 := snd (MessageStorage.insert_message DbOk now db mid f t s x) in
    (exists before after : MessageStorage.Page,
       Storage.get_messages db limit 0 None None None = Ok before
       /\ Storage.get_messages db1 limit 0 None None None = Ok after
       /\ MessageStorage.total after = S (MessageStorage.total before))
    /\ exists (n : nat) (page : MessageStorage.Page),
         Storage.get_messages db1 limit (limit * Z.of_nat n) None None None
         = Ok page
         /\ In (MessageStorage.mkItem mid f t s x) (MessageStorage.data page).
Proof.
  intros db now mid f t s x limit Hfresh Hlim Hsize db1. subst db1.
  unfold MessageStorage.insert_message. rewrite Hfresh. cbn [snd].
  set (r := mkRow mid f t s x now). split.
  - do 2 eexists.
    split; [apply storage_get_messages_returns; lia|].
    split; [apply storage_get_messages_returns; lia|].
    unfold MessageStorage.get_messages. cbn [MessageStorage.total].
    fold (MessageStorage.matching (db ++ [r]) None None None).
    fold (MessageStorage.matching db None None None).
    rewrite !matching_no_filter, length_app. simpl. lia.
  - assert (Hin : In r (Sqlite.order_by MessageStorage.ts_id_leb (db ++ [r]))).
    { eapply Permutation_in; [apply order_by_perm|].
      apply in_or_app. right. now left. }
    destruct (in_some_page r _ (Z.to_nat limit) ltac:(lia) Hin) as (k & Hlt & Hk).
    rewrite <- (Permutation_length (order_by_perm _ _)), length_app in Hlt.
    cbn [List.length] in Hlt.
    exists k. eexists.
    split; [apply storage_get_messages_returns; nia|].
    rewrite get_messages_data, matching_no_filter.
    change (MessageStorage.mkItem mid f t s x) with (MessageStorage.item_of_row r).
    apply in_map. unfold Sqlite.limit_offset.
    destruct (Z.ltb_spec limit 0); [lia|].
    replace (Z.to_nat (limit * Z.of_nat k)) with (Z.to_nat limit * k) by lia.
    exact Hk.
Qed.

Lemma insert_then_list_witness :
  MessageStorage.has_key sample_table "m9" = false
  /\ exists (n : nat) (page : MessageStorage.Page),
       Storage.get_messages
         (snd (MessageStorage.insert_message DbOk "now" sample_table
                 "m9" "+3" "+4" "2025-01-15T11:00:00Z" (Some "hi")))
         2 (2 * Z.of_nat n) None None None
       = Ok page
       /\ In (MessageStorage.mkItem "m9" "+3" "+4" "2025-01-15T11:00:00Z" (Some "hi"))
            (MessageStorage.data page).
Proof.
  assert (H1 : (1 <= 2 < 2 ^ 63)%Z) by (split; [discriminate|reflexivity]).
  assert (H2 : (Z.of_nat (List.length sample_table) < 2 ^ 63 - 1)%Z) by reflexivity.
  split; [reflexivity|].
  exact (proj2 (insert_then_list sample_table "now" "m9" "+3" "+4"
                  "2025-01-15T11:00:00Z" (Some "hi") 2 eq_refl H1 H2)).
Defined.

Lemma nodup_skipn {A : Type} (n : nat) (l : list A) :
  NoDup l -> NoDup (skipn n l).
Proof.
  intros H. revert n. induction H as [|a l Hnotin Hnd IH]; intros [|n]; simpl;
    try constructor; auto.
Qed.



Lemma limit_offset_incl {A : Type} (lim off : Z) (l : list A) (x : A) :
  In x (Sqlite.limit_offset lim off l) -> In x l.
Proof.
  unfold Sqlite.limit_offset. destruct (lim <? 0)%Z; intros H.
  - eapply in_skipn; eauto.
  - eapply in_skipn, in_firstn; eauto.
Qed.


Lemma limit_offset_nodup {A : Type} (lim off : Z) (l : list A) :
  NoDup l -> NoDup (Sqlite.limit_offset lim off l).
Proof.
  intros H. unfold Sqlite.limit_offset. destruct (lim <? 0)%Z.
  - now apply nodup_skipn.
  - now apply nodup_firstn, nodup_skipn.
Qed.




(** ** Aggregates and the listing *)

Lemma sum_counts_bump (k : string) (g : list (string * nat)) :
  sum_counts (Sqlite.bump k g) = S (sum_counts g).
Proof.
  induction g as [|[k' n] g IH]; simpl; [reflexivity|].
  destruct (String.compare k k'); simpl; [lia|lia|]. rewrite IH. lia.
Qed.

Lemma sum_counts_group_count (l : list string) :
  sum_counts (Sqlite.group_count l) = List.length l.
Proof.
  unfold Sqlite.group_count.
  assert (forall g, sum_counts (fold_left (fun g k => Sqlite.bump k g) l g)
                    = sum_counts g + List.length l) as H.
  { induction l as [|k l IH]; intros g; simpl; [lia|].
    rewrite IH, sum_counts_bump. lia. }
  now rewrite H.
Qed.

Lemma sum_counts_perm (g1 g2 : list (string * nat)) :
  Permutation g1 g2 -> sum_counts g1 = sum_counts g2.
Proof. induction 1; simpl; lia. Qed.

Lemma sum_counts_firstn (n : nat) (g : list (string * nat)) :
  sum_counts (firstn n g) <= sum_counts g.
Proof.
  revert n. induction g as [|p g IH]; intros [|n]; simpl; try lia.
  specialize (IH n). lia.
Qed.

Lemma sent_by_positive (db : table) (k : string) :
  0 < sent_by db k <-> In k (map from_msisdn db).
Proof.
  unfold sent_by. induction db as [|r db IH]; simpl; [split; [lia|tauto]|].
  destruct (String.eqb_spec (from_msisdn r) k) as [->|Hne]; simpl.
  - split; [auto|lia].
  - rewrite IH. split; [auto|]. intros [H|H]; [congruence|exact H].
Qed.

Lemma group_count_keys (db : table) (k : string) :
  In k (map fst (Sqlite.group_count (map from_msisdn db)))
  <-> In k (map from_msisdn db).
Proof.
  rewrite <- sent_by_positive, <- counted_group_count.
  set (G := Sqlite.group_count (map from_msisdn db)).
  assert (HndG : NoDup (map fst G))
    by apply keys_ascending_nodup, group_count_keys_ascending.
  split.
  - intros Hin. apply in_map_iff in Hin as ([k' n] & Hk & Hin). simpl in Hk. subst k'.
    rewrite (counted_unique k n G HndG Hin).
    pose proof (group_count_positive (map from_msisdn db)) as Hp.
    rewrite Forall_forall in Hp. apply (Hp _ Hin).
  - intros Hpos. apply counted_positive in Hpos as [n Hn].
    change k with (fst (k, n)). now apply in_map.
Qed.

Lemma group_count_length (db : table) :
  List.length (Sqlite.group_count (map from_msisdn db))
  = Sqlite.count_distinct (map from_msisdn db).
Proof.
  unfold Sqlite.count_distinct.
  rewrite <- (length_map fst (Sqlite.group_count (map from_msisdn db))).
  apply Permutation_length, NoDup_Permutation.
  - apply keys_ascending_nodup, group_count_keys_ascending.
  - apply NoDup_nodup.
  - intros k. rewrite nodup_In. apply group_count_keys.
Qed.

(** X6.  The aggregates agree with each other and with the listing:
    [total_messages] is the unfiltered [total] of a listing; there are at
    most as many senders as messages; the counts of [messages_per_sender]
    never add up to more than [total_messages]; and while there are at
    most ten senders every sender is listed, so the list has
    [senders_count] entries and its counts add up to [total_messages]. *)
Theorem get_stats_consistent :
  forall (db : table) (limit offset : Z),
    let st := MessageStorage.get_stats db in
    let top := MessageStorage.messages_per_sender st in
    MessageStorage.total_messages st
    = MessageStorage.total
        (MessageStorage.get_messages db limit offset None None None)
    /\ MessageStorage.senders_count st <= MessageStorage.total_messages st
    /\ sum_counts top <= MessageStorage.total_messages st
    /\ (MessageStorage.senders_count st <= 10 ->
        List.length top = MessageStorage.senders_count st
        /\ sum_counts top = MessageStorage.total_messages st).
Proof.
  intros db limit offset st top. subst st top. unfold MessageStorage.get_stats.
  cbn [MessageStorage.total_messages MessageStorage.senders_count
       MessageStorage.messages_per_sender].
  rewrite top_ten.
  set (G := Sqlite.group_count (map from_msisdn db)).
  set (L := Sqlite.order_by MessageStorage.count_geb G).
  assert (HGL : Permutation G L) by apply order_by_perm.
  assert (Hsum : sum_counts L = List.length db).
  { rewrite <- (sum_counts_perm _ _ HGL). unfold G.
    now rewrite sum_counts_group_count, length_map. }
  assert (Hlen : List.length L = Sqlite.count_distinct (map from_msisdn db)).
  { rewrite <- (Permutation_length HGL). apply group_count_length. }
  split; [|split; [|split]].
  - unfold MessageStorage.get_messages. cbn [MessageStorage.total].
    fold (MessageStorage.matching db None None None).
    now rewrite matching_no_filter.
  - rewrite <- Hlen, <- Hsum. clear.
    assert (Forall (fun p : string * nat => 0 < snd p) L) as Hp.
    { pose proof (group_count_positive (map from_msisdn db)) as Hp.
      rewrite Forall_forall in *. intros p Hin. apply Hp.
      eapply Permutation_in; [apply Permutation_sym, order_by_perm|exact Hin]. }
    induction Hp as [|p l Hp _ IH]; simpl; lia.
  - rewrite <- Hsum. apply sum_counts_firstn.
  - intros Hten. rewrite <- Hlen in Hten |- *.
    rewrite firstn_all2 by exact Hten. auto.
Qed.

Lemma get_stats_consistent_witness :
  MessageStorage.senders_count (MessageStorage.get_stats sample_table) <= 10
  /\ sum_counts (MessageStorage.messages_per_sender (MessageStorage.get_stats sample_table))
     = MessageStorage.total_messages (MessageStorage.get_stats sample_table).
Proof.
  assert (H : MessageStorage.senders_count (MessageStorage.get_stats sample_table) <= 10)
    by (vm_compute; repeat constructor).
  split; [exact H|].
  exact (proj2 (proj2 (proj2 (proj2 (get_stats_consistent sample_table 50 0))) H)).
Defined.

Lemma ts_id_leb_ts (a b : Row) :
  MessageStorage.ts_id_leb a b = true -> String.leb (ts a) (ts b) = true.
Proof.
  unfold MessageStorage.ts_id_leb, String.leb.
  destruct (String.compare (ts a) (ts b)); auto; discriminate.
Qed.

Lemma list_all_ordered (db : table) :
  list_all db
  = map MessageStorage.item_of_row (Sqlite.order_by MessageStorage.ts_id_leb db).
Proof.
  unfold list_all. rewrite get_messages_data, matching_no_filter.
  f_equal. unfold Sqlite.limit_offset.
  destruct (Z.ltb_spec (Z.of_nat (List.length db)) 0); [lia|].
  rewrite Nat2Z.id. simpl skipn. apply firstn_all2.
  now rewrite <- (Permutation_length (order_by_perm _ _)).
Qed.

(** X7.  The two timestamps of the statistics are the ends of the listing:
    [first_message_ts] is the [ts] of the first item of the whole
    unfiltered listing and [last_message_ts] the [ts] of its last item
    (and both are the null marker exactly when the listing is empty). *)
Theorem get_stats_ends_of_listing :
  forall db : table,
    MessageStorage.first_message_ts (MessageStorage.get_stats db)
    = option_map MessageStorage.item_ts (hd_error (list_all db))
    /\ MessageStorage.last_message_ts (MessageStorage.get_stats db)
       = option_map MessageStorage.item_ts (hd_error (rev (list_all db))).
Proof.
  intros db. rewrite list_all_ordered.
  unfold MessageStorage.get_stats.
  cbn [MessageStorage.first_message_ts MessageStorage.last_message_ts].
  set (L := Sqlite.order_by MessageStorage.ts_id_leb db).
  assert (HL : Permutation db L) by apply order_by_perm.
  assert (Hs : StronglySorted (fun a b => MessageStorage.ts_id_leb a b = true) L).
  { apply order_by_sorted; [apply ts_id_leb_total|apply ts_id_leb_trans]. }
  destruct db as [|r db].
  - apply Permutation_nil in HL. rewrite HL. split; reflexivity.
  - unfold Sqlite.min_text, Sqlite.max_text. cbn [map fold_left].
    destruct (min_text_spec (map ts db) (ts r)) as (lo & Hlo & Hinlo & Hle).
    destruct (max_text_spec (map ts db) (ts r)) as (hi & Hhi & Hinhi & Hge).
    rewrite Hlo, Hhi.
    change (ts r :: map ts db) with (map ts (r :: db)) in *.
    assert (Hts : forall x, In x L -> In (ts x) (map ts (r :: db))).
    { intros x Hx. apply in_map.
      eapply Permutation_in; [apply Permutation_sym, HL|exact Hx]. }
    assert (HinL : forall s, In s (map ts (r :: db)) -> exists x, In x L /\ ts x = s).
    { intros s Hin. apply in_map_iff in Hin as (x & <- & Hx).
      exists x. split; [|reflexivity]. eapply Permutation_in; eauto. }
    split.
    + destruct L as [|h L'].
      { apply Permutation_sym, Permutation_nil in HL. discriminate. }
      cbn. f_equal. apply String.leb_antisym.
      * apply Hle, Hts. now left.
      * destruct (HinL lo Hinlo) as (x & [<-|Hx] & <-); [apply leb_refl|].
        inversion Hs as [|? ? _ Hh]; subst. rewrite Forall_forall in Hh.
        apply ts_id_leb_ts. now apply Hh.
    + rewrite <- map_rev. destruct (rev L) as [|z R] eqn:Er.
      { assert (L = []) as HLnil
            by (rewrite <- (rev_involutive L), Er; reflexivity).
        rewrite HLnil in HL.
        apply Permutation_sym, Permutation_nil in HL. discriminate. }
      cbn. f_equal.
      assert (HLz : L = rev R ++ [z])
        by (rewrite <- (rev_involutive L), Er; reflexivity).
      apply String.leb_antisym.
      * destruct (HinL hi Hinhi) as (x & Hx & <-).
        rewrite HLz in Hx. apply in_app_or in Hx as [Hx|[<-|[]]]; [|apply leb_refl].
        apply ts_id_leb_ts. rewrite HLz in Hs.
        apply (strongly_sorted_app_le _ _ _ Hs); [exact Hx|now left].
      * apply Hge, Hts. rewrite HLz. apply in_or_app. right. now left.
Qed.

(** ** Signatures *)

Lemma hex_digit_hex (n : nat) : n < 16 -> is_hex_lower (Hmac.hex_digit n) = true.
Proof.
  intros H. do 16 (destruct n as [|n]; [reflexivity|]). lia.
Qed.

Lemma hex_is_hex (bs : list byte) : forall_string is_hex_lower (Hmac.hex bs) = true.
Proof.
  induction bs as [|b bs IH]; cbn [Hmac.hex forall_string]; [reflexivity|].
  rewrite IH, !hex_digit_hex; [reflexivity| |].
  - apply Nat.mod_upper_bound. discriminate.
  - apply Nat.Div0.div_lt_upper_bound.
    pose proof (Byte.to_nat_bounded b). lia.
Qed.

Lemma sign_then_verify_helper (secret : string) (body : list byte) :
  verify_signature secret body (compute_signature secret body) = Ok true.
Proof.
  unfold verify_signature, compute_signature, Hmac.compare_digest, Hmac.hexdigest.
  now rewrite hex_is_ascii, String.eqb_refl.
Qed.

(** X8.  Signing and verifying fit together: the signature that
    [compute_signature] makes for a secret and a body is accepted by
    [verify_signature] for the same secret and body, whatever they are
    (an empty body, an empty or non-ASCII secret). *)
Theorem sign_then_verify :
  forall (secret : string) (body : list byte),
    verify_signature secret body (compute_signature secret body) = Ok true.
Proof.
  intros secret body.
  unfold verify_signature, compute_signature, Hmac.compare_digest, Hmac.hexdigest.
  now rewrite hex_is_ascii, String.eqb_refl.
Qed.

(** X9.  Only well-formed digests are ever accepted: a signature for which
    [verify_signature] returns [True] has exactly 64 characters, each a
    digit or a lower-case letter a-f; so an empty, truncated, upper-case or
    prefixed (such as [sha256=...]) signature is never accepted. *)
Theorem verify_signature_accepts_only_hex :
  forall (secret : string) (body : list byte) (signature : string),
    verify_signature secret body signature = Ok true ->
    String.length signature = 64
    /\ forall_string is_hex_lower signature = true.
Proof.
  intros secret body signature H.
  apply verify_signature_true in H. subst signature. split.
  - apply hexdigest_length.
  - unfold Hmac.hexdigest. apply hex_is_hex.
Qed.

Lemma verify_signature_accepts_only_hex_witness :
  verify_signature "testsecret" sample_body sample_signature = Ok true
  /\ String.length sample_signature = 64
  /\ forall_string is_hex_lower sample_signature = true.
Proof.
  split; [exact sample_signature_valid|].
  exact (verify_signature_accepts_only_hex "testsecret" sample_body
           sample_signature sample_signature_valid).
Defined.

(** ** The ingestion endpoint and the store *)

Section WebhookStore.

Variable json_loads : list byte -> result pyvalue.

(** What a request can do to the table. *)
Lemma webhook_table_cases (secret : string) (env : db_env) (now : string)
    (db : table) (body : list byte) (x_signature : option string) :
  let h := Main.webhook json_loads secret env now db body x_signature in
  (Main.table_of h = db /\ Main.webhook_result (Main.state_of h) <> Some Main.created
   \/ Main.table_of h = db /\ env = DbExecError)
  \/ exists (sig : string) (pd : pyvalue) (payload : WebhookPayload.t),
       x_signature = Some sig
       /\ verify_signature secret body sig = Ok true
       /\ json_loads body = Ok pd
       /\ WebhookPayload.new pd = Ok payload
       /\ env = DbOk
       /\ MessageStorage.has_key db (WebhookPayload.message_id payload) = false
       /\ Main.table_of h = db ++ [row_of_payload payload now]
       /\ Main.ending_of h = Main.Returns Main.StatusOk
       /\ Main.webhook_result (Main.state_of h) = Some Main.created.
Proof.
  intros h. subst h. unfold Main.webhook.
  destruct (truthy x_signature) eqn:Ht; cbn [negb];
    [|left; left; split; [reflexivity|discriminate]].
  destruct x_signature as [sig|]; [|discriminate].
  destruct (verify_signature secret body sig) as [[|]|e] eqn:Hv;
    try (left; left; split; [reflexivity|discriminate]).
  destruct (json_loads body) as [pd|e] eqn:Hl; cbn [bind];
    [|left; left; split; [reflexivity|discriminate]].
  destruct (WebhookPayload.new pd) as [payload|e] eqn:Hn;
    [|left; left; split; [reflexivity|discriminate]].
  unfold MessageStorage.insert_message.
  destruct env.
  - destruct (MessageStorage.has_key db (WebhookPayload.message_id payload)) eqn:Hk.
    + left; left. split; [reflexivity|discriminate].
    + right. exists sig, pd, payload. repeat split; auto.
  - left; left. split; [reflexivity|discriminate].
  - left; right. split; reflexivity.
Qed.

(** X10.  Nothing is stored without a verified signature and a validated
    payload: whatever the request and the storage environment, the table
    after the request is the table before it, or the table before it with
    one row appended, and then the signature header verified against the
    raw body, the body decoded and validated, its message id was not
    stored yet, the row holds exactly the validated payload's fields, and
    the request was answered 200 and recorded as [created]. *)
Theorem webhook_stores_only_verified :
  forall (secret : string) (env : db_env) (now : string) (db : table)
         (body : list byte) (x_signature : option string),
    let h := Main.webhook json_loads secret env now db body x_signature in
    Main.table_of h = db
    \/ exists (sig : string) (pd : pyvalue) (payload : WebhookPayload.t),
         x_signature = Some sig
         /\ verify_signature secret body sig = Ok true
         /\ json_loads body = Ok pd
         /\ WebhookPayload.new pd = Ok payload
         /\ MessageStorage.has_key db (WebhookPayload.message_id payload) = false
         /\ Main.table_of h = db ++ [row_of_payload payload now]
         /\ Main.respond (Main.ending_of h) = Main.mkResponse 200 Main.StatusOk
         /\ Main.webhook_result (Main.state_of h) = Some Main.created.
Proof.
  intros secret env now db body x_signature h.
  destruct (webhook_table_cases secret env now db body x_signature)
    as [[[H _]|[H _]]|(sig & pd & payload & H1 & H2 & H3 & H4 & H5 & H6 & H7 & H8 & H9)];
    [now left|now left|].
  right. exists sig, pd, payload. fold h in H7, H8, H9.
  repeat split; auto. now rewrite H8.
Qed.

(** X11.  A signed delivery and its replay: a valid payload signed with
    [compute_signature] under the configured secret is stored once; the
    first delivery is recorded [created] and a replay [duplicate], both
    are answered 200 with the same body, and the replay leaves the table
    as the first delivery left it. *)
Theorem webhook_signed_delivery_and_replay :
  forall (secret now now' : string) (db : table) (body : list byte)
         (pd : pyvalue) (payload : WebhookPayload.t),
    json_loads body = Ok pd ->
    WebhookPayload.new pd = Ok payload ->
    MessageStorage.has_key db (WebhookPayload.message_id payload) = false ->
    let sig := compute_signature secret body in
    let h1 := Main.webhook json_loads secret DbOk now db body (Some sig) in
    let h2 := Main.webhook json_loads secret DbOk now' (Main.table_of h1) body (Some sig) in
    Main.respond (Main.ending_of h1) = Main.mkResponse 200 Main.StatusOk
    /\ Main.webhook_result (Main.state_of h1) = Some Main.created
    /\ Main.table_of h1 = db ++ [row_of_payload payload now]
    /\ Main.respond (Main.ending_of h2) = Main.respond (Main.ending_of h1)
    /\ Main.webhook_result (Main.state_of h2) = Some Main.duplicate
    /\ Main.table_of h2 = Main.table_of h1.
Proof.
  intros secret now now' db body pd payload Hload Hnew Hfresh sig h1 h2.
  assert (Hsig : verify_signature secret body sig = Ok true)
    by apply sign_then_verify_helper.
  assert (E1 : h1 = Main.mkHandled (Main.Returns Main.StatusOk)
                 (Main.mkState (Some (WebhookPayload.message_id payload))
                    (Some false) (Some Main.created))
                 (db ++ [row_of_payload payload now])).
  { subst h1. rewrite (webhook_valid_request _ _ _ _ _ _ _ _ _ Hsig Hload Hnew).
    unfold MessageStorage.insert_message. now rewrite Hfresh. }
  assert (Hk : MessageStorage.has_key (db ++ [row_of_payload payload now])
                 (WebhookPayload.message_id payload) = true).
  { unfold MessageStorage.has_key. rewrite existsb_app. simpl.
    rewrite String.eqb_refl. now rewrite orb_true_r. }
  assert (E2 : h2 = Main.mkHandled (Main.Returns Main.StatusOk)
                 (Main.mkState (Some (WebhookPayload.message_id payload))
                    (Some true) (Some Main.duplicate))
                 (db ++ [row_of_payload payload now])).
  { subst h2. rewrite E1. cbn [Main.table_of].
    rewrite (webhook_valid_request _ _ _ _ _ _ _ _ _ Hsig Hload Hnew).
    unfold MessageStorage.insert_message. now rewrite Hk. }
  rewrite E2, E1. repeat split.
Qed.

End WebhookStore.

Lemma webhook_signed_delivery_and_replay_witness :
  sample_loads sample_body = Ok sample_data
  /\ MessageStorage.has_key [] "m1" = false
  /\ Main.table_of
       (Main.webhook sample_loads "testsecret" DbOk "t2"
          (Main.table_of
             (Main.webhook sample_loads "testsecret" DbOk "t1" [] sample_body
                (Some (compute_signature "testsecret" sample_body))))
          sample_body (Some (compute_signature "testsecret" sample_body)))
     = Main.table_of
         (Main.webhook sample_loads "testsecret" DbOk "t1" [] sample_body
            (Some (compute_signature "testsecret" sample_body))).
Proof.
  assert (Hl : sample_loads sample_body = Ok sample_data) by (vm_compute; reflexivity).
  split; [exact Hl|]. split; [reflexivity|].
  exact (proj2 (proj2 (proj2 (proj2 (proj2
           (webhook_signed_delivery_and_replay sample_loads "testsecret" "t1" "t2"
              [] sample_body sample_data _ Hl sample_data_valid eq_refl)))))).
Defined.



(** The request [GET /messages?offset=9223372036854775808] is admitted and
    answered 500. *)
Remark listing_endpoint_overflow :
  Main.get_messages sample_table 50 (2 ^ 63) None None None
  = Main.mkResponse 500 (Main.Detail "Internal server error").
Proof. reflexivity. Qed.

(** ** Timestamps: text order and calendar order *)

Lemma string_compare_cons (a b : ascii) (s t : string) :
  String.compare (String a s) (String b t)
  = lex (Ascii.compare a b) (String.compare s t).
Proof. cbn [String.compare]. unfold lex. destruct (Ascii.compare a b); reflexivity. Qed.

Lemma digit_range (c : ascii) :
  Datetime.is_digit c = true -> 48 <= code c <= 57.
Proof.
  unfold Datetime.is_digit, Re.in_range. intros H.
  apply andb_prop in H as [H1 H2]. apply Nat.leb_le in H1, H2. lia.
Qed.

Lemma ascii_compare_digits (a b : ascii) :
  Datetime.is_digit a = true -> Datetime.is_digit b = true ->
  Ascii.compare a b = Nat.compare (dec a) (dec b).
Proof.
  intros Ha Hb. apply digit_range in Ha, Hb.
  unfold Ascii.compare. rewrite N2Nat.inj_compare.
  unfold dec. change (N.to_nat (N_of_ascii a)) with (code a).
  change (N.to_nat (N_of_ascii b)) with (code b).
  destruct (Nat.compare_spec (code a) (code b)),
    (Nat.compare_spec (code a - 48) (code b - 48)); try reflexivity; lia.
Qed.

Lemma lex2_digits (a1 a2 b1 b2 : ascii) (k : comparison) :
  Datetime.is_digit a1 = true -> Datetime.is_digit a2 = true ->
  Datetime.is_digit b1 = true -> Datetime.is_digit b2 = true ->
  lex (Ascii.compare a1 b1) (lex (Ascii.compare a2 b2) k)
  = lex (Nat.compare (dec2 a1 a2) (dec2 b1 b2)) k.
Proof.
  intros Ha1 Ha2 Hb1 Hb2.
  rewrite !ascii_compare_digits by assumption.
  pose proof (dec_bound a1 Ha1). pose proof (dec_bound a2 Ha2).
  pose proof (dec_bound b1 Hb1). pose proof (dec_bound b2 Hb2).
  unfold dec2.
  destruct (Nat.compare_spec (dec a1) (dec b1)),
    (Nat.compare_spec (dec a2) (dec b2)),
    (Nat.compare_spec (10 * dec a1 + dec a2) (10 * dec b1 + dec b2));
    try reflexivity; lia.
Qed.

Lemma lex4_digits (a1 a2 a3 a4 b1 b2 b3 b4 : ascii) (k : comparison) :
  Datetime.is_digit a1 = true -> Datetime.is_digit a2 = true ->
  Datetime.is_digit a3 = true -> Datetime.is_digit a4 = true ->
  Datetime.is_digit b1 = true -> Datetime.is_digit b2 = true ->
  Datetime.is_digit b3 = true -> Datetime.is_digit b4 = true ->
  lex (Ascii.compare a1 b1) (lex (Ascii.compare a2 b2)
    (lex (Ascii.compare a3 b3) (lex (Ascii.compare a4 b4) k)))
  = lex (Nat.compare (dec4 a1 a2 a3 a4) (dec4 b1 b2 b3 b4)) k.
Proof.
  intros Ha1 Ha2 Ha3 Ha4 Hb1 Hb2 Hb3 Hb4.
  rewrite (lex2_digits a3 a4 b3 b4) by assumption.
  rewrite (lex2_digits a1 a2 b1 b2) by assumption.
  pose proof (dec_bound a1 Ha1). pose proof (dec_bound a2 Ha2).
  pose proof (dec_bound a3 Ha3). pose proof (dec_bound a4 Ha4).
  pose proof (dec_bound b1 Hb1). pose proof (dec_bound b2 Hb2).
  pose proof (dec_bound b3 Hb3). pose proof (dec_bound b4 Hb4).
  unfold dec4, dec2.
  destruct (Nat.compare_spec (10 * dec a1 + dec a2) (10 * dec b1 + dec b2)),
    (Nat.compare_spec (10 * dec a3 + dec a4) (10 * dec b3 + dec b4)),
    (Nat.compare_spec (100 * (10 * dec a1 + dec a2) + (10 * dec a3 + dec a4))
                      (100 * (10 * dec b1 + dec b2) + (10 * dec b3 + dec b4)));
    try reflexivity; lia.
Qed.

Lemma lex_eq_same (c : ascii) (k : comparison) : lex (Ascii.compare c c) k = k.
Proof. now rewrite ascii_compare_refl. Qed.

(** The text order of two stamps is the order of their fields, then of
    their tails. *)
Lemma stamp_compare (y1 y2 y3 y4 m1 m2 d1 d2 h1 h2 n1 n2 s1 s2 : ascii)
    (y1' y2' y3' y4' m1' m2' d1' d2' h1' h2' n1' n2' s1' s2' : ascii)
    (t t' : string) :
  stamp_digits y1 y2 y3 y4 m1 m2 d1 d2 h1 h2 n1 n2 s1 s2 ->
  stamp_digits y1' y2' y3' y4' m1' m2' d1' d2' h1' h2' n1' n2' s1' s2' ->
  String.compare (stamp y1 y2 y3 y4 m1 m2 d1 d2 h1 h2 n1 n2 s1 s2 t)
                 (stamp y1' y2' y3' y4' m1' m2' d1' d2' h1' h2' n1' n2' s1' s2' t')
  = lex (Nat.compare (dec4 y1 y2 y3 y4) (dec4 y1' y2' y3' y4'))
     (lex (Nat.compare (dec2 m1 m2) (dec2 m1' m2'))
       (lex (Nat.compare (dec2 d1 d2) (dec2 d1' d2'))
         (lex (Nat.compare (dec2 h1 h2) (dec2 h1' h2'))
           (lex (Nat.compare (dec2 n1 n2) (dec2 n1' n2'))
             (lex (Nat.compare (dec2 s1 s2) (dec2 s1' s2'))
                  (String.compare t t')))))).
Proof.
  intros Hd Hd'. split_digits Hd. split_digits Hd'.
  unfold stamp. rewrite !string_compare_cons, !lex_eq_same.
  rewrite (lex4_digits y1 y2 y3 y4 y1' y2' y3' y4') by assumption.
  rewrite (lex2_digits m1 m2 m1' m2') by assumption.
  rewrite (lex2_digits d1 d2 d1' d2') by assumption.
  rewrite (lex2_digits h1 h2 h1' h2') by assumption.
  rewrite (lex2_digits n1 n2 n1' n2') by assumption.
  rewrite (lex2_digits s1 s2 s1' s2') by assumption.
  reflexivity.
Qed.

Lemma compare_datetime_lex (a b : Datetime.datetime) :
  compare_datetime a b
  = lex (Nat.compare (Datetime.year a) (Datetime.year b))
     (lex (Nat.compare (Datetime.month a) (Datetime.month b))
       (lex (Nat.compare (Datetime.day a) (Datetime.day b))
         (lex (Nat.compare (Datetime.hour a) (Datetime.hour b))
           (lex (Nat.compare (Datetime.minute a) (Datetime.minute b))
             (lex (Nat.compare (Datetime.second a) (Datetime.second b))
                  (N.compare (Datetime.microsecond a)
                     (Datetime.microsecond b))))))).
Proof.
  unfold compare_datetime, lex.
  destruct (Nat.compare (Datetime.year a) (Datetime.year b)); try reflexivity.
  destruct (Nat.compare (Datetime.month a) (Datetime.month b)); try reflexivity.
  destruct (Nat.compare (Datetime.day a) (Datetime.day b)); try reflexivity.
  destruct (Nat.compare (Datetime.hour a) (Datetime.hour b)); try reflexivity.
  destruct (Nat.compare (Datetime.minute a) (Datetime.minute b)); try reflexivity.
  destruct (Nat.compare (Datetime.second a) (Datetime.second b)); reflexivity.
Qed.

Lemma lex_assoc (a b c : comparison) : lex (lex a b) c = lex a (lex b c).
Proof. destruct a; reflexivity. Qed.

Lemma lex_eq_r (c : comparison) : lex c Eq = c.
Proof. destruct c; reflexivity. Qed.

Lemma lex_decided (c k : comparison) : c <> Eq -> lex c k = c.
Proof. destruct c; [congruence|reflexivity|reflexivity]. Qed.

Lemma string_length_append (a b : string) :
  String.length (a ++ b) = String.length a + String.length b.
Proof. induction a as [|c a IH]; simpl; [reflexivity|]. now rewrite IH. Qed.

Lemma stamp_length (y1 y2 y3 y4 m1 m2 d1 d2 h1 h2 n1 n2 s1 s2 : ascii) (t : string) :
  String.length (stamp y1 y2 y3 y4 m1 m2 d1 d2 h1 h2 n1 n2 s1 s2 t)
  = 19 + String.length t.
Proof. reflexivity. Qed.

Lemma after_stamp (y1 y2 y3 y4 m1 m2 d1 d2 h1 h2 n1 n2 s1 s2 : ascii) (t : string) :
  after 26 (stamp y1 y2 y3 y4 m1 m2 d1 d2 h1 h2 n1 n2 s1 s2 t) = after 7 t.
Proof. reflexivity. Qed.

Lemma compare_app_same_length (a b t : string) :
  String.length a = String.length b ->
  String.compare (a ++ t) (b ++ t) = String.compare a b.
Proof.
  revert b. induction a as [|c a IH]; intros [|c' b]; simpl; try discriminate.
  - intros _. apply compare_refl.
  - intros [= H]. rewrite (IH b H). reflexivity.
Qed.

Lemma after_app_compare (n : nat) (a b t : string) :
  String.length a = String.length b ->
  String.compare (after n (a ++ t)) (after n (b ++ t))
  = String.compare (after n a) (after n b).
Proof.
  revert a b. induction n as [|n IH]; intros a b H.
  - destruct a, b; now apply compare_app_same_length.
  - destruct a as [|c a], b as [|c' b]; try discriminate.
    + cbn [append after]. now rewrite compare_refl.
    + injection H as H. cbn [append after]. now apply IH.
Qed.

Lemma after_short (n : nat) (s : string) :
  String.length s <= n -> after n s = EmptyString.
Proof.
  revert s. induction n as [|n IH]; intros [|c s] H; simpl in *;
    try reflexivity; try lia.
  apply IH. lia.
Qed.

Lemma after_exact (a t : string) : after (String.length a) (a ++ t) = t.
Proof.
  induction a as [|c a IH]; [now destruct t|]. exact IH.
Qed.

(** The microseconds read from [n] digits are below [10 ^ n]. *)
Lemma microseconds_from_bound (n : nat) (ds : string) :
  digits ds -> (Datetime.microseconds_from n ds < 10 ^ N.of_nat n)%N.
Proof.
  unfold digits. revert ds.
  assert (Hpos : forall k : nat, (0 < 10 ^ N.of_nat k)%N).
  { intros k. apply N.neq_0_lt_0, N.pow_nonzero. discriminate. }
  induction n as [|n IH]; intros [|c ds] H; cbn [Datetime.microseconds_from];
    try apply Hpos.
  cbn [forall_string] in H. apply andb_prop in H as [Hc Hds].
  pose proof (dec_bound c Hc) as Hb. unfold dec in Hb.
  specialize (IH ds Hds).
  rewrite Nat2N.inj_succ, N.pow_succ_r'. nia.
Qed.

Lemma compare_scaled (p d1 d2 m1 m2 : N) :
  (m1 < p)%N -> (m2 < p)%N ->
  N.compare (d1 * p + m1) (d2 * p + m2)
  = lex (N.compare d1 d2) (N.compare m1 m2).
Proof.
  intros H1 H2. unfold lex.
  destruct (N.compare_spec d1 d2) as [->|Hlt|Hgt].
  - destruct (N.compare_spec m1 m2) as [->|Hm|Hm].
    + apply N.compare_refl.
    + apply N.compare_lt_iff. lia.
    + apply N.compare_gt_iff. lia.
  - apply N.compare_lt_iff. nia.
  - apply N.compare_gt_iff. nia.
Qed.

(** Digit texts of one length compare as the microseconds read from their
    first [n] digits, ties decided by the digits after these. *)
Lemma digits_compare_micro (n : nat) (ds1 ds2 : string) :
  digits ds1 -> digits ds2 -> String.length ds1 = String.length ds2 ->
  String.compare ds1 ds2
  = lex (N.compare (Datetime.microseconds_from n ds1)
                   (Datetime.microseconds_from n ds2))
        (String.compare (after n ds1) (after n ds2)).
Proof.
  revert ds1 ds2. induction n as [|n IH]; intros ds1 ds2 H1 H2 Hlen.
  - destruct ds1, ds2; reflexivity.
  - destruct ds1 as [|c1 ds1], ds2 as [|c2 ds2]; try discriminate;
      [reflexivity|].
    injection Hlen as Hlen.
    pose proof (microseconds_from_bound n ds1) as B1.
    pose proof (microseconds_from_bound n ds2) as B2.
    unfold digits in *. cbn [forall_string] in H1, H2.
    apply andb_prop in H1 as [Hc1 H1]. apply andb_prop in H2 as [Hc2 H2].
    cbn [Datetime.microseconds_from after].
    rewrite string_compare_cons, (ascii_compare_digits c1 c2 Hc1 Hc2).
    rewrite (compare_scaled (10 ^ N.of_nat n)) by auto.
    rewrite lex_assoc, Nat2N.inj_compare. unfold dec. f_equal. now apply IH.
Qed.

(** The tails of two stamps of one length: an optional fraction and [Z]. *)
Lemma fraction_tail_compare (f1 f2 : string) :
  fraction_ok f1 -> fraction_ok f2 -> String.length f1 = String.length f2 ->
  String.compare (f1 ++ "Z") (f2 ++ "Z")
  = lex (N.compare (Datetime.microseconds (fraction_digits f1))
                   (Datetime.microseconds (fraction_digits f2)))
        (String.compare (after 7 (f1 ++ "Z")) (after 7 (f2 ++ "Z"))).
Proof.
  intros [->|(ds1 & -> & Hne1 & Hd1)] [->|(ds2 & -> & Hne2 & Hd2)];
    try discriminate.
  - reflexivity.
  - intros [= H]. cbn [fraction_digits append].
    change (after 7 (String "." (ds1 ++ "Z"))) with (after 6 (ds1 ++ "Z")).
    change (after 7 (String "." (ds2 ++ "Z"))) with (after 6 (ds2 ++ "Z")).
    rewrite string_compare_cons, lex_eq_same.
    rewrite (compare_app_same_length _ _ _ H), (after_app_compare 6 _ _ _ H).
    now apply digits_compare_micro.
Qed.

Lemma fraction_tail_short (f : string) :
  fraction_ok f -> String.length f <= 7 ->
  after 7 (f ++ "Z")
  = if String.length f =? 7 then "Z" else EmptyString.
Proof.
  intros _ H. destruct (Nat.eqb_spec (String.length f) 7) as [E|E].
  - rewrite <- E. apply after_exact.
  - apply after_short. rewrite string_length_append. simpl. lia.
Qed.

Lemma fromisoformat_stamp_value
    (y1 y2 y3 y4 m1 m2 d1 d2 h1 h2 n1 n2 s1 s2 : ascii) (frac : string) :
  stamp_digits y1 y2 y3 y4 m1 m2 d1 d2 h1 h2 n1 n2 s1 s2 ->
  fraction_ok frac ->
  real_instant (dec4 y1 y2 y3 y4) (dec2 m1 m2) (dec2 d1 d2)
    (dec2 h1 h2) (dec2 n1 n2) (dec2 s1 s2) ->
  Datetime.fromisoformat
    (str_replace "Z" "+00:00"
       (stamp y1 y2 y3 y4 m1 m2 d1 d2 h1 h2 n1 n2 s1 s2 (frac ++ "Z")))
  = Ok (Datetime.mkDatetime (dec4 y1 y2 y3 y4) (dec2 m1 m2) (dec2 d1 d2)
          (dec2 h1 h2) (dec2 n1 n2) (dec2 s1 s2)
          (Datetime.microseconds (fraction_digits frac))
          (Some (false, 0, 0))).
Proof.
  intros Hd Hf Hreal. unfold Datetime.fromisoformat.
  rewrite (replace_stamp _ _ _ _ _ _ _ _ _ _ _ _ _ _ _ EmptyString Hd Hf).
  rewrite (parse_stamp _ _ _ _ _ _ _ _ _ _ _ _ _ _ _ _ Hd Hf).
  change (Datetime.offset_part
            (String "+" ("00:00" ++ str_replace "Z" "+00:00" "")))
    with (Some (Some (false, 0, 0))).
  cbv zeta. unfold fraction_digits.
  apply (in_range_real _ _ _ _ _ _ _ _ _ _ _ _ _ _
           (Datetime.microseconds
              (match frac with String _ ds => ds | EmptyString => EmptyString end))
           Hd)
    in Hreal.
  now rewrite Hreal.
Qed.

(** Two texts of the UTC shape and of the same length compare as the
    instants read from them, ties decided by what follows the sixth digit
    of the fraction. *)
Lemma ts_compare_instants (v1 v2 : string) :
  iso8601_utc_instant v1 -> iso8601_utc_instant v2 ->
  String.length v1 = String.length v2 ->
  exists dt1 dt2 : Datetime.datetime,
    Datetime.fromisoformat (str_replace "Z" "+00:00" v1) = Ok dt1
    /\ Datetime.fromisoformat (str_replace "Z" "+00:00" v2) = Ok dt2
    /\ String.compare v1 v2
       = lex (compare_datetime dt1 dt2)
             (String.compare (after 26 v1) (after 26 v2))
    /\ (String.length v1 <= 27 ->
        String.compare (after 26 v1) (after 26 v2) = Eq).
Proof.
  intros (y1 & y2 & y3 & y4 & m1 & m2 & d1 & d2 & h1 & h2 & n1 & n2 & s1 & s2
          & f1 & -> & Hd1 & Hf1 & Hr1)
         (y1' & y2' & y3' & y4' & m1' & m2' & d1' & d2' & h1' & h2' & n1' & n2'
          & s1' & s2' & f2 & -> & Hd2 & Hf2 & Hr2) Hlen.
  rewrite !stamp_length, !string_length_append in Hlen.
  assert (Hflen : String.length f1 = String.length f2) by lia.
  eexists. eexists.
  split; [apply (fromisoformat_stamp_value _ _ _ _ _ _ _ _ _ _ _ _ _ _ _ Hd1 Hf1 Hr1)|].
  split; [apply (fromisoformat_stamp_value _ _ _ _ _ _ _ _ _ _ _ _ _ _ _ Hd2 Hf2 Hr2)|].
  rewrite !after_stamp. split.
  - rewrite (stamp_compare _ _ _ _ _ _ _ _ _ _ _ _ _ _ _ _ _ _ _ _ _ _ _ _ _ _ _ _ _ _ Hd1 Hd2).
    rewrite (fraction_tail_compare f1 f2 Hf1 Hf2 Hflen).
    rewrite compare_datetime_lex.
    cbn [Datetime.year Datetime.month Datetime.day Datetime.hour Datetime.minute
         Datetime.second Datetime.microsecond].
    now rewrite !lex_assoc.
  - intros H27. rewrite stamp_length, string_length_append in H27.
    cbn [String.length] in H27.
    rewrite (fraction_tail_short f1 Hf1) by lia.
    rewrite (fraction_tail_short f2 Hf2) by lia.
    rewrite Hflen. destruct (String.length f2 =? 7); reflexivity.
Qed.

(** X13.  For two accepted timestamps of the same length (the same number
    of fraction digits, possibly none) the text order used by the listing
    is the order of the instants that [datetime.fromisoformat] reads from
    them, which keeps microseconds, ties being decided by the digits after
    the sixth: instants that differ are ordered as their texts, and with
    at most six fraction digits the text order is exactly the order of the
    instants. *)
Theorem ts_text_order_is_calendar_order :
  forall v1 v2 : string,
    WebhookPayload.validate_ts_iso8601 v1 = Ok v1 ->
    WebhookPayload.validate_ts_iso8601 v2 = Ok v2 ->
    String.length v1 = String.length v2 ->
    exists dt1 dt2 : Datetime.datetime,
      Datetime.fromisoformat (str_replace "Z" "+00:00" v1) = Ok dt1
      /\ Datetime.fromisoformat (str_replace "Z" "+00:00" v2) = Ok dt2
      /\ String.compare v1 v2
         = lex (compare_datetime dt1 dt2)
               (String.compare (after 26 v1) (after 26 v2))
      /\ (compare_datetime dt1 dt2 <> Eq ->
          String.compare v1 v2 = compare_datetime dt1 dt2)
      /\ (String.length v1 <= 27 ->
          String.compare v1 v2 = compare_datetime dt1 dt2).
Proof.
  intros v1 v2 H1 H2 Hlen.
  apply validate_ts_spec in H1 as [_ H1]. apply validate_ts_spec in H2 as [_ H2].
  destruct (ts_compare_instants v1 v2 H1 H2 Hlen) as (dt1 & dt2 & E1 & E2 & E3 & E4).
  exists dt1, dt2. repeat split; auto.
  - intros Hne. rewrite E3. now apply lex_decided.
  - intros H27. rewrite E3, (E4 H27). apply lex_eq_r.
Qed.

Lemma ts_text_order_is_calendar_order_witness :
  WebhookPayload.validate_ts_iso8601 "2025-01-15T12:00:00.250Z"
  = Ok "2025-01-15T12:00:00.250Z"
  /\ WebhookPayload.validate_ts_iso8601 "2025-01-15T12:00:00.125Z"
     = Ok "2025-01-15T12:00:00.125Z"
  /\ exists dt1 dt2 : Datetime.datetime,
       Datetime.fromisoformat (str_replace "Z" "+00:00" "2025-01-15T12:00:00.250Z")
       = Ok dt1
       /\ Datetime.fromisoformat (str_replace "Z" "+00:00" "2025-01-15T12:00:00.125Z")
          = Ok dt2
       /\ String.compare "2025-01-15T12:00:00.250Z" "2025-01-15T12:00:00.125Z"
          = compare_datetime dt1 dt2.
Proof.
  assert (H1 : WebhookPayload.validate_ts_iso8601 "2025-01-15T12:00:00.250Z"
               = Ok "2025-01-15T12:00:00.250Z") by (vm_compute; reflexivity).
  assert (H2 : WebhookPayload.validate_ts_iso8601 "2025-01-15T12:00:00.125Z"
               = Ok "2025-01-15T12:00:00.125Z") by (vm_compute; reflexivity).
  assert (H27 : String.length "2025-01-15T12:00:00.250Z" <= 27)
    by (apply Nat.leb_le; reflexivity).
  split; [exact H1|]. split; [exact H2|].
  destruct (ts_text_order_is_calendar_order _ _ H1 H2 eq_refl)
    as (dt1 & dt2 & E1 & E2 & _ & _ & E5).
  exists dt1, dt2. split; [exact E1|]. split; [exact E2|]. exact (E5 H27).
Defined.

(** With fractions of different lengths the two orders part: half a second
    past ten sorts before ten o'clock sharp. *)
Remark ts_text_order_mixed_fractions :
  WebhookPayload.validate_ts_iso8601 "2025-01-15T10:00:00.5Z"
  = Ok "2025-01-15T10:00:00.5Z"
  /\ WebhookPayload.validate_ts_iso8601 "2025-01-15T10:00:00Z"
     = Ok "2025-01-15T10:00:00Z"
  /\ String.compare "2025-01-15T10:00:00.5Z" "2025-01-15T10:00:00Z" = Lt.
Proof. vm_compute. repeat split. Qed.

(** Digits after the sixth are read by the text order only: two texts can
    name one instant and still be ordered. *)
Remark ts_text_order_beyond_microseconds :
  Datetime.fromisoformat (str_replace "Z" "+00:00" "2025-01-15T10:00:00.1234567Z")
  = Datetime.fromisoformat (str_replace "Z" "+00:00" "2025-01-15T10:00:00.1234568Z")
  /\ String.compare "2025-01-15T10:00:00.1234567Z" "2025-01-15T10:00:00.1234568Z"
     = Lt.
Proof. vm_compute. split; reflexivity. Qed.

(** ** Rows stored through the webhook *)

Lemma unique_ids_fresh (db : table) (r : Row) :
  unique_ids db -> MessageStorage.has_key db (message_id r) = false ->
  unique_ids (db ++ [r]).
Proof.
  unfold unique_ids. intros Hnd Hk. rewrite map_app. simpl.
  apply NoDup_app; [exact Hnd|repeat constructor; simpl; tauto|].
  intros a Ha [<-|[]].
  apply in_map_iff in Ha as (r' & Hr & Hin).
  unfold MessageStorage.has_key in Hk.
  rewrite <- not_true_iff_false in Hk. apply Hk.
  apply existsb_exists. exists r'. split; [exact Hin|now apply String.eqb_eq].
Qed.

(** The fields of a validated payload make a valid row. *)
Lemma payload_row_valid (pd : pyvalue) (payload : WebhookPayload.t) (now : string) :
  WebhookPayload.new pd = Ok payload -> row_valid (row_of_payload payload now).
Proof.
  destruct pd as [ | b | z | l | t | l | data]; try discriminate.
  intros H. apply new_spec in H as (H1 & H2 & H3 & H4 & H5).
  apply field_message_id_spec in H1 as [_ H1].
  apply field_from_spec in H2 as [_ H2].
  apply field_to_spec in H3 as [_ H3].
  apply field_ts_spec in H4 as [_ H4].
  apply field_text_spec in H5.
  unfold row_valid, row_of_payload. cbn [message_id from_msisdn to_msisdn ts text].
  repeat split; auto.
  unfold text_field in H5. destruct (WebhookPayload.text payload); [apply H5|exact I].
Qed.

Section ServeFacts.

Variable json_loads : list byte -> result pyvalue.
Variable secret : string.

Lemma deliver_invariant (db : table) (d : Delivery) :
  Forall row_valid db -> unique_ids db ->
  let db' := Main.table_of (deliver json_loads secret db d) in
  Forall row_valid db' /\ unique_ids db'
  /\ exists added : list Row, db' = db ++ added /\ List.length added <= 1.
Proof.
  intros Hv Hu db'. subst db'. unfold deliver.
  destruct (webhook_table_cases json_loads secret (delivery_env d) (delivery_now d) db
              (delivery_body d) (delivery_signature d))
    as [[[H _]|[H _]]|(sig & pd & payload & _ & _ & _ & Hn & _ & Hk & H & _)];
    rewrite H.
  - repeat split; auto. exists []. rewrite app_nil_r. auto.
  - repeat split; auto. exists []. rewrite app_nil_r. auto.
  - split; [|split].
    + apply Forall_app. split; [exact Hv|].
      constructor; [|constructor]. exact (payload_row_valid pd payload _ Hn).
    + apply unique_ids_fresh; assumption.
    + eexists. split; [reflexivity|]. simpl. lia.
Qed.

(** X14.  Whatever requests arrive, in whatever storage environment
    (faults included), a table that holds only rows the validator lets
    through, one per message id, still does so afterwards; the requests
    only append, at most one row each. *)
Theorem served_rows_valid :
  forall (db : table) (ds : list Delivery),
    Forall row_valid db -> unique_ids db ->
    Forall row_valid (serve json_loads secret db ds)
    /\ unique_ids (serve json_loads secret db ds)
    /\ exists added : list Row,
         serve json_loads secret db ds = db ++ added
         /\ List.length added <= List.length ds.
Proof.
  intros db ds. revert db. induction ds as [|d ds IH]; intros db Hv Hu.
  - simpl. repeat split; auto. exists []. rewrite app_nil_r. auto.
  - cbn [serve fold_left].
    destruct (deliver_invariant db d Hv Hu) as (Hv' & Hu' & a & Ha & Hla).
    destruct (IH _ Hv' Hu') as (Hv2 & Hu2 & b & Hb & Hlb).
    fold (serve json_loads secret (Main.table_of (deliver json_loads secret db d)) ds).
    repeat split; auto.
    exists (a ++ b). rewrite Hb, Ha, app_assoc. split; [reflexivity|].
    rewrite length_app. simpl. lia.
Qed.

End ServeFacts.

Lemma served_rows_valid_witness :
  let ds := [mkDelivery DbOk "2025-01-15T10:00:01.000000Z" sample_body
               (Some sample_signature);
             mkDelivery DbOk "2025-01-15T10:00:02.000000Z" sample_body
               (Some sample_signature);
             mkDelivery DbOk "2025-01-15T10:00:03.000000Z" sample_body None] in
  List.length (serve sample_loads "testsecret" [] ds) = 1
  /\ Forall row_valid (serve sample_loads "testsecret" [] ds)
  /\ unique_ids (serve sample_loads "testsecret" [] ds).
Proof.
  intros ds.
  destruct (served_rows_valid sample_loads "testsecret" [] ds
              (Forall_nil _) (NoDup_nil _)) as (Hv & Hu & _).
  split; [vm_compute; reflexivity|]. split; assumption.
Defined.

(** ** The database path of the settings *)

Lemma prefix_append (a b : string) : String.prefix a (a ++ b) = true.
Proof.
  induction a as [|c a IH]; simpl; [now destruct b|].
  destruct (ascii_dec c c) as [_|Hne]; [exact IH|congruence].
Qed.

Lemma prefix_split (a s : string) :
  String.prefix a s = true <-> exists b : string, s = (a ++ b)%string.
Proof.
  split.
  - revert s. induction a as [|c a IH]; intros s H.
    + exists s. reflexivity.
    + destruct s as [|c' s]; [discriminate|]. simpl in H.
      destruct (ascii_dec c c') as [->|_]; [|discriminate].
      destruct (IH s H) as [b ->]. exists b. reflexivity.
  - intros [b ->]. apply prefix_append.
Qed.

(** [str_contains] is the substring test. *)
Lemma str_contains_spec (old s : string) :
  str_contains old s = true
  <-> exists a b : string, s = (a ++ old ++ b)%string.
Proof.
  split.
  - induction s as [|c s IH]; cbn [str_contains]; intros H;
      apply orb_true_iff in H as [H|H].
    + apply prefix_split in H as [b ->]. exists EmptyString, b. reflexivity.
    + discriminate.
    + apply prefix_split in H as [b ->]. exists EmptyString, b. reflexivity.
    + destruct (IH H) as (a & b & ->). exists (String c a), b. reflexivity.
  - intros (a & b & ->). induction a as [|c a IH].
    + cbn [append]. destruct (old ++ b)%string eqn:E; cbn [str_contains];
        rewrite <- ?E; rewrite prefix_append; reflexivity.
    + cbn [append str_contains]. rewrite IH. apply orb_true_r.
Qed.

Lemma replace_from_skip (old new o p : string) :
  replace_from old new (String.length o) (o ++ p) = replace_from old new 0 p.
Proof.
  induction o as [|c o IH]; [reflexivity|]. cbn [String.length append replace_from].
  exact IH.
Qed.

Lemma replace_from_occurrence (c : ascii) (o new p : string) :
  replace_from (String c o) new 0 (String c o ++ p)
  = (new ++ replace_from (String c o) new 0 p)%string.
Proof.
  cbn [append replace_from].
  change (String c (o ++ p)) with (String c o ++ p)%string.
  rewrite prefix_append.
  cbn [String.length]. rewrite Nat.sub_1_r. cbn [Nat.pred].
  now rewrite replace_from_skip.
Qed.

Lemma replace_from_absent (old new p : string) :
  str_contains old p = false -> replace_from old new 0 p = p.
Proof.
  induction p as [|c p IH]; [reflexivity|].
  cbn [str_contains replace_from]. intros H.
  apply orb_false_iff in H as [H1 H2]. rewrite H1. now rewrite IH.
Qed.

(** X15.  The path of the database file.  Without [DATABASE_URL] in the
    environment, and for every value of it that does not start with
    [sqlite:///], the path is [/data/app.db]; for [sqlite:///] followed by
    a path it is that path with every further [sqlite:///] in it removed,
    so the path itself when it holds none. *)
Theorem database_path_spec :
  forall (environ : string -> option string) (str_upper : string -> string),
    let settings := Config.new environ str_upper in
    (environ "DATABASE_URL" = None ->
     Config.database_path settings = "/data/app.db")
    /\ (forall url : string,
          environ "DATABASE_URL" = Some url ->
          String.prefix "sqlite:///" url = false ->
          Config.database_path settings = "/data/app.db")
    /\ (forall p : string,
          environ "DATABASE_URL" = Some ("sqlite:///" ++ p)%string ->
          Config.database_path settings = py_replace "sqlite:///" EmptyString p
          /\ (str_contains "sqlite:///" p = false ->
              Config.database_path settings = p)).
Proof.
  intros environ str_upper settings. subst settings.
  unfold Config.database_path, Config.new, Config.getenv.
  cbn [Config.database_url]. split; [|split].
  - intros ->. reflexivity.
  - intros url -> H. now rewrite H.
  - intros p ->. rewrite prefix_append.
    assert (E : py_replace "sqlite:///" EmptyString ("sqlite:///" ++ p)
                = py_replace "sqlite:///" EmptyString p).
    { unfold py_replace. now rewrite replace_from_occurrence. }
    rewrite E. split; [reflexivity|].
    intros H. unfold py_replace. now apply replace_from_absent.
Qed.

Lemma database_path_spec_witness :
  let environ := fun k : string =>
    if String.eqb k "DATABASE_URL" then Some "sqlite:////tmp/test.db" else None in
  Config.database_path (Config.new environ (fun s => s)) = "/tmp/test.db".
Proof.
  intros environ.
  destruct (database_path_spec environ (fun s => s)) as (_ & _ & H).
  destruct (H "/tmp/test.db" eq_refl) as [_ H'].
  exact (H' eq_refl).
Defined.

(** A path that itself holds [sqlite:///] loses it. *)
Remark database_path_marker_in_path :
  Config.database_path
    (Config.mkSettings "s" "sqlite:///a/sqlite:///b" "INFO") = "a/b".
Proof. reflexivity. Qed.

(** ** Metrics and log lines of a request *)

Section CounterFacts.

Context {K : Type}.
Variable eqb : K -> K -> bool.
Hypothesis eqb_spec : forall a b : K, eqb a b = true <-> a = b.

Lemma total_inc (k : K) (c : list (K * nat)) :
  total (Metrics.inc eqb k c) = S (total c).
Proof.
  induction c as [|[k' n] c IH]; [reflexivity|].
  cbn [Metrics.inc]. destruct (eqb k' k); cbn [total fold_right snd].
  - reflexivity.
  - fold (total (Metrics.inc eqb k c)). fold (total c). rewrite IH. lia.
Qed.

Lemma value_inc_same (k : K) (c : list (K * nat)) :
  Metrics.value eqb k (Metrics.inc eqb k c) = S (Metrics.value eqb k c).
Proof.
  unfold Metrics.value. induction c as [|[k' n] c IH]; cbn [Metrics.inc find fst].
  - assert (eqb k k = true) as -> by now apply eqb_spec. reflexivity.
  - destruct (eqb k' k) eqn:E; cbn [find fst]; rewrite E; [reflexivity|exact IH].
Qed.

Lemma value_inc_other (k k' : K) (c : list (K * nat)) :
  k <> k' -> Metrics.value eqb k' (Metrics.inc eqb k c) = Metrics.value eqb k' c.
Proof.
  intros Hne. unfold Metrics.value.
  induction c as [|[k0 n] c IH]; cbn [Metrics.inc find fst].
  - destruct (eqb k k') eqn:E; [apply eqb_spec in E; contradiction|reflexivity].
  - destruct (eqb k0 k) eqn:E; cbn [find fst].
    + apply eqb_spec in E. subst k0.
      destruct (eqb k k') eqn:E'; [apply eqb_spec in E'; contradiction|reflexivity].
    + destruct (eqb k0 k'); [reflexivity|exact IH].
Qed.

End CounterFacts.

Lemma labels_eqb_spec (a b : string * string) :
  Metrics.labels_eqb a b = true <-> a = b.
Proof.
  destruct a as [a1 a2], b as [b1 b2]. unfold Metrics.labels_eqb. cbn [fst snd].
  rewrite andb_true_iff, !String.eqb_eq. split.
  - intros [-> ->]. reflexivity.
  - intros [= -> ->]. auto.
Qed.

Lemma observations_observe_same {pyfloat : Type} (path : string) (x : pyfloat)
    (h : list (string * list pyfloat)) :
  Metrics.observations path (Metrics.observe path x h)
  = Metrics.observations path h ++ [x].
Proof.
  unfold Metrics.observations.
  induction h as [|[p xs] h IH]; cbn [Metrics.observe find fst].
  - rewrite String.eqb_refl. reflexivity.
  - destruct (String.eqb p path) eqn:E; cbn [find fst]; rewrite E;
      [reflexivity|exact IH].
Qed.

Lemma observations_observe_other {pyfloat : Type} (path path' : string)
    (x : pyfloat) (h : list (string * list pyfloat)) :
  path <> path' ->
  Metrics.observations path' (Metrics.observe path x h)
  = Metrics.observations path' h.
Proof.
  intros Hne. unfold Metrics.observations.
  induction h as [|[p xs] h IH]; cbn [Metrics.observe find fst].
  - apply String.eqb_neq in Hne. now rewrite Hne.
  - destruct (String.eqb p path) eqn:E; cbn [find fst].
    + apply String.eqb_eq in E. subst p. apply String.eqb_neq in Hne.
      now rewrite Hne.
    + destruct (String.eqb p path'); [reflexivity|exact IH].
Qed.

Section ServiceFacts.

Variable pyfloat : Type.
Variable round2 : pyfloat -> pyfloat.
Variable json_loads : list byte -> result pyvalue.
Variable secret : string.
Variable effective_level : nat.

(** The endpoint with its metrics is the endpoint, and it counts what it
    writes into [request.state]. *)
Lemma service_webhook_eq (env : db_env) (now : string) (db : table)
    (body : list byte) (x_signature : option string)
    (m : Metrics.Registry pyfloat) :
  Service.webhook json_loads secret env now db body x_signature m
  = let h := Main.webhook json_loads secret env now db body x_signature in
    (h, match Main.webhook_result (Main.state_of h) with
        | Some o => Metrics.record_webhook_result (Service.result_name o) m
        | None => m
        end).
Proof.
  unfold Service.webhook, Main.webhook.
  destruct (negb (truthy x_signature)); [reflexivity|].
  destruct (verify_signature secret body _) as [[|]|e]; try reflexivity.
  destruct (payload_data <- json_loads body;; WebhookPayload.new payload_data)
    as [payload|e]; [|reflexivity].
  destruct (MessageStorage.insert_message env now db _ _ _ _ _)
    as [[[success [|]]|e] db']; reflexivity.
Qed.

(** X16.  The webhook endpoint counts exactly what it reports: it calls
    [record_webhook_result] once, with the text it leaves in
    [request.state.webhook_result], when it sets that field, and not at all
    when it lets an exception through; it touches no other metric. *)
Theorem webhook_counts_its_result :
  forall (env : db_env) (now : string) (db : table) (body : list byte)
         (x_signature : option string) (m : Metrics.Registry pyfloat),
    let h := Main.webhook json_loads secret env now db body x_signature in
    let m' := snd (Service.webhook json_loads secret env now db body x_signature m) in
    fst (Service.webhook json_loads secret env now db body x_signature m) = h
    /\ Metrics.http_requests_total m' = Metrics.http_requests_total m
    /\ Metrics.request_latency_ms m' = Metrics.request_latency_ms m
    /\ match Main.webhook_result (Main.state_of h) with
       | Some o =>
           (forall e, Main.ending_of h <> Main.Uncaught e)
           /\ Metrics.value String.eqb (Service.result_name o)
                (Metrics.webhook_requests_total m')
              = S (Metrics.value String.eqb (Service.result_name o)
                     (Metrics.webhook_requests_total m))
           /\ (forall name : string,
                 name <> Service.result_name o ->
                 Metrics.value String.eqb name (Metrics.webhook_requests_total m')
                 = Metrics.value String.eqb name (Metrics.webhook_requests_total m))
       | None =>
           (exists e, Main.ending_of h = Main.Uncaught e) /\ m' = m
       end.
Proof.
  intros env now db body x_signature m h m'. subst m'.
  rewrite service_webhook_eq. fold h. cbn [fst snd].
  split; [reflexivity|].
  assert (Hcases :
    match Main.webhook_result (Main.state_of h) with
    | Some _ => forall e, Main.ending_of h <> Main.Uncaught e
    | None => exists e, Main.ending_of h = Main.Uncaught e
    end).
  { subst h. unfold Main.webhook.
    destruct (negb (truthy x_signature)); [cbn; discriminate|].
    destruct (verify_signature secret body _) as [[|]|e];
      [|cbn; discriminate|cbn; eauto].
    destruct (payload_data <- json_loads body;; WebhookPayload.new payload_data)
      as [payload|e]; [|cbn; discriminate].
    destruct (MessageStorage.insert_message env now db _ _ _ _ _)
      as [[[success [|]]|e] db']; cbn; try discriminate; eauto. }
  destruct (Main.webhook_result (Main.state_of h)) as [o|].
  - cbn [Metrics.record_webhook_result Metrics.http_requests_total
         Metrics.request_latency_ms Metrics.webhook_requests_total].
    repeat split; auto.
    + apply value_inc_same. apply String.eqb_eq.
    + intros name Hne. apply value_inc_other; [apply String.eqb_eq|congruence].
  - repeat split; auto.
Qed.

(** How the endpoint can end, with the state it leaves. *)
Lemma webhook_outcomes (env : db_env) (now : string) (db : table)
    (body : list byte) (x_signature : option string) :
  let h := Main.webhook json_loads secret env now db body x_signature in
  (exists e, Main.ending_of h = Main.Uncaught e
     /\ Main.webhook_dup (Main.state_of h) = None
     /\ Main.webhook_result (Main.state_of h) = None)
  \/ (Main.ending_of h = Main.HTTPException 401 (Main.Detail "invalid signature")
      /\ Main.state_of h = Main.mkState None None (Some Main.invalid_signature))
  \/ (exists e, Main.ending_of h = Main.HTTPException 422 (Main.DetailOf e)
        /\ Main.state_of h = Main.mkState None None (Some Main.validation_error))
  \/ (exists (mid : string) (dup : bool),
        Main.ending_of h = Main.Returns Main.StatusOk
        /\ Main.state_of h
           = Main.mkState (Some mid) (Some dup)
               (Some (if dup then Main.duplicate else Main.created))).
Proof.
  intros h. subst h. unfold Main.webhook.
  destruct (negb (truthy x_signature)); [right; left; split; reflexivity|].
  destruct (verify_signature secret body _) as [[|]|e];
    [|right; left; split; reflexivity|left; exists e; repeat split].
  destruct (payload_data <- json_loads body;; WebhookPayload.new payload_data)
    as [payload|e]; [|right; right; left; exists e; split; reflexivity].
  destruct (MessageStorage.insert_message env now db _ _ _ _ _)
    as [[[success dup]|e] db'].
  - right; right; right. exists (WebhookPayload.message_id payload), dup.
    split; reflexivity.
  - left. exists e. repeat split.
Qed.

(** X17.  One [POST /webhook] seen from outside.  The middleware and the
    exception handler change neither the answer nor the table.  When the
    endpoint recorded a result, the request is counted once under that
    result and once under its path and status, its latency is observed,
    the status is the one that goes with the result (200 for created and
    duplicate, 401 for invalid_signature, 422 for validation_error), and a
    logger at level INFO or below writes one line: INFO for status 200 and
    ERROR otherwise, with the status, the result, the rounded latency, and
    with [message_id] and [dup] exactly for created and duplicate.  When
    the endpoint let an exception through, the answer is the generic 500,
    no metric changes, and the only line is the ERROR line of the
    exception handler, which carries no request field. *)
Theorem webhook_request_observed :
  forall (a : Service.Arrival pyfloat) (app : Service.App pyfloat),
    let d := Service.arrival_delivery a in
    let h := Main.webhook json_loads secret (delivery_env d) (delivery_now d)
               (Service.app_table app) (delivery_body d) (delivery_signature d) in
    let response :=
      fst (Service.post_webhook round2 json_loads secret effective_level a app) in
    let app' :=
      snd (Service.post_webhook round2 json_loads secret effective_level a app) in
    response = Main.respond (Main.ending_of h)
    /\ Service.app_table app' = Main.table_of h
    /\ match Main.webhook_result (Main.state_of h) with
       | Some o =>
           Main.status_code response = status_of_result o
           /\ Service.app_metrics app'
              = Metrics.record_request "/webhook" (status_of_result o)
                  (Service.arrival_latency_ms a)
                  (Metrics.record_webhook_result (Service.result_name o)
                     (Service.app_metrics app))
           /\ (20 < effective_level -> status_of_result o = 200%Z ->
               Service.app_stdout app' = Service.app_stdout app)
           /\ (effective_level <= 20 ->
               exists line : list (string * LoggingUtils.value pyfloat),
                 Service.app_stdout app' = Service.app_stdout app ++ [line]
                 /\ log_field "message" line
                    = Some (LoggingUtils.VStr "request completed")
                 /\ log_field "level" line
                    = Some (LoggingUtils.VStr
                              (match o with
                               | Main.created | Main.duplicate => "INFO"
                               | _ => "ERROR"
                               end))
                 /\ log_field "request_id" line
                    = Some (LoggingUtils.VStr (Service.arrival_request_id a))
                 /\ log_field "path" line = Some (LoggingUtils.VStr "/webhook")
                 /\ log_field "status" line
                    = Some (LoggingUtils.VInt (status_of_result o))
                 /\ log_field "latency_ms" line
                    = Some (LoggingUtils.VFloat
                              (round2 (Service.arrival_latency_ms a)))
                 /\ log_field "result" line
                    = Some (LoggingUtils.VStr (Service.result_name o))
                 /\ log_field "message_id" line
                    = match o with
                      | Main.created | Main.duplicate =>
                          option_map LoggingUtils.VStr
                            (Main.webhook_message_id (Main.state_of h))
                      | _ => None
                      end
                 /\ (status_of_result o = 200%Z ->
                     Main.webhook_message_id (Main.state_of h) <> None)
                 /\ log_field "dup" line
                    = match o with
                      | Main.created => Some (LoggingUtils.VBool false)
                      | Main.duplicate => Some (LoggingUtils.VBool true)
                      | _ => None
                      end
                 /\ log_field "exception" line = None)
       | None =>
           response = Main.mkResponse 500 (Main.Detail "Internal server error")
           /\ Service.app_metrics app' = Service.app_metrics app
           /\ (effective_level <= 40 ->
               exists (line : list (string * LoggingUtils.value pyfloat)) (e : exn),
                 Main.ending_of h = Main.Uncaught e
                 /\ Service.app_stdout app' = Service.app_stdout app ++ [line]
                 /\ log_field "level" line = Some (LoggingUtils.VStr "ERROR")
                 /\ log_field "message" line
                    = Some (LoggingUtils.VStr
                              ("Unhandled exception: " ++ Service.type_name e))
                 /\ log_field "exception" line
                    = Some (LoggingUtils.VStr (Service.arrival_traceback a))
                 /\ log_field "request_id" line = None
                 /\ log_field "status" line = None
                 /\ log_field "result" line = None)
       end.
Proof.
  intros a app d h response app'. subst response app'.
  unfold Service.post_webhook. fold d. rewrite service_webhook_eq. fold h.
  pose proof (webhook_outcomes (delivery_env d) (delivery_now d)
                (Service.app_table app) (delivery_body d) (delivery_signature d))
    as Hc.
  cbv zeta in Hc. fold h in Hc. cbv zeta. clearbody h.
  destruct h as [e [mi du re] tb].
  cbn [Main.ending_of Main.state_of Main.table_of Main.webhook_result
       Main.webhook_dup Main.webhook_message_id] in *.
  destruct Hc as [(exc & -> & -> & ->)
                 |[[-> [= -> -> ->]]
                  |[(exc & -> & [= -> -> ->])
                   |(mid & dup & -> & [= -> -> ->])]]].
  - (* an exception escapes *)
    cbn [Service.call_next Service.logging_middleware
         Service.generic_exception_handler fst snd Main.respond
         Service.app_table Service.app_metrics Service.app_stdout].
    repeat split.
    intros Hl. unfold LoggingUtils.log. cbn [LoggingUtils.record_level LoggingUtils.levelno].
    apply Nat.leb_le in Hl. rewrite Hl.
    eexists. exists exc. split; [reflexivity|]. split; [reflexivity|].
    repeat split.
  - (* invalid signature *)
    cbn [Service.call_next Service.logging_middleware Main.respond
         Main.status_code fst snd option_map Service.result_name status_of_result
         Service.app_table Service.app_metrics Service.app_stdout
         Main.webhook_result Main.webhook_dup Main.webhook_message_id].
    change (401 <? 400)%Z with false. cbv iota.
    repeat split; try discriminate.
    intros Hl. unfold LoggingUtils.log_request, LoggingUtils.log.
    cbn [LoggingUtils.record_level LoggingUtils.levelno].
    assert ((effective_level <=? 40) = true) as -> by (apply Nat.leb_le; lia).
    eexists. split; [reflexivity|]. repeat split. intros [=].
  - (* validation error *)
    cbn [Service.call_next Service.logging_middleware Main.respond
         Main.status_code fst snd option_map Service.result_name status_of_result
         Service.app_table Service.app_metrics Service.app_stdout
         Main.webhook_result Main.webhook_dup Main.webhook_message_id].
    change (422 <? 400)%Z with false. cbv iota.
    repeat split; try discriminate.
    intros Hl. unfold LoggingUtils.log_request, LoggingUtils.log.
    cbn [LoggingUtils.record_level LoggingUtils.levelno].
    assert ((effective_level <=? 40) = true) as -> by (apply Nat.leb_le; lia).
    eexists. split; [reflexivity|]. repeat split. intros [=].
  - (* stored or duplicate *)
    cbn [Service.call_next Service.logging_middleware Main.respond
         Main.status_code fst snd option_map
         Service.app_table Service.app_metrics Service.app_stdout
         Main.webhook_result Main.webhook_dup Main.webhook_message_id].
    change (200 <? 400)%Z with true. cbv iota.
    unfold LoggingUtils.log_request, LoggingUtils.log.
    cbn [LoggingUtils.record_level LoggingUtils.levelno].
    split; [reflexivity|]. split; [reflexivity|].
    split; [destruct dup; reflexivity|].
    split; [destruct dup; reflexivity|].
    split.
    + intros Hl _. apply Nat.leb_gt in Hl. now rewrite Hl.
    + intros Hl. apply Nat.leb_le in Hl. rewrite Hl.
      eexists. split; [reflexivity|].
      destruct dup; repeat split; discriminate.
Qed.

Lemma result_name_created (o : Main.outcome) :
  o <> Main.created -> Service.result_name o <> "created".
Proof. destruct o; intros H; try discriminate. congruence. Qed.

Lemma value_inc_le {K : Type} (eqb : K -> K -> bool) (k k' : K)
    (c : list (K * nat)) :
  Metrics.value eqb k' c <= Metrics.value eqb k' (Metrics.inc eqb k c).
Proof.
  unfold Metrics.value. induction c as [|[k0 n] c IH]; cbn [Metrics.inc find fst].
  - destruct (eqb k k'); cbn [snd]; lia.
  - destruct (eqb k0 k) eqn:E; cbn [find fst].
    + destruct (eqb k0 k'); cbn [snd]; lia.
    + destruct (eqb k0 k'); [lia|exact IH].
Qed.

(** What one request adds to the counts. *)
Lemma post_webhook_step (a : Service.Arrival pyfloat) (app : Service.App pyfloat) :
  let app' := snd (Service.post_webhook round2 json_loads secret effective_level a app) in
  let created m :=
    Metrics.value String.eqb "created" (Metrics.webhook_requests_total m) in
  exists n : nat,
    n <= 1
    /\ total (Metrics.http_requests_total (Service.app_metrics app'))
       = total (Metrics.http_requests_total (Service.app_metrics app)) + n
    /\ total (Metrics.webhook_requests_total (Service.app_metrics app'))
       = total (Metrics.webhook_requests_total (Service.app_metrics app)) + n
    /\ List.length (Metrics.observations "/webhook"
                      (Metrics.request_latency_ms (Service.app_metrics app')))
       = List.length (Metrics.observations "/webhook"
                        (Metrics.request_latency_ms (Service.app_metrics app))) + n
    /\ Service.app_table app'
       = Main.table_of (deliver json_loads secret (Service.app_table app)
                          (Service.arrival_delivery a))
    /\ List.length (Service.app_table app') + created (Service.app_metrics app)
       <= List.length (Service.app_table app) + created (Service.app_metrics app')
    /\ (delivery_env (Service.arrival_delivery a) <> DbExecError ->
        List.length (Service.app_table app') + created (Service.app_metrics app)
        = List.length (Service.app_table app) + created (Service.app_metrics app'))
    /\ (effective_level <= 20 ->
        exists line : list (string * LoggingUtils.value pyfloat),
          Service.app_stdout app' = Service.app_stdout app ++ [line]
          /\ (if is_request_line line then 1 else 0) = n).
Proof.
  intros app' created. subst app'.
  unfold Service.post_webhook, deliver. rewrite service_webhook_eq. cbv zeta.
  destruct a as [[env now body x_signature] request_id latency clock traceback].
  destruct app as [db m out].
  cbn [Service.arrival_delivery Service.arrival_request_id
       Service.arrival_latency_ms Service.arrival_clock Service.arrival_traceback
       delivery_env delivery_now delivery_body delivery_signature
       Service.app_table Service.app_metrics Service.app_stdout].
  pose proof (webhook_outcomes env now db body x_signature) as Hc.
  pose proof (webhook_table_cases json_loads secret env now db body x_signature)
    as Ht.
  cbv zeta in Hc, Ht.
  set (h := Main.webhook json_loads secret env now db body x_signature) in *.
  assert (Htb : (Main.table_of h = db
                 /\ (Main.webhook_result (Main.state_of h) <> Some Main.created
                     \/ env = DbExecError))
                \/ (exists r : Row, Main.table_of h = db ++ [r]
                      /\ Main.webhook_result (Main.state_of h) = Some Main.created)).
  { destruct Ht as [[[H1 H2]|[H1 H2]]|(sg & pd & payload & Ht)]; [auto|auto|].
    right. exists (row_of_payload payload now). tauto. }
  clear Ht. clearbody h. destruct h as [e [mi du re] tb].
  cbn [Main.ending_of Main.state_of Main.table_of Main.webhook_result
       Main.webhook_dup Main.webhook_message_id] in *.
  destruct Hc as [(exc & -> & -> & ->)
                 |[[-> [= -> -> ->]]
                  |[(exc & -> & [= -> -> ->])
                   |(mid & dup & -> & [= -> -> ->])]]].
  - exists 0.
    cbn [Service.call_next Service.logging_middleware
         Service.generic_exception_handler fst snd
         Service.app_table Service.app_metrics Service.app_stdout].
    rewrite !Nat.add_0_r. subst created. cbv beta.
    destruct Htb as [[-> _]|(r & _ & [=])].
    repeat split; auto.
    intros Hl. unfold LoggingUtils.log.
    cbn [LoggingUtils.record_level LoggingUtils.levelno].
    assert ((effective_level <=? 40) = true) as -> by (apply Nat.leb_le; lia).
    eexists. split; reflexivity.
  - exists 1.
    cbn [Service.call_next Service.logging_middleware Main.respond
         Main.status_code fst snd option_map Service.result_name
         Service.app_table Service.app_metrics Service.app_stdout
         Main.webhook_result Main.webhook_dup Main.webhook_message_id
         Metrics.record_request Metrics.record_webhook_result
         Metrics.http_requests_total Metrics.webhook_requests_total
         Metrics.request_latency_ms].
    subst created. cbv beta.
    cbn [Metrics.webhook_requests_total Metrics.record_request
         Metrics.record_webhook_result].
    rewrite !total_inc, observations_observe_same, length_app.
    rewrite (value_inc_other String.eqb String.eqb_eq) by discriminate.
    destruct Htb as [[-> _]|(r & _ & [=])].
    cbn [List.length]. repeat split; try lia.
    intros Hl. change (401 <? 400)%Z with false. cbv iota.
    unfold LoggingUtils.log_request, LoggingUtils.log.
    cbn [LoggingUtils.record_level LoggingUtils.levelno].
    assert ((effective_level <=? 40) = true) as -> by (apply Nat.leb_le; lia).
    eexists. split; reflexivity.
  - exists 1.
    cbn [Service.call_next Service.logging_middleware Main.respond
         Main.status_code fst snd option_map Service.result_name
         Service.app_table Service.app_metrics Service.app_stdout
         Main.webhook_result Main.webhook_dup Main.webhook_message_id
         Metrics.record_request Metrics.record_webhook_result
         Metrics.http_requests_total Metrics.webhook_requests_total
         Metrics.request_latency_ms].
    subst created. cbv beta.
    cbn [Metrics.webhook_requests_total Metrics.record_request
         Metrics.record_webhook_result].
    rewrite !total_inc, observations_observe_same, length_app.
    rewrite (value_inc_other String.eqb String.eqb_eq) by discriminate.
    destruct Htb as [[-> _]|(r & _ & [=])].
    cbn [List.length]. repeat split; try lia.
    intros Hl. change (422 <? 400)%Z with false. cbv iota.
    unfold LoggingUtils.log_request, LoggingUtils.log.
    cbn [LoggingUtils.record_level LoggingUtils.levelno].
    assert ((effective_level <=? 40) = true) as -> by (apply Nat.leb_le; lia).
    eexists. split; reflexivity.
  - exists 1.
    cbn [Service.call_next Service.logging_middleware Main.respond
         Main.status_code fst snd option_map
         Service.app_table Service.app_metrics Service.app_stdout
         Main.webhook_result Main.webhook_dup Main.webhook_message_id
         Metrics.record_request Metrics.record_webhook_result
         Metrics.http_requests_total Metrics.webhook_requests_total
         Metrics.request_latency_ms].
    subst created. cbv beta.
    cbn [Metrics.webhook_requests_total Metrics.record_request
         Metrics.record_webhook_result].
    rewrite !total_inc, observations_observe_same, length_app.
    assert (Hlog : effective_level <= 20 ->
              exists line : list (string * LoggingUtils.value pyfloat),
                LoggingUtils.log_request round2 effective_level clock request_id
                  "POST" "/webhook" 200 latency (Some mid) (Some dup)
                  (Some (Service.result_name
                           (if dup then Main.duplicate else Main.created)))
                  (if (200 <? 400)%Z then LoggingUtils.INFO else LoggingUtils.ERROR)
                  out
                = out ++ [line]
                /\ (if is_request_line line then 1 else 0) = 1).
    { intros Hl. change (200 <? 400)%Z with true. cbv iota.
      unfold LoggingUtils.log_request, LoggingUtils.log.
      cbn [LoggingUtils.record_level LoggingUtils.levelno].
      apply Nat.leb_le in Hl. rewrite Hl.
      eexists. split; reflexivity. }
    cbn [List.length].
    destruct dup.
    + cbn [Service.result_name].
      rewrite (value_inc_other String.eqb String.eqb_eq) by discriminate.
      destruct Htb as [[-> _]|(r & _ & [=])].
      repeat split; try lia. exact Hlog.
    + cbn [Service.result_name].
      rewrite (value_inc_same String.eqb String.eqb_eq).
      destruct Htb as [[-> [Hne|He]]|(r & -> & _)].
      * congruence.
      * repeat split; try lia; [congruence|exact Hlog].
      * rewrite length_app. cbn [List.length].
        repeat split; try lia. exact Hlog.
Qed.

Lemma request_lines_snoc (out : LoggingUtils.output pyfloat)
    (line : list (string * LoggingUtils.value pyfloat)) :
  request_lines (out ++ [line])
  = request_lines out + (if is_request_line line then 1 else 0).
Proof.
  unfold request_lines. rewrite filter_app, length_app. cbn [filter].
  destruct (is_request_line line); reflexivity.
Qed.

(** X18.  Over any run of webhook requests the metrics and the log tell the
    same story.  The requests counted by path and status, the requests
    counted by result and the latencies observed all grow by the same
    number, the number of requests the endpoint answered itself; the table
    grows by at most the growth of the [created] count, and by exactly
    that when no insert met a failing statement; the table is the one the
    endpoint alone would leave.  A logger at level INFO or below writes one
    line per request, and as many [request completed] lines as requests
    were counted. *)
Theorem run_counters_agree :
  forall (arrivals : list (Service.Arrival pyfloat)) (app : Service.App pyfloat),
    let app' := Service.run round2 json_loads secret effective_level arrivals app in
    exists answered : nat,
      answered <= List.length arrivals
      /\ total (Metrics.http_requests_total (Service.app_metrics app'))
         = total (Metrics.http_requests_total (Service.app_metrics app)) + answered
      /\ total (Metrics.webhook_requests_total (Service.app_metrics app'))
         = total (Metrics.webhook_requests_total (Service.app_metrics app)) + answered
      /\ List.length (Metrics.observations "/webhook"
                        (Metrics.request_latency_ms (Service.app_metrics app')))
         = List.length (Metrics.observations "/webhook"
                          (Metrics.request_latency_ms (Service.app_metrics app)))
           + answered
      /\ Service.app_table app'
         = serve json_loads secret (Service.app_table app)
             (map Service.arrival_delivery arrivals)
      /\ List.length (Service.app_table app')
         + Metrics.value String.eqb "created"
             (Metrics.webhook_requests_total (Service.app_metrics app))
         <= List.length (Service.app_table app)
            + Metrics.value String.eqb "created"
                (Metrics.webhook_requests_total (Service.app_metrics app'))
      /\ (Forall (fun a => delivery_env (Service.arrival_delivery a) <> DbExecError)
            arrivals ->
          List.length (Service.app_table app')
          + Metrics.value String.eqb "created"
              (Metrics.webhook_requests_total (Service.app_metrics app))
          = List.length (Service.app_table app)
            + Metrics.value String.eqb "created"
                (Metrics.webhook_requests_total (Service.app_metrics app')))
      /\ (effective_level <= 20 ->
          List.length (Service.app_stdout app')
          = List.length (Service.app_stdout app) + List.length arrivals
          /\ request_lines (Service.app_stdout app')
             = request_lines (Service.app_stdout app) + answered).
Proof.
  intros arrivals. induction arrivals as [|a arrivals IH]; intros app app'.
  - subst app'. exists 0. cbn [Service.run fold_left List.length map serve].
    rewrite !Nat.add_0_r. repeat split; auto.
  - subst app'. cbn [Service.run fold_left].
    fold (Service.run round2 json_loads secret effective_level arrivals
            (snd (Service.post_webhook round2 json_loads secret effective_level a app))).
    destruct (post_webhook_step a app)
      as (n & Hn & H1 & H2 & H3 & H4 & H5 & H6 & H7).
    set (app1 := snd (Service.post_webhook round2 json_loads secret
                        effective_level a app)) in *.
    destruct (IH app1) as (k & Hk & K1 & K2 & K3 & K4 & K5 & K6 & K7).
    set (app2 := Service.run round2 json_loads secret effective_level arrivals app1)
      in *.
    exists (n + k). cbn [List.length map serve fold_left].
    fold (serve json_loads secret
            (Main.table_of (deliver json_loads secret (Service.app_table app)
                              (Service.arrival_delivery a)))
            (map Service.arrival_delivery arrivals)).
    rewrite <- H4.
    split; [lia|]. split; [lia|]. split; [lia|]. split; [lia|].
    split; [exact K4|]. split; [lia|]. split.
    + intros Hall. inversion Hall as [|a0 l0 Ha Hl]; subst.
      specialize (H6 Ha). specialize (K6 Hl). lia.
    + intros Hl. destruct (H7 Hl) as (line & Hout & Hline).
      destruct (K7 Hl) as [L1 L2].
      rewrite Hout in L1, L2. rewrite length_app in L1. cbn [List.length] in L1.
      rewrite request_lines_snoc, Hline in L2.
      split; lia.
Qed.

End ServiceFacts.

Lemma sample_webhook_created :
  Main.webhook_result
    (Main.state_of
       (Main.webhook sample_loads "testsecret" DbOk "2025-01-15T10:00:01.000000Z"
          [] sample_body (Some sample_signature)))
  = Some Main.created.
Proof. vm_compute. reflexivity. Qed.

Lemma webhook_counts_its_result_witness :
  let m' :=
    snd (Service.webhook (pyfloat := Z) sample_loads "testsecret" DbOk
           "2025-01-15T10:00:01.000000Z" [] sample_body (Some sample_signature)
           Metrics.empty) in
  Metrics.value String.eqb "created" (Metrics.webhook_requests_total m') = 1
  /\ Metrics.value String.eqb "duplicate" (Metrics.webhook_requests_total m') = 0.
Proof.
  intros m'. subst m'.
  pose proof (webhook_counts_its_result Z sample_loads "testsecret" DbOk
                "2025-01-15T10:00:01.000000Z" [] sample_body
                (Some sample_signature) Metrics.empty) as H.
  cbv zeta in H. destruct H as (_ & _ & _ & H).
  rewrite sample_webhook_created in H. destruct H as (_ & H1 & H2).
  split.
  - exact H1.
  - rewrite (H2 "duplicate"); [reflexivity|discriminate].
Defined.

Lemma webhook_request_observed_witness :
  let a :=
    Service.mkArrival (pyfloat := Z)
      (mkDelivery DbOk "2025-01-15T10:00:01.000000Z" sample_body
         (Some sample_signature))
      "0b4f0c1e" 12%Z "2025-01-15T10:00:01.123456" "Traceback" in
  let app' :=
    snd (Service.post_webhook (fun x => x) sample_loads "testsecret" 20 a
           (Service.mkApp [] Metrics.empty [])) in
  exists line : list (string * LoggingUtils.value Z),
    Service.app_stdout app' = [line]
    /\ log_field "level" line = Some (LoggingUtils.VStr "INFO")
    /\ log_field "result" line = Some (LoggingUtils.VStr "created")
    /\ log_field "dup" line = Some (LoggingUtils.VBool false).
Proof.
  intros a app'.
  pose proof (webhook_request_observed Z (fun x => x) sample_loads "testsecret" 20
                a (Service.mkApp [] Metrics.empty [])) as H.
  cbv zeta in H. destruct H as (_ & _ & H).
  cbn [a Service.arrival_delivery delivery_env delivery_now delivery_body
       delivery_signature Service.app_table] in H.
  rewrite sample_webhook_created in H.
  destruct H as (_ & _ & _ & H).
  destruct (H (le_n 20)) as (line & H1 & _ & H3 & _ & _ & _ & _ & H8 & _ & _ & H11 & _).
  exists line. repeat split; assumption.
Defined.

Lemma run_counters_agree_witness :
  let first :=
    Service.mkArrival (pyfloat := Z)
      (mkDelivery DbOk "2025-01-15T10:00:01.000000Z" sample_body
         (Some sample_signature))
      "0b4f0c1e" 12%Z "2025-01-15T10:00:01.123456" "Traceback" in
  let replay :=
    Service.mkArrival (pyfloat := Z)
      (mkDelivery DbOk "2025-01-15T10:00:02.000000Z" sample_body
         (Some sample_signature))
      "7a1d9e30" 3%Z "2025-01-15T10:00:02.123456" "Traceback" in
  let unsigned :=
    Service.mkArrival (pyfloat := Z)
      (mkDelivery DbOk "2025-01-15T10:00:03.000000Z" sample_body None)
      "c55e2b8f" 1%Z "2025-01-15T10:00:03.123456" "Traceback" in
  let app' :=
    Service.run (fun x => x) sample_loads "testsecret" 20 [first; replay; unsigned]
      (Service.mkApp [] Metrics.empty []) in
  total (Metrics.http_requests_total (Service.app_metrics app'))
  = total (Metrics.webhook_requests_total (Service.app_metrics app'))
  /\ List.length (Service.app_table app')
     = Metrics.value String.eqb "created"
         (Metrics.webhook_requests_total (Service.app_metrics app'))
  /\ List.length (Service.app_stdout app') = 3.
Proof.
  intros first replay unsigned app'.
  destruct (run_counters_agree Z (fun x => x) sample_loads "testsecret" 20
              [first; replay; unsigned] (Service.mkApp [] Metrics.empty []))
    as (n & _ & H1 & H2 & _ & _ & _ & H6 & H7).
  fold app' in H1, H2, H6, H7.
  assert (Hall : Forall
            (fun a => delivery_env (Service.arrival_delivery a) <> DbExecError)
            [first; replay; unsigned])
    by (repeat constructor; discriminate).
  specialize (H6 Hall). destruct (H7 (le_n 20)) as [H8 _].
  cbn [Service.app_metrics Service.app_table Service.app_stdout
       Metrics.http_requests_total Metrics.webhook_requests_total Metrics.empty
       total fold_right List.length Metrics.value find Nat.add] in H1, H2, H6, H8.
  split; [congruence|]. split; [|exact H8].
  rewrite Nat.add_0_r in H6. exact H6.
Defined.

(** ** The middleware on any route *)

Lemma to_int_not_nil (z : Z) :
  Z.to_int z <> Decimal.Pos Decimal.Nil /\ Z.to_int z <> Decimal.Neg Decimal.Nil.
Proof.
  split; intros E; pose proof (DecimalZ.of_to z) as R; rewrite E in R;
    cbn in R; subst z; discriminate.
Qed.

(** Different numbers print differently. *)
Lemma str_of_int_inj (a b : Z) : str_of_int a = str_of_int b -> a = b.
Proof.
  unfold str_of_int. intros H.
  apply (f_equal DecimalString.NilZero.int_of_string) in H.
  rewrite !DecimalString.NilZero.isi in H by apply to_int_not_nil.
  injection H as H. apply (f_equal Z.of_int) in H.
  now rewrite !DecimalZ.of_to in H.
Qed.

Section MiddlewareFacts.

Variable pyfloat : Type.
Variable round2 : pyfloat -> pyfloat.
Variable effective_level : nat.

(** X19.  The middleware on any route.  When [call_next] raises, the
    exception passes on and nothing is logged or counted.  Otherwise the
    response passes on unchanged; the request is counted once under its
    path and status and under no other pair (different statuses never
    share a label), its latency is observed under its path only, and the
    webhook results are left alone.  A logger at level INFO or below
    writes one line, at ERROR exactly for a status of 400 or more, with
    method, path, status and rounded latency, and with [message_id],
    [dup] and [result] exactly as far as the handler set them; a logger
    above ERROR writes nothing. *)
Theorem logging_middleware_spec :
  forall (request_id method path : string) (latency_ms : pyfloat) (clock : string)
         (state : Main.RequestState) (out : LoggingUtils.output pyfloat)
         (m : Metrics.Registry pyfloat),
    (forall exc : exn,
       Service.logging_middleware round2 effective_level request_id method path
         latency_ms clock (Raise exc) state out m
       = (Raise exc, out, m))
    /\ forall response : Main.Response,
         let r := Service.logging_middleware round2 effective_level request_id
                    method path latency_ms clock (Ok response) state out m in
         let status := Main.status_code response in
         fst (fst r) = Ok response
         /\ Metrics.value Metrics.labels_eqb (path, str_of_int status)
              (Metrics.http_requests_total (snd r))
            = S (Metrics.value Metrics.labels_eqb (path, str_of_int status)
                   (Metrics.http_requests_total m))
         /\ (forall (path' : string) (status' : Z),
               (path', status') <> (path, status) ->
               Metrics.value Metrics.labels_eqb (path', str_of_int status')
                 (Metrics.http_requests_total (snd r))
               = Metrics.value Metrics.labels_eqb (path', str_of_int status')
                   (Metrics.http_requests_total m))
         /\ Metrics.observations path (Metrics.request_latency_ms (snd r))
            = Metrics.observations path (Metrics.request_latency_ms m) ++ [latency_ms]
         /\ (forall path' : string,
               path' <> path ->
               Metrics.observations path' (Metrics.request_latency_ms (snd r))
               = Metrics.observations path' (Metrics.request_latency_ms m))
         /\ Metrics.webhook_requests_total (snd r) = Metrics.webhook_requests_total m
         /\ (40 < effective_level -> snd (fst r) = out)
         /\ (effective_level <= 20 ->
             exists line : list (string * LoggingUtils.value pyfloat),
               snd (fst r) = out ++ [line]
               /\ log_field "level" line
                  = Some (LoggingUtils.VStr
                            (if (status <? 400)%Z then "INFO" else "ERROR"))
               /\ log_field "message" line
                  = Some (LoggingUtils.VStr "request completed")
               /\ log_field "request_id" line = Some (LoggingUtils.VStr request_id)
               /\ log_field "method" line = Some (LoggingUtils.VStr method)
               /\ log_field "path" line = Some (LoggingUtils.VStr path)
               /\ log_field "status" line = Some (LoggingUtils.VInt status)
               /\ log_field "latency_ms" line
                  = Some (LoggingUtils.VFloat (round2 latency_ms))
               /\ log_field "message_id" line
                  = option_map LoggingUtils.VStr (Main.webhook_message_id state)
               /\ log_field "dup" line
                  = option_map LoggingUtils.VBool (Main.webhook_dup state)
               /\ log_field "result" line
                  = option_map (fun o => LoggingUtils.VStr (Service.result_name o))
                      (Main.webhook_result state)
               /\ log_field "exception" line = None).
Proof.
  intros request_id method path latency_ms clock state out m.
  split; [reflexivity|].
  intros response r status. subst r status.
  cbn [Service.logging_middleware fst snd Metrics.record_request
       Metrics.http_requests_total Metrics.webhook_requests_total
       Metrics.request_latency_ms].
  split; [reflexivity|].
  split; [apply value_inc_same; apply labels_eqb_spec|].
  split.
  { intros path' status' Hne. apply value_inc_other; [apply labels_eqb_spec|].
    intros [= -> H]. apply str_of_int_inj in H. congruence. }
  split; [apply observations_observe_same|].
  split; [intros path' Hne; apply observations_observe_other; congruence|].
  split; [reflexivity|].
  unfold LoggingUtils.log_request, LoggingUtils.log.
  cbn [LoggingUtils.record_level].
  split.
  - intros Hl.
    assert ((effective_level <=?
               LoggingUtils.levelno
                 (if (Main.status_code response <? 400)%Z
                  then LoggingUtils.INFO else LoggingUtils.ERROR)) = false) as ->.
    { apply Nat.leb_gt. destruct (Main.status_code response <? 400)%Z; simpl; lia. }
    reflexivity.
  - intros Hl.
    assert ((effective_level <=?
               LoggingUtils.levelno
                 (if (Main.status_code response <? 400)%Z
                  then LoggingUtils.INFO else LoggingUtils.ERROR)) = true) as ->.
    { apply Nat.leb_le. destruct (Main.status_code response <? 400)%Z; simpl; lia. }
    eexists. split; [reflexivity|].
    destruct state as [[mid|] [dup|] [res|]];
      destruct (Main.status_code response <? 400)%Z; repeat split.
Qed.

End MiddlewareFacts.

Lemma logging_middleware_spec_witness :
  let r := Service.logging_middleware (pyfloat := Z) (fun x => x) 20 "0b4f0c1e"
             "GET" "/messages" 7%Z "2025-01-15T10:00:01.123456"
             (Ok (Main.mkResponse 422 Main.RequestErrors)) Main.fresh_state
             [] Metrics.empty in
  Metrics.value Metrics.labels_eqb ("/messages", "200")
    (Metrics.http_requests_total (snd r)) = 0
  /\ exists line : list (string * LoggingUtils.value Z),
       snd (fst r) = [line]
       /\ log_field "level" line = Some (LoggingUtils.VStr "ERROR")
       /\ log_field "result" line = None.
Proof.
  intros r.
  destruct (logging_middleware_spec Z (fun x => x) 20 "0b4f0c1e" "GET" "/messages"
              7%Z "2025-01-15T10:00:01.123456" Main.fresh_state [] Metrics.empty)
    as [_ H].
  destruct (H (Main.mkResponse 422 Main.RequestErrors))
    as (_ & _ & H3 & _ & _ & _ & _ & H8).
  fold r in H3, H8. split.
  - exact (H3 "/messages" 200%Z ltac:(discriminate)).
  - destruct (H8 (le_n 20))
      as (line & L1 & L2 & _ & _ & _ & _ & _ & _ & _ & _ & L11 & _).
    exists line. repeat split; assumption.
Defined.

(** ** The time stamp of a log line *)

(** X20.  The [ts] of every log line is the clock reading cut to
    milliseconds with [Z] appended: 24 characters, in the very format the
    webhook demands of a message's [ts], so that log lines, too, sort by
    time when sorted as text. *)
Theorem log_line_ts_format :
  forall (pyfloat : Type) (clock : string) (record : LoggingUtils.LogRecord pyfloat),
    strftime_reading clock ->
    exists ts : string,
      log_field "ts" (LoggingUtils.format clock record)
      = Some (LoggingUtils.VStr ts)
      /\ ts = (String.substring 0 23 clock ++ "Z")%string
      /\ String.length ts = 24
      /\ WebhookPayload.validate_ts_iso8601 ts = Ok ts.
Proof.
  intros pyfloat clock record
    (y1 & y2 & y3 & y4 & m1 & m2 & d1 & d2 & h1 & h2 & n1 & n2 & s1 & s2 & us
     & -> & Hd & Hus & Hlen & Hreal).
  destruct us as [|f1 [|f2 [|f3 [|f4 [|f5 [|f6 [|f7 us]]]]]]]; try discriminate.
  exists (stamp y1 y2 y3 y4 m1 m2 d1 d2 h1 h2 n1 n2 s1 s2
            (String "." (String f1 (String f2 (String f3 EmptyString))) ++ "Z")).
  split; [reflexivity|]. split; [reflexivity|]. split; [reflexivity|].
  apply validate_ts_spec. split; [reflexivity|].
  exists y1, y2, y3, y4, m1, m2, d1, d2, h1, h2, n1, n2, s1, s2,
    (String "."%char (String f1 (String f2 (String f3 EmptyString)))).
  split; [reflexivity|]. split; [exact Hd|]. split; [|exact Hreal].
  right. exists (String f1 (String f2 (String f3 EmptyString))).
  split; [reflexivity|]. split; [discriminate|].
  unfold digits in *. cbn [forall_string] in *.
  apply andb_true_iff in Hus as [F1 Hus].
  apply andb_true_iff in Hus as [F2 Hus].
  apply andb_true_iff in Hus as [F3 _].
  now rewrite F1, F2, F3.
Qed.

Lemma log_line_ts_format_witness :
  strftime_reading "2025-01-15T10:00:01.123456"
  /\ exists ts : string,
       log_field "ts"
         (LoggingUtils.format (pyfloat := Z) "2025-01-15T10:00:01.123456"
            (LoggingUtils.mkRecord LoggingUtils.INFO "Application started" [] None))
       = Some (LoggingUtils.VStr ts)
       /\ ts = "2025-01-15T10:00:01.123Z"
       /\ WebhookPayload.validate_ts_iso8601 ts = Ok ts.
Proof.
  assert (H : strftime_reading "2025-01-15T10:00:01.123456").
  { exists "2"%char, "0"%char, "2"%char, "5"%char, "0"%char, "1"%char,
      "1"%char, "5"%char, "1"%char, "0"%char, "0"%char, "0"%char,
      "0"%char, "1"%char, "123456".
    split; [reflexivity|]. split; [reflexivity|]. split; [reflexivity|].
    split; [reflexivity|]. unfold real_instant. vm_compute. repeat split; lia. }
  split; [exact H|].
  destruct (log_line_ts_format Z "2025-01-15T10:00:01.123456"
              (LoggingUtils.mkRecord LoggingUtils.INFO "Application started" [] None) H)
    as (ts & H1 & H2 & _ & H4).
  exists ts. split; [exact H1|]. split; [exact H2|exact H4].
Defined.

(** ** Listings in order of time *)

Lemma strongly_sorted_weaken_in {A : Type} (R S : A -> A -> Prop) (l : list A) :
  (forall a b, In a l -> In b l -> R a b -> S a b) ->
  StronglySorted R l -> StronglySorted S l.
Proof.
  intros H Hs. induction Hs as [|a l Hs IH Ha]; constructor.
  - apply IH. intros x y Hx Hy. apply H; now right.
  - rewrite Forall_forall in *. intros y Hy.
    apply H; [now left|now right|auto].
Qed.

Lemma page_rows_in_table (db : table) (limit offset : Z)
    (from_filter since q : option string) (r : Row) :
  In r (Sqlite.limit_offset limit offset
          (Sqlite.order_by MessageStorage.ts_id_leb
             (MessageStorage.matching db from_filter since q))) ->
  In r db.
Proof.
  intros H. apply limit_offset_incl in H.
  apply (Permutation_in _ (Permutation_sym (order_by_perm _ _))) in H.
  unfold MessageStorage.matching in H. now apply filter_In in H as [H _].
Qed.

(** Rows the validator let through, with timestamps of one length, are in
    order of time when they are in order of [ts] and [message_id]. *)
Lemma ts_id_leb_not_later (a b : Row) :
  row_valid a -> row_valid b ->
  String.length (ts a) = String.length (ts b) ->
  MessageStorage.ts_id_leb a b = true -> not_later (ts a) (ts b).
Proof.
  intros (_ & _ & _ & Ha & _) (_ & _ & _ & Hb & _) Hlen Hle.
  destruct (ts_compare_instants _ _ Ha Hb Hlen) as (dt1 & dt2 & E1 & E2 & E3 & _).
  exists dt1, dt2. split; [exact E1|]. split; [exact E2|].
  apply ts_id_leb_ts in Hle. unfold String.leb in Hle. rewrite E3 in Hle.
  destruct (compare_datetime dt1 dt2); discriminate.
Qed.

(** X21.  When every stored row passed the validator and all stored
    timestamps have the same length (the same number of fraction digits),
    every page of every listing is in order of time: what is ordered as
    text is ordered as instants. *)
Theorem get_messages_chronological :
  forall (db : table) (limit offset : Z) (from_filter since q : option string)
         (n : nat),
    Forall row_valid db ->
    Forall (fun r => String.length (ts r) = n) db ->
    StronglySorted
      (fun a b => not_later (MessageStorage.item_ts a) (MessageStorage.item_ts b))
      (MessageStorage.data
         (MessageStorage.get_messages db limit offset from_filter since q)).
Proof.
  intros db limit offset from_filter since q n Hv Hn.
  rewrite get_messages_data.
  apply strongly_sorted_map with (R := fun a b => not_later (ts a) (ts b));
    [auto|].
  apply strongly_sorted_weaken_in
    with (R := fun a b => MessageStorage.ts_id_leb a b = true).
  - intros a b Ha Hb Hle.
    apply page_rows_in_table in Ha, Hb.
    rewrite Forall_forall in Hv, Hn.
    apply ts_id_leb_not_later; auto.
    now rewrite (Hn a Ha), (Hn b Hb).
  - apply limit_offset_sorted, order_by_sorted.
    + apply ts_id_leb_total.
    + apply ts_id_leb_trans.
Qed.

Lemma row_valid_checked (r : Row) :
  message_id r <> EmptyString ->
  Re.match_ E164_PATTERN (from_msisdn r) = true ->
  Re.match_ E164_PATTERN (to_msisdn r) = true ->
  WebhookPayload.validate_ts_iso8601 (ts r) = Ok (ts r) ->
  match text r with Some t => String.length t <= 4096 | None => True end ->
  row_valid r.
Proof.
  intros H1 H2 H3 H4 H5. unfold row_valid.
  apply match_E164 in H2, H3. apply validate_ts_spec in H4 as [_ H4]. auto.
Qed.

Lemma sample_table_valid : Forall row_valid sample_table.
Proof.
  repeat (apply Forall_cons;
          [apply row_valid_checked;
           [discriminate
           |vm_compute; reflexivity
           |vm_compute; reflexivity
           |vm_compute; reflexivity
           |first [exact I|simpl; lia]]|]).
  apply Forall_nil.
Qed.

Lemma get_messages_chronological_witness :
  Forall row_valid sample_table
  /\ Forall (fun r => String.length (ts r) = 20) sample_table
  /\ StronglySorted
       (fun a b => not_later (MessageStorage.item_ts a) (MessageStorage.item_ts b))
       (MessageStorage.data
          (MessageStorage.get_messages sample_table 50 0 None None None)).
Proof.
  assert (Hn : Forall (fun r => String.length (ts r) = 20) sample_table)
    by (repeat constructor).
  split; [exact sample_table_valid|]. split; [exact Hn|].
  exact (get_messages_chronological sample_table 50 0 None None None 20
           sample_table_valid Hn).
Defined.

(** With timestamps of different lengths a listing can run against time:
    both rows pass the validator, and the later message comes first. *)
Remark get_messages_mixed_fractions :
  Forall row_valid mixed_table
  /\ map MessageStorage.item_message_id
       (MessageStorage.data
          (MessageStorage.get_messages mixed_table 50 0 None None None))
     = ["m2"; "m1"].
Proof.
  split; [|vm_compute; reflexivity].
  repeat (apply Forall_cons;
          [apply row_valid_checked;
           [discriminate
           |vm_compute; reflexivity
           |vm_compute; reflexivity
           |vm_compute; reflexivity
           |first [exact I|simpl; lia]]|]).
  apply Forall_nil.
Qed.
